(* ===== verification/_CoqProject ===== *)
-Q . S2P
Prelude.v
Ecdf.v
RoleStats.v
Preference.v
Int32.v
QString.v
HistFigure.v
