(* ===== verification/Prelude.v ===== *)
(** * A verification development for Dwarf Therapist's role rating,
      preference matching and historical-figure kill tallies

    This library models three parts of Dwarf Therapist (Longsight fork) and
    proves the properties that make them correct.  The sources are
    [src/inc/rolestats.h], [src/src/preference.cpp] and
    [src/src/histfigure.cpp]; [spec.md] describes the statistical core.

    ** The program and how its parts interact

    - The role rating engine [RoleStats] (header [src/inc/rolestats.h]; its
      implementation file is not part of the sources, so its operations are
      modelled from [spec.md] sections 4.1 and 4.2) turns a raw attribute
      sample into ratings in [0,100].  It owns two empirical distribution
      functions [ECDF]: one over the whole sorted sample ([m_raws]) and one
      over the values at or above the median ([m_upper]).
    - [Preference::matches] (preference.cpp) scores a unit's preference
      against a role's preference (0 or 1); the role preference's flags come
      from [set_pref_flags] on a race, plant or weapon, and the weapon check
      asks the game instance ([DFInstance::find_weapon_def]) and the unit
      ([Dwarf::body_size]).
    - [HistFigure] (histfigure.cpp) reads a historical figure's kill lists
      from the game's memory through [DFInstance] and tallies them.

    ** Files

    - [Prelude.v] (this file): the [dt_scope] notations, the clamp used by
      every rating, boolean comparisons on [Q] with their reflection lemmas,
      counting on lists, 32-bit wrap-around, the loop combinator
      [eventually] (every run of a step relation reaches a set of states,
      in the style of coqutil's small-step combinators), the [dt] hint
      database and the tactics [qcase] and [qlra].
    - [Ecdf.v], [Module Ecdf]: the ECDF of spec 4.1: [count_lt]/[count_le]
      (reference counts), the binary search [partition_point] that the
      queries use (its loop body is [bs_next], the loop as a relation
      [bs_iter]), [f_minus], [f_plus] and the smoothed ranks [favg] and
      [fupper].  Theorems: the binary search equals the linear count on a
      sorted sample (equivalence), it terminates on every input (its loop
      relation is well founded and the result does not depend on the fuel
      once the fuel covers the interval), every run of its loop eventually
      exits holding the count (liveness, with [bs_step] and [bs_exit]), the
      queries
      are monotone, lie in [0,1], [f_minus <= f_plus], [f_minus min = 0],
      [f_plus max = 1], at the [i]-th value of a strictly increasing sample
      they are [i/n] and [(i+1)/n], and they respect [==] ([Proper]
      instances).
    - [RoleStats.v], [Module RoleStats]: [TRANSFORM_TYPE], [transform_stats],
      the engine state [RoleStats] (one field per member of the header),
      [find_median], [load_list_stats], [transform_valid],
      [configure_transformations], [calculate_factor_value],
      [range_transform], [init_list], [get_rating], [set_list].
      Theorems: ratings lie in [0,100] and are monotone in the value on
      every engine the constructor builds (the invariant [engine_wf] holds
      there), the strategy selection of [TT_ECDF_RANK_TRY] and of a pinned
      strategy, flat samples rate 50, the factor makes the rating continuous
      at the median, [set_list] rebuilds from scratch, the median halves
      the sample, an engine whose values over the median are all equal
      (spec scenario [1,1,1,1,100]) never adopts an upper strategy, whatever
      was requested, a rank-all engine rates the [i]-th value of a
      strictly increasing sample [100 (2i+1) / 2n] (the composition of the
      engine with [Ecdf.v]), a worked example, and the empty sample, which
      the spec leaves undefined and the model totalises (every value
      rates 50, [empty_sample_rating]).
    - [Preference.v], [Module Preference]: [class Preference] of
      preference.cpp: the record [Preference], the constructors, [add_flag],
      the three [set_pref_flags] overloads (race, plant, weapon) and
      [matches], split into the blocks of its body ([special_block],
      [material_block], [name_fallback], [category_result], [wield_check]).
      The enumeration values of the game headers are the class [DTEnums];
      the theorems hold for every instance.  Theorems: [matches] returns 0
      or 1, its exact-name, weapon and material branches, the flag sets the
      three [set_pref_flags] produce (refinement of a list specification),
      that the special flags stay duplicate-free, and that the item-type
      comparison of [matches] decides the result only when no later
      branch overwrites it; composed with
      [set_pref_flags] on a weapon, [matches] against a role asking for the
      weapon's class succeeds exactly when the unit can wield the weapon.
      The copy constructor
      [Preference_copy] shares the source's [RoleAspect] pointer.
    - [Int32.v], [Module Int32]: the machine arithmetic of histfigure.cpp:
      [vadd] ([VIRTADDR + offset], quint32 addition), [to_int32] (storing a
      value in an [int]), [eqm32] (equality modulo 2^32, an equivalence
      with [Proper] instances for [+] and [-]), with the laws the kill
      tally uses.
    - [QString.v], [Module QString]: [QString::arg] on the format strings
      of histfigure.cpp: [qarg] replaces every occurrence of the lowest
      place marker [%1]..[%9] ([lowest_marker], [replace_marker]); the
      lemmas say that a prefix with no [%] ([pct_free]) passes through.
    - [HistFigure.v], [Module HistFigure]: [class HistFigure] of
      histfigure.cpp over the game memory [DFInstance] (a record of the
      reads the class makes, with a string store) and the [MemoryLayout]
      offsets: the constructor [HistFigure_new], [read_kills], the cached
      [notable_kills]/[other_kills], [write_nick_name] and
      [has_fake_identity].  Theorems: when [read_kills] fails, that its
      total is the old total plus the kills at the site (modulo 2^32, and
      exactly when it fits an [int]), the sorting of both kill lists, the
      text of the kill lines ([QString::arg] is [qarg]), the caching of
      the kill lists, the effect of [write_nick_name], and the defects of
      [has_fake_identity] (repeated nickname addresses, the null identity,
      and birth fields that hold addresses: they do not depend on the
      memory at those addresses).

    Interfaces: [RoleStats] uses the ECDF only through [f_minus], [f_plus],
    [favg] and [fupper], whose laws are the theorems of [Ecdf.v];
    [Preference] is parameterised by the class [DTEnums] and the records of
    game queries ([Race], [Plant], [ItemWeaponSubtype], [Dwarf]);
    [HistFigure] by the class [HistHelpers] (string helpers and the sort
    comparators) and the records [DFInstance] and [MemoryLayout], and it
    uses [Int32] and [QString] for its arithmetic and its text.

    ** Numbers, bounds and fuel

    The C++ [double]s are modelled by exact rationals [Q]; every division
    by a literal ([/4.0], [/50.0]) is a multiplication by the exact
    reciprocal.  Rounding is not modelled: the theorems state the exact-
    arithmetic behaviour the floating-point code approximates.  Addresses
    ([VIRTADDR], 32 bits) are [Z] reduced modulo 2^32 with [wrap32]; [int]
    results are reduced to 32-bit two's complement.  The ECDF's binary
    search takes fuel; [partition_point] gives it the sample length, which is
    enough because every round shrinks the interval by at least one
    ([bs_next_width]); [partition_point_aux_fuel] shows that any larger
    fuel gives the same result.

    ** What is not modelled

    - rolestats.cpp, ecdf.h and ecdf.cpp are not among the sources: the
      rating engine's operations and the ECDF are modelled from the spec,
      with the choices it leaves open (the multi-strategy blend, the
      validation tolerance, the priority order) stated in [RoleStats.v].
      Where the spec and the comments of rolestats.h disagree the model
      follows the header: [m_upper] holds the values over the median
      (lines 66 and 69), and the rank of the whole sample is the plain
      average [favg] of the two ECDF limits (line 67), the shifted rank
      [fupper] being the upper one's (line 70).
    - How [DFInstance] reads another process's memory, the game objects'
      own code, the logger, [GameDataReader] and [RoleAspect]: only the
      values they return to the modelled functions are modelled.
    - Floating-point rounding, Qt's object tree and signals.
    - The declarations of rolestats.h that are not data members (the
      member-function prototypes) have no code of their own to model; the
      operations they declare are modelled from the spec as above.
    - The destructors: [~Preference] is empty and [~HistFigure] only clears
      its two pointers to the game instance and the layout, which the model
      passes as arguments instead of storing.
*)

From Stdlib Require Import QArith Qminmax Lqa ZArith Lia List Bool.
Import ListNotations.

Declare Scope dt_scope.
Delimit Scope dt_scope with dt.
Open Scope Q_scope.

(** ** Boolean comparisons on [Q], as the C++ code writes [<] and [<=] *)

Definition Qlt_bool (x y : Q) : bool := negb (Qle_bool y x).

Notation "x <=? y" := (Qle_bool x y) (at level 70, no associativity) : dt_scope.
Notation "x <? y" := (Qlt_bool x y) (at level 70, no associativity) : dt_scope.
Open Scope dt_scope.

(** ** The operations shared by the components *)

(** The clamp that bounds every rating
    ([if (r < lo) r = lo; if (r > hi) r = hi;]). *)
Definition clamp (lo hi x : Q) : Q :=
  if x <? lo then lo else if hi <? x then hi else x.

(** The number of elements satisfying [p]. *)
Definition count_if {A} (p : A -> bool) (l : list A) : nat :=
  length (filter p l).

(** Sum of a list of rationals ([foreach ... sum += v]). *)
Definition qsum (l : list Q) : Q := fold_right Qplus 0 l.

(** The exact ratio [c / n] of two counts. *)
Definition ratio (c n : nat) : Q := Z.of_nat c # Pos.of_nat n.

(** 32-bit wrap-around of [VIRTADDR] (quint32) arithmetic. *)
Definition wrap32 (z : Z) : Z := Z.modulo z (2 ^ 32).

(** A loop as a step from a state to the set of states it may reach next,
    and the states from which every run reaches [P] ([eventually]); a
    terminating, deterministic loop has one successor. *)
Section Eventually.
Context {S : Type} (step : S -> (S -> Prop) -> Prop).

Inductive eventually (P : S -> Prop) (s : S) : Prop :=
  | eventually_done : P s -> eventually P s
  | eventually_step (mid : S -> Prop) :
      step s mid -> (forall s', mid s' -> eventually P s') -> eventually P s.
End Eventually.

Lemma Qlt_bool_iff (x y : Q) : (x <? y) = true <-> x < y.
Proof.
  unfold Qlt_bool. rewrite negb_true_iff, <- not_true_iff_false, Qle_bool_iff.
  split; [apply Qnot_le_lt | intros H H'; apply (Qlt_not_le _ _ H H')].
Qed.

Lemma Qle_bool_false (x y : Q) : (x <=? y) = false <-> y < x.
Proof.
  rewrite <- not_true_iff_false, Qle_bool_iff.
  split; [apply Qnot_le_lt | intros H H'; apply (Qlt_not_le _ _ H H')].
Qed.

Lemma Qlt_bool_false (x y : Q) : (x <? y) = false <-> y <= x.
Proof. unfold Qlt_bool. rewrite negb_false_iff. apply Qle_bool_iff. Qed.

#[export] Instance Qlt_bool_comp : Proper (Qeq ==> Qeq ==> eq) Qlt_bool.
Proof. intros x x' Hx y y' Hy. unfold Qlt_bool. now rewrite Hx, Hy. Qed.

(** [qcase] splits on every boolean comparison of the goal and turns each
    branch's condition into the proposition it decides. *)
Ltac qrefl_in H :=
  first [ apply Qle_bool_iff in H | apply Qle_bool_false in H
        | apply Qlt_bool_iff in H | apply Qlt_bool_false in H ].

Ltac qcase :=
  repeat match goal with
  | |- context [Qle_bool ?a ?b] =>
      let E := fresh "E" in destruct (Qle_bool a b) eqn:E; qrefl_in E
  | |- context [Qlt_bool ?a ?b] =>
      let E := fresh "E" in destruct (Qlt_bool a b) eqn:E; qrefl_in E
  end.

(** [qlra]: linear arithmetic on [Q] after the case splits. *)
Ltac qlra := qcase; simpl in *; lra.

(** ** Lemmas on [clamp] *)


Lemma clamp_bounds (lo hi x : Q) : lo <= hi -> lo <= clamp lo hi x <= hi.
Proof. unfold clamp. intros. qlra. Qed.

Lemma clamp_mono (lo hi x y : Q) :
  lo <= hi -> x <= y -> clamp lo hi x <= clamp lo hi y.
Proof. unfold clamp. intros. qlra. Qed.

Lemma clamp_id (lo hi x : Q) : lo <= x -> x <= hi -> clamp lo hi x == x.
Proof. unfold clamp. intros. qlra. Qed.

#[export] Instance clamp_comp : Proper (Qeq ==> Qeq ==> Qeq ==> Qeq) clamp.
Proof.
  intros lo lo' Hl hi hi' Hh x x' Hx. unfold clamp.
  rewrite (Qlt_bool_comp x x' Hx lo lo' Hl), (Qlt_bool_comp hi hi' Hh x x' Hx).
  destruct (x' <? lo'), (hi' <? x'); assumption.
Qed.

(** ** Lemmas on [count_if] *)


Lemma count_if_le {A} (p : A -> bool) (l : list A) : (count_if p l <= length l)%nat.
Proof.
  unfold count_if. induction l as [|a l IH]; simpl; [lia|].
  destruct (p a); simpl; lia.
Qed.

Lemma count_if_cons {A} (p : A -> bool) (a : A) (l : list A) :
  count_if p (a :: l) = ((if p a then 1 else 0) + count_if p l)%nat.
Proof. unfold count_if. simpl. destruct (p a); reflexivity. Qed.

Lemma count_if_mono {A} (p q : A -> bool) (l : list A) :
  (forall a, p a = true -> q a = true) -> (count_if p l <= count_if q l)%nat.
Proof.
  unfold count_if. intros Hpq. induction l as [|a l IH]; simpl; [lia|].
  destruct (p a) eqn:Ep; [rewrite (Hpq a Ep)|destruct (q a)]; simpl; lia.
Qed.

Lemma count_if_all {A} (p : A -> bool) (l : list A) :
  Forall (fun a => p a = true) l -> count_if p l = length l.
Proof.
  unfold count_if. induction 1 as [|a l Ha _ IH]; simpl; [reflexivity|].
  now rewrite Ha; simpl; rewrite IH.
Qed.

Lemma count_if_none {A} (p : A -> bool) (l : list A) :
  Forall (fun a => p a = false) l -> count_if p l = 0%nat.
Proof.
  unfold count_if. induction 1 as [|a l Ha _ IH]; simpl; [reflexivity|].
  now rewrite Ha.
Qed.


Lemma length_pos_nonempty {A} (l : list A) : l <> [] -> (0 < length l)%nat.
Proof. destruct l; [contradiction|simpl; lia]. Qed.

(** ** Lemmas on [ratio] *)


Lemma ratio_le_mono (c1 c2 n : nat) : (c1 <= c2)%nat -> ratio c1 n <= ratio c2 n.
Proof. unfold ratio, Qle; simpl. intros. nia. Qed.

Lemma ratio_nonneg (c n : nat) : 0 <= ratio c n.
Proof. unfold ratio, Qle; simpl. lia. Qed.

Lemma pos_of_nat_Z (n : nat) : (0 < n)%nat -> Z.pos (Pos.of_nat n) = Z.of_nat n.
Proof. intros. destruct n; [lia|]. rewrite <- Pos.of_nat_succ, Zpos_P_of_succ_nat. lia. Qed.

Lemma ratio_le_1 (c n : nat) : (c <= n)%nat -> ratio c n <= 1.
Proof.
  unfold ratio, Qle; simpl. intros. destruct n as [|n]; [simpl; lia|].
  rewrite pos_of_nat_Z by lia. lia.
Qed.

(** The midpoint of the [i]-th step of an [n]-step ECDF. *)
Lemma ratio_mid (i n : nat) :
  (0 < n)%nat -> (ratio (S i) n + ratio i n) * (1#2) == ratio (2 * i + 1) (2 * n).
Proof.
  intros Hn. unfold ratio, Qeq, Qplus, Qmult. cbn [Qnum Qden].
  rewrite !Pos2Z.inj_mul, !pos_of_nat_Z by lia. nia.
Qed.

Lemma ratio_n (n : nat) : (0 < n)%nat -> ratio n n == 1.
Proof. unfold ratio, Qeq; simpl. intros. rewrite pos_of_nat_Z by lia. lia. Qed.

Create HintDb dt.
#[export] Hint Resolve clamp_bounds clamp_mono ratio_le_mono ratio_nonneg
  ratio_le_1 count_if_le : dt.
