(* ===== verification/Ecdf.v ===== *)
(** * The empirical distribution function (spec 4.1, [ECDF] of rolestats.h)

    [Module Ecdf] holds the sorted snapshot an [ECDF] is built over, the
    reference counts [count_lt] / [count_le], the binary search
    [partition_point] that the queries use for their O(log n) cost, and
    the queries [f_minus], [f_plus] and the two smoothed ranks: [favg]
    (the "favg" of rolestats.h line 67) and [fupper] (line 70).
    The implementation file of [ECDF] is not among the sources: the
    definitions follow spec 4.1. *)

From Stdlib Require Import Arith QArith Lqa List Lia Sorted Bool Morphisms Wellfounded Wf_nat.
From S2P Require Import Prelude.
Import ListNotations.
Open Scope Q_scope.
Open Scope dt_scope.

Module Ecdf.

(** ** Reference counts *)

Definition count_lt (x : Q) (l : list Q) : nat := count_if (fun y => y <? x) l.
Definition count_le (x : Q) (l : list Q) : nat := count_if (fun y => y <=? x) l.

(** ** Binary search

    [partition_point_aux p l fuel lo hi] searches [lo, hi) for the first
    index whose element fails [p]; every round halves the interval, and
    [fuel] bounds the number of rounds. *)

(** One round of the loop [while (lo < hi)]: probe the middle element and
    keep the half that still contains the partition point. *)
Definition bs_next (p : Q -> bool) (l : list Q) (lo hi : nat) : nat * nat :=
  let mid := Nat.div (lo + hi) 2 in
  if p (nth mid l 0) then (S mid, hi) else (lo, mid).

Fixpoint partition_point_aux (p : Q -> bool) (l : list Q) (fuel lo hi : nat) : nat :=
  match fuel with
  | O => lo
  | S fuel' =>
      if Nat.ltb lo hi then
        let s := bs_next p l lo hi in partition_point_aux p l fuel' (fst s) (snd s)
      else lo
  end.

Definition partition_point (p : Q -> bool) (l : list Q) : nat :=
  partition_point_aux p l (length l) 0 (length l).

(** The loop as a relation: [bs_iter p l s' s] when the loop, in state
    [s = (lo, hi)] with [lo < hi], runs one round and reaches [s']. *)
Definition bs_iter (p : Q -> bool) (l : list Q) (s' s : nat * nat) : Prop :=
  (fst s < snd s)%nat /\ s' = bs_next p l (fst s) (snd s).

(** One round as a step to the set of next states, and the exit of
    [while (lo < hi)]. *)
Definition bs_step (p : Q -> bool) (l : list Q) (s : nat * nat) (next : nat * nat -> Prop) : Prop :=
  (fst s < snd s)%nat /\ next (bs_next p l (fst s) (snd s)).

Definition bs_exit (s : nat * nat) : Prop := (snd s <= fst s)%nat.

(** ** The ECDF object: an immutable sorted snapshot *)

Record ECDF := mkECDF { ecdf_data : list Q }.

Definition ECDF_new (sorted : list Q) : ECDF := mkECDF sorted.

Definition ecdf_n (e : ECDF) : nat := length (ecdf_data e).

(** Fraction of the sample strictly below [x]. *)
Definition f_minus (e : ECDF) (x : Q) : Q :=
  ratio (partition_point (fun y => y <? x) (ecdf_data e)) (ecdf_n e).

(** Fraction of the sample at or below [x]. *)
Definition f_plus (e : ECDF) (x : Q) : Q :=
  ratio (partition_point (fun y => y <=? x) (ecdf_data e)) (ecdf_n e).

(** [favg]: the average of the two limits, in [0,1]. *)
Definition favg (e : ECDF) (x : Q) : Q := (f_plus e x + f_minus e x) * (1#2).

(** [fupper]: [((fplus(x) + fminus(x))/4.0)+0.5], in [1/2,1]. *)
Definition fupper (e : ECDF) (x : Q) : Q := (f_plus e x + f_minus e x) * (1#4) + (1#2).

(** The well-formedness of an ECDF: its snapshot is sorted. *)
Definition ecdf_wf (e : ECDF) : Prop := Sorted Qle (ecdf_data e).

(** [k] splits [l]: [p] holds before it and fails from it on. *)
Definition splits_at (p : Q -> bool) (l : list Q) (k : nat) : Prop :=
  (k <= length l)%nat /\
  (forall i, (i < k)%nat -> p (nth i l 0) = true) /\
  (forall i, (k <= i < length l)%nat -> p (nth i l 0) = false).

(** ** The binary search finds the partition point *)

Lemma mid_bounds (lo hi : nat) : (lo < hi)%nat -> (lo <= Nat.div (lo + hi) 2 < hi)%nat.
Proof.
  intros H. pose proof (Nat.div_mod (lo + hi) 2 ltac:(lia)).
  pose proof (Nat.mod_upper_bound (lo + hi) 2 ltac:(lia)). lia.
Qed.

(** Each round strictly shrinks the interval [hi - lo], and keeps it an
    interval inside the previous one. *)
Lemma bs_next_width (p : Q -> bool) (l : list Q) (lo hi : nat) :
  (lo < hi)%nat ->
  (fst (bs_next p l lo hi) <= snd (bs_next p l lo hi))%nat /\
  (snd (bs_next p l lo hi) - fst (bs_next p l lo hi) < hi - lo)%nat /\
  (lo <= fst (bs_next p l lo hi))%nat /\ (snd (bs_next p l lo hi) <= hi)%nat.
Proof.
  intros H. pose proof (mid_bounds lo hi H). unfold bs_next.
  destruct (p _); cbn [fst snd]; lia.
Qed.

Section PartitionPoint.
Variable p : Q -> bool.
Variable l : list Q.

(** A round keeps the partition point inside the interval. *)
Lemma bs_next_keeps (k lo hi : nat) :
  splits_at p l k -> (lo < hi)%nat -> (lo <= k <= hi)%nat -> (hi <= length l)%nat ->
  (fst (bs_next p l lo hi) <= k <= snd (bs_next p l lo hi))%nat.
Proof.
  intros [Hk [Hbefore Hafter]] Hlt Hin Hhi. pose proof (mid_bounds lo hi Hlt) as Hmid. unfold bs_next.
  destruct (Nat.le_gt_cases k (Nat.div (lo + hi) 2)) as [Hk'|Hk'];
    destruct (p (nth (Nat.div (lo + hi) 2) l 0)) eqn:Hp; cbn [fst snd].
  - rewrite Hafter in Hp; [discriminate|lia].
  - lia.
  - lia.
  - rewrite Hbefore in Hp; [discriminate|lia].
Qed.

Lemma partition_point_aux_spec (k : nat) :
  splits_at p l k ->
  forall fuel lo hi, (lo <= k <= hi)%nat -> (hi <= length l)%nat ->
  (hi - lo <= fuel)%nat -> partition_point_aux p l fuel lo hi = k.
Proof.
  intros Hs fuel. induction fuel as [|fuel IH]; intros lo hi Hin Hhi Hfuel;
    cbn [partition_point_aux]; [lia|].
  destruct (Nat.ltb_spec lo hi) as [Hlt|Hge]; [|destruct Hs; lia].
  pose proof (bs_next_keeps k lo hi Hs Hlt Hin Hhi). pose proof (bs_next_width p l lo hi Hlt).
  apply IH; lia.
Qed.

Corollary partition_point_spec (k : nat) :
  splits_at p l k -> partition_point p l = k.
Proof.
  intros Hs. unfold partition_point.
  apply partition_point_aux_spec; [exact Hs|destruct Hs; lia|lia|lia].
Qed.
(** From any interval around the partition point, the loop eventually
    exits holding it. *)
Lemma bs_eventually_spec (k : nat) :
  splits_at p l k ->
  forall n lo hi, (hi - lo <= n)%nat -> (lo <= k <= hi)%nat -> (hi <= length l)%nat ->
  eventually (bs_step p l) (fun s => bs_exit s /\ fst s = k) (lo, hi).
Proof.
  intros Hs n. induction n as [|n IH]; intros lo hi Hn Hin Hhi.
  { apply eventually_done. unfold bs_exit; cbn [fst snd]. lia. }
  destruct (Nat.ltb_spec lo hi) as [Hlt|Hge].
  2: { apply eventually_done. unfold bs_exit; cbn [fst snd]. lia. }
  apply (eventually_step _ _ _ (fun s' => s' = bs_next p l lo hi)); [split; [exact Hlt|reflexivity]|].
  intros s' ->. pose proof (bs_next_keeps k lo hi Hs Hlt Hin Hhi). pose proof (bs_next_width p l lo hi Hlt).
  rewrite (surjective_pairing (bs_next p l lo hi)). apply IH; lia.
Qed.

End PartitionPoint.

(** On a sorted list, a predicate that is downward closed splits the list
    at the number of elements that satisfy it. *)
Lemma count_if_splits (p : Q -> bool) (l : list Q) :
  StronglySorted Qle l ->
  (forall y z, y <= z -> p z = true -> p y = true) ->
  splits_at p l (count_if p l).
Proof.
  intros Hs Hdown. unfold splits_at, count_if.
  induction Hs as [|a l Hs IH Hall]; simpl.
  - repeat split; intros; lia.
  - destruct IH as [Hk [Hb Ha]].
    destruct (p a) eqn:Hpa; simpl.
    + repeat split; [lia| |].
      * intros [|i] Hi; simpl; [exact Hpa|apply Hb; lia].
      * intros [|i] Hi; simpl; [lia|apply Ha; lia].
    + assert (Hnone : Forall (fun y => p y = false) l).
      { eapply Forall_impl; [|exact Hall]. intros y Hay.
        destruct (p y) eqn:Hpy; [|reflexivity].
        rewrite (Hdown a y Hay Hpy) in Hpa. discriminate. }
      pose proof (count_if_none p l Hnone) as H0. unfold count_if in H0.
      rewrite H0. repeat split; [lia|lia|].
      intros [|i] Hi; simpl; [exact Hpa|].
      apply (proj1 (Forall_nth _ l) Hnone); lia.
Qed.

Lemma sorted_strongly (l : list Q) : Sorted Qle l -> StronglySorted Qle l.
Proof. apply Sorted_StronglySorted. intros x y z. apply Qle_trans. Qed.

Lemma lt_pred_down (x : Q) :
  forall y z, y <= z -> (z <? x) = true -> (y <? x) = true.
Proof. intros y z Hyz. rewrite !Qlt_bool_iff. intros. lra. Qed.

Lemma le_pred_down (x : Q) :
  forall y z, y <= z -> (z <=? x) = true -> (y <=? x) = true.
Proof. intros y z Hyz. rewrite !Qle_bool_iff. intros. lra. Qed.

(** On a sorted list, dropping the elements that satisfy a downward-closed
    predicate keeps exactly those that fail it. *)
Lemma skipn_count_if (p : Q -> bool) (l : list Q) :
  StronglySorted Qle l ->
  (forall y z, y <= z -> p z = true -> p y = true) ->
  skipn (count_if p l) l = filter (fun y => negb (p y)) l.
Proof.
  intros Hs Hdown. induction Hs as [|a l Hs IH Hall]; [reflexivity|].
  rewrite count_if_cons. simpl filter. destruct (p a) eqn:Hpa; simpl; [exact IH|].
  assert (Hnone : Forall (fun y => p y = false) l).
  { eapply Forall_impl; [|exact Hall]. intros y Hay.
    destruct (p y) eqn:Hpy; [|reflexivity]. rewrite (Hdown a y Hay Hpy) in Hpa. discriminate. }
  rewrite (count_if_none p l Hnone). simpl. f_equal. symmetry. apply forallb_filter_id.
  apply forallb_forall. intros y Hy. rewrite (proj1 (Forall_forall _ l) Hnone y Hy). reflexivity.
Qed.

Lemma partition_point_lt (x : Q) (l : list Q) :
  Sorted Qle l -> partition_point (fun y => y <? x) l = count_lt x l.
Proof.
  intros Hs. apply partition_point_spec, count_if_splits;
    [apply sorted_strongly, Hs|apply lt_pred_down].
Qed.

Lemma partition_point_le (x : Q) (l : list Q) :
  Sorted Qle l -> partition_point (fun y => y <=? x) l = count_le x l.
Proof.
  intros Hs. apply partition_point_spec, count_if_splits;
    [apply sorted_strongly, Hs|apply le_pred_down].
Qed.

(** Sorted lists are monotone in the index. *)
Lemma sorted_nth_le (l : list Q) (i j : nat) :
  StronglySorted Qle l -> (i <= j < length l)%nat -> nth i l 0 <= nth j l 0.
Proof.
  intros Hs. revert i j. induction Hs as [|a l Hs IH Hall]; intros i j Hij; simpl in Hij; [lia|].
  destruct i as [|i], j as [|j]; simpl; [apply Qle_refl| |lia|apply IH; lia].
  apply (proj1 (Forall_nth _ l) Hall). lia.
Qed.

(** Values at or after index [k] of a sorted list are not below a bound
    of [nth k]: at most [k] lie strictly below it. *)
Lemma count_lt_index (x : Q) (l : list Q) (k : nat) :
  Sorted Qle l -> (k < length l)%nat -> x <= nth k l 0 -> (count_lt x l <= k)%nat.
Proof.
  intros Hs Hk Hx. destruct (count_if_splits _ l (sorted_strongly l Hs) (lt_pred_down x))
    as [_ [Hb _]].
  destruct (Nat.le_gt_cases (count_lt x l) k) as [H|H]; [exact H|].
  specialize (Hb k H). qrefl_in Hb. lra.
Qed.

(** Dually, at least [k + 1] values lie at or above [nth k]. *)
Lemma count_le_index (x : Q) (l : list Q) (k : nat) :
  Sorted Qle l -> (k < length l)%nat -> nth k l 0 <= x -> (S k <= count_le x l)%nat.
Proof.
  intros Hs Hk Hx. destruct (count_if_splits _ l (sorted_strongly l Hs) (le_pred_down x))
    as [_ [_ Ha]].
  destruct (Nat.le_gt_cases (count_le x l) k) as [H|H]; [|exact H].
  specialize (Ha k (conj H Hk)). qrefl_in Ha. lra.
Qed.

(** Without a sortedness hypothesis the search still stays in range. *)
Lemma partition_point_aux_range (p : Q -> bool) (l : list Q) fuel lo hi :
  (lo <= hi)%nat -> (lo <= partition_point_aux p l fuel lo hi <= hi)%nat.
Proof.
  revert lo hi. induction fuel as [|fuel IH]; intros lo hi H; cbn [partition_point_aux]; unfold bs_next; cbv zeta; [lia|].
  destruct (Nat.ltb_spec lo hi); [|lia].
  pose proof (mid_bounds lo hi ltac:(lia)) as Hmid.
  destruct (p _); cbn [fst snd];
    match goal with |- context [partition_point_aux _ _ fuel ?a ?b] => specialize (IH a b) end;
    lia.
Qed.

Lemma partition_point_le_length (p : Q -> bool) (l : list Q) :
  (partition_point p l <= length l)%nat.
Proof. apply partition_point_aux_range. lia. Qed.

Lemma partition_point_ext (p q : Q -> bool) (l : list Q) :
  (forall y, p y = q y) -> partition_point p l = partition_point q l.
Proof.
  intros Hpq. unfold partition_point.
  assert (forall fuel lo hi,
            partition_point_aux p l fuel lo hi = partition_point_aux q l fuel lo hi)
    as Hext; [|apply Hext].
  induction fuel as [|fuel IH]; intros lo hi; cbn [partition_point_aux]; unfold bs_next; cbv zeta; [reflexivity|].
  rewrite Hpq. destruct (Nat.ltb lo hi), (q (nth (Nat.div (lo + hi) 2) l 0)); auto.
Qed.

(** ** Termination of the binary search *)

Lemma bs_iter_wf (p : Q -> bool) (l : list Q) : well_founded (bs_iter p l).
Proof.
  apply (wf_incl _ _ (ltof _ (fun s => snd s - fst s)%nat)); [|apply well_founded_ltof].
  intros s' s [Hlt ->]. unfold ltof. apply (bs_next_width p l _ _ Hlt).
Qed.

(** Any two fuels that cover the interval give the same result. *)
Lemma partition_point_aux_fuel (p : Q -> bool) (l : list Q) (f1 f2 lo hi : nat) :
  (hi - lo <= f1)%nat -> (hi - lo <= f2)%nat ->
  partition_point_aux p l f1 lo hi = partition_point_aux p l f2 lo hi.
Proof.
  revert f2 lo hi. induction f1 as [|f1 IH]; intros [|f2] lo hi H1 H2; cbn [partition_point_aux];
    try reflexivity; destruct (Nat.ltb_spec lo hi) as [Hlt|Hge]; try reflexivity; try lia.
  destruct (bs_next_width p l lo hi Hlt). apply IH; lia.
Qed.

(** ** Properties of the queries *)

Lemma f_minus_count (e : ECDF) (x : Q) :
  ecdf_wf e -> f_minus e x = ratio (count_lt x (ecdf_data e)) (ecdf_n e).
Proof. intros H. unfold f_minus. now rewrite partition_point_lt. Qed.

Lemma f_plus_count (e : ECDF) (x : Q) :
  ecdf_wf e -> f_plus e x = ratio (count_le x (ecdf_data e)) (ecdf_n e).
Proof. intros H. unfold f_plus. now rewrite partition_point_le. Qed.

Lemma f_minus_bounds (e : ECDF) (x : Q) : 0 <= f_minus e x <= 1.
Proof.
  unfold f_minus. split; [apply ratio_nonneg|].
  apply ratio_le_1, partition_point_le_length.
Qed.

Lemma f_plus_bounds (e : ECDF) (x : Q) : 0 <= f_plus e x <= 1.
Proof.
  unfold f_plus. split; [apply ratio_nonneg|].
  apply ratio_le_1, partition_point_le_length.
Qed.

Lemma count_lt_le (x : Q) (l : list Q) : (count_lt x l <= count_le x l)%nat.
Proof.
  apply count_if_mono. intros y. rewrite Qlt_bool_iff, Qle_bool_iff. lra.
Qed.

Lemma count_lt_mono (x y : Q) (l : list Q) : x <= y -> (count_lt x l <= count_lt y l)%nat.
Proof.
  intros Hxy. apply count_if_mono. intros z. rewrite !Qlt_bool_iff. lra.
Qed.

Lemma count_le_mono (x y : Q) (l : list Q) : x <= y -> (count_le x l <= count_le y l)%nat.
Proof.
  intros Hxy. apply count_if_mono. intros z. rewrite !Qle_bool_iff. lra.
Qed.

Lemma f_minus_mono (e : ECDF) (x y : Q) :
  ecdf_wf e -> x <= y -> f_minus e x <= f_minus e y.
Proof.
  intros He Hxy. rewrite !f_minus_count by exact He.
  apply ratio_le_mono, count_lt_mono, Hxy.
Qed.

Lemma f_plus_mono (e : ECDF) (x y : Q) :
  ecdf_wf e -> x <= y -> f_plus e x <= f_plus e y.
Proof.
  intros He Hxy. rewrite !f_plus_count by exact He.
  apply ratio_le_mono, count_le_mono, Hxy.
Qed.

Lemma f_minus_le_f_plus (e : ECDF) (x : Q) :
  ecdf_wf e -> f_minus e x <= f_plus e x.
Proof.
  intros He. rewrite f_minus_count, f_plus_count by exact He.
  apply ratio_le_mono, count_lt_le.
Qed.

#[export] Instance f_minus_comp (e : ECDF) : Proper (Qeq ==> Qeq) (f_minus e).
Proof.
  intros x x' Hx. unfold f_minus.
  rewrite (partition_point_ext (fun y => y <? x) (fun y => y <? x')); [reflexivity|].
  intros y. now rewrite Hx.
Qed.

#[export] Instance f_plus_comp (e : ECDF) : Proper (Qeq ==> Qeq) (f_plus e).
Proof.
  intros x x' Hx. unfold f_plus.
  rewrite (partition_point_ext (fun y => y <=? x) (fun y => y <=? x')); [reflexivity|].
  intros y. now rewrite Hx.
Qed.

#[export] Instance favg_comp (e : ECDF) : Proper (Qeq ==> Qeq) (favg e).
Proof. intros x x' Hx. unfold favg. now rewrite Hx. Qed.

#[export] Instance fupper_comp (e : ECDF) : Proper (Qeq ==> Qeq) (fupper e).
Proof. intros x x' Hx. unfold fupper. now rewrite Hx. Qed.

Lemma favg_bounds (e : ECDF) (x : Q) : 0 <= favg e x <= 1.
Proof.
  unfold favg. pose proof (f_minus_bounds e x). pose proof (f_plus_bounds e x). lra.
Qed.

Lemma fupper_bounds (e : ECDF) (x : Q) : 1#2 <= fupper e x <= 1.
Proof.
  unfold fupper. pose proof (f_minus_bounds e x). pose proof (f_plus_bounds e x). lra.
Qed.

Lemma favg_mono (e : ECDF) (x y : Q) : ecdf_wf e -> x <= y -> favg e x <= favg e y.
Proof.
  intros He Hxy. unfold favg.
  pose proof (f_minus_mono e x y He Hxy). pose proof (f_plus_mono e x y He Hxy). lra.
Qed.

Lemma fupper_mono (e : ECDF) (x y : Q) : ecdf_wf e -> x <= y -> fupper e x <= fupper e y.
Proof.
  intros He Hxy. unfold fupper.
  pose proof (f_minus_mono e x y He Hxy). pose proof (f_plus_mono e x y He Hxy). lra.
Qed.

(** ** Facts about sorted snapshots shared by the theorems below *)

Lemma sorted_head_le (a : Q) (l : list Q) :
  Sorted Qle (a :: l) -> Forall (fun y => a <= y) (a :: l).
Proof.
  intros Hs. apply sorted_strongly in Hs. inversion Hs; subst.
  constructor; [apply Qle_refl|assumption].
Qed.

Lemma sorted_le_last (l : list Q) (d : Q) :
  StronglySorted Qle l -> Forall (fun y => y <= last l d) l.
Proof.
  induction 1 as [|a l Hs IH Hall]; [constructor|].
  destruct l as [|b l]; simpl.
  - constructor; [apply Qle_refl|constructor].
  - simpl in IH. constructor; [|exact IH].
    inversion IH; subst. eapply Qle_trans; [|eassumption].
    now inversion Hall.
Qed.

(** ** The ECDF contract (spec 4.1) *)

Lemma strict_sorted_le (l : list Q) : StronglySorted Qlt l -> Sorted Qle l.
Proof.
  induction 1 as [|a l _ IH Hall]; constructor; [exact IH|].
  destruct l; constructor. inversion Hall; subst. lra.
Qed.

(** In a strictly increasing sample, [i] values lie strictly below the
    [i]-th and [i + 1] lie at or below it. *)
Lemma count_at_sample (l : list Q) (i : nat) :
  StronglySorted Qlt l -> (i < length l)%nat ->
  count_lt (nth i l 0) l = i /\ count_le (nth i l 0) l = S i.
Proof.
  intros Hs. revert i. unfold count_lt, count_le.
  induction Hs as [|a l Hs IH Hall]; intros i Hi; simpl in Hi; [lia|].
  rewrite !count_if_cons. destruct i as [|j]; simpl nth.
  - rewrite !count_if_none.
    + destruct (Qlt_bool a a) eqn:E1; qrefl_in E1; [lra|].
      destruct (Qle_bool a a) eqn:E2; qrefl_in E2; [split; reflexivity|lra].
    + eapply Forall_impl; [|exact Hall]. intros y Hy. apply Qle_bool_false, Hy.
    + eapply Forall_impl; [|exact Hall]. intros y Hy. apply Qlt_bool_false. lra.
  - destruct (IH j ltac:(lia)) as [-> ->].
    assert (Ha : a < nth j l 0) by (apply (proj1 (Forall_nth _ l) Hall); lia).
    destruct (Qlt_bool a (nth j l 0)) eqn:E1; qrefl_in E1; [|lra].
    destruct (Qle_bool a (nth j l 0)) eqn:E2; qrefl_in E2; [split; reflexivity|lra].
Qed.

Lemma f_at_sample (l : list Q) (i : nat) :
  StronglySorted Qlt l -> (i < length l)%nat ->
  f_minus (ECDF_new l) (nth i l 0) = ratio i (length l) /\
  f_plus (ECDF_new l) (nth i l 0) = ratio (S i) (length l).
Proof.
  intros Hs Hi.
  assert (He : ecdf_wf (ECDF_new l)) by (apply strict_sorted_le, Hs).
  rewrite f_minus_count, f_plus_count by exact He.
  unfold ecdf_n; cbn [ecdf_data ECDF_new].
  destruct (count_at_sample l i Hs Hi) as [-> ->]. split; reflexivity.
Qed.

(** C9: On a sorted sample the binary search that answers [f_minus] and
    [f_plus] returns exactly the number of elements strictly below,
    respectively at or below, the query: the O(log n) search refines the
    linear count, and it terminates within [length l] rounds. *)
Theorem partition_point_correct (x : Q) (l : list Q) :
  Sorted Qle l ->
  partition_point (fun y => y <? x) l = count_lt x l /\
  partition_point (fun y => y <=? x) l = count_le x l.
Proof. intros Hs. split; [apply partition_point_lt|apply partition_point_le]; exact Hs. Qed.

Lemma partition_point_correct_witness :
  Sorted Qle [1; 2; 2; 3] /\
  partition_point (fun y => y <? 2) [1; 2; 2; 3] = count_lt 2 [1; 2; 2; 3] /\
  partition_point (fun y => y <=? 2) [1; 2; 2; 3] = count_le 2 [1; 2; 2; 3].
Proof.
  assert (Hs : Sorted Qle [1; 2; 2; 3]).
  { repeat constructor; unfold Qle; simpl; lia. }
  split; [exact Hs|]. apply (partition_point_correct 2 [1; 2; 2; 3] Hs).
Defined.

(** C10: For every query the two limits of a well-formed ECDF are ordered
    fractions: [0 <= f_minus x <= f_plus x <= 1]. *)
Theorem ecdf_ordered_bounds (e : ECDF) (x : Q) :
  ecdf_wf e -> 0 <= f_minus e x /\ f_minus e x <= f_plus e x /\ f_plus e x <= 1.
Proof.
  intros He. split; [apply f_minus_bounds|].
  split; [apply f_minus_le_f_plus, He|apply f_plus_bounds].
Qed.

Lemma ecdf_ordered_bounds_witness :
  ecdf_wf (ECDF_new [1; 5; 5]) /\
  0 <= f_minus (ECDF_new [1; 5; 5]) 5 /\
  f_minus (ECDF_new [1; 5; 5]) 5 <= f_plus (ECDF_new [1; 5; 5]) 5 /\
  f_plus (ECDF_new [1; 5; 5]) 5 <= 1.
Proof.
  assert (He : ecdf_wf (ECDF_new [1; 5; 5])).
  { unfold ecdf_wf; simpl. repeat constructor; unfold Qle; simpl; lia. }
  split; [exact He|]. apply (ecdf_ordered_bounds _ 5 He).
Defined.

(** C11: At the sample's minimum nothing lies strictly below
    ([f_minus min = 0]), and at the maximum everything lies at or below
    ([f_plus max = 1]). *)
Theorem ecdf_extremes (a : Q) (rest : list Q) :
  ecdf_wf (ECDF_new (a :: rest)) ->
  f_minus (ECDF_new (a :: rest)) a == 0 /\
  f_plus (ECDF_new (a :: rest)) (last (a :: rest) a) == 1.
Proof.
  intros He. rewrite f_minus_count, f_plus_count by exact He.
  unfold ecdf_n, count_lt, count_le; simpl ecdf_data.
  split.
  - rewrite count_if_none; [reflexivity|].
    eapply Forall_impl; [|apply sorted_head_le, He].
    intros y Hy. apply Qlt_bool_false, Hy.
  - rewrite count_if_all; [apply ratio_n; simpl; lia|].
    eapply Forall_impl; [|apply sorted_le_last, sorted_strongly, He].
    intros y Hy. apply Qle_bool_iff, Hy.
Qed.

Lemma ecdf_extremes_witness :
  ecdf_wf (ECDF_new [2; 3; 7]) /\
  f_minus (ECDF_new [2; 3; 7]) 2 == 0 /\
  f_plus (ECDF_new [2; 3; 7]) (last [2; 3; 7] 2) == 1.
Proof.
  assert (He : ecdf_wf (ECDF_new [2; 3; 7])).
  { unfold ecdf_wf; simpl. repeat constructor; unfold Qle; simpl; lia. }
  split; [exact He|]. apply (ecdf_extremes 2 [3; 7] He).
Defined.

(** C12: Away from the sample points the two limits agree: the step
    function has mass only at values of the sample. *)
Theorem ecdf_no_mass (e : ECDF) (x : Q) :
  ecdf_wf e -> (forall y, In y (ecdf_data e) -> ~ y == x) ->
  f_minus e x == f_plus e x.
Proof.
  intros He Hx. rewrite f_minus_count, f_plus_count by exact He.
  unfold count_lt, count_le, count_if. rewrite (filter_ext_in _ (fun y => y <=? x)).
  - reflexivity.
  - intros y Hy. specialize (Hx y Hy). unfold Qlt_bool.
    destruct (Qle_bool x y) eqn:E1, (Qle_bool y x) eqn:E2; simpl; try reflexivity.
    + apply Qle_bool_iff in E1, E2. exfalso. apply Hx. apply Qle_antisym; assumption.
    + apply Qle_bool_false in E1, E2. lra.
Qed.

Lemma ecdf_no_mass_witness :
  ecdf_wf (ECDF_new [1; 3]) /\
  (forall y, In y (ecdf_data (ECDF_new [1; 3])) -> ~ y == 2) /\
  f_minus (ECDF_new [1; 3]) 2 == f_plus (ECDF_new [1; 3]) 2.
Proof.
  assert (He : ecdf_wf (ECDF_new [1; 3])).
  { unfold ecdf_wf; simpl. repeat constructor; unfold Qle; simpl; lia. }
  assert (Hx : forall y, In y (ecdf_data (ECDF_new [1; 3])) -> ~ y == 2).
  { simpl. intros y [<-|[<-|[]]]; unfold Qeq; simpl; lia. }
  split; [exact He|]. split; [exact Hx|]. apply (ecdf_no_mass _ 2 He Hx).
Defined.

(** C13: Both limits are monotone non-decreasing in the query. *)
Theorem ecdf_monotone (e : ECDF) (x y : Q) :
  ecdf_wf e -> x <= y -> f_minus e x <= f_minus e y /\ f_plus e x <= f_plus e y.
Proof. intros He Hxy. split; [apply f_minus_mono|apply f_plus_mono]; assumption. Qed.

Lemma ecdf_monotone_witness :
  ecdf_wf (ECDF_new [1; 2]) /\ 1 <= 2 /\
  f_minus (ECDF_new [1; 2]) 1 <= f_minus (ECDF_new [1; 2]) 2 /\
  f_plus (ECDF_new [1; 2]) 1 <= f_plus (ECDF_new [1; 2]) 2.
Proof.
  assert (He : ecdf_wf (ECDF_new [1; 2])).
  { unfold ecdf_wf; simpl. repeat constructor; unfold Qle; simpl; lia. }
  assert (H12 : 1 <= 2) by (unfold Qle; simpl; lia).
  split; [exact He|]. split; [exact H12|]. apply (ecdf_monotone _ 1 2 He H12).
Defined.

(** C35: At the [i]-th value of a strictly increasing sample of size
    [n], [f_minus] is [i / n] and [f_plus] is [(i + 1) / n]: the binary
    search lands on the value's own rank. *)
Theorem ecdf_at_sample (l : list Q) (i : nat) :
  StronglySorted Qlt l -> (i < length l)%nat ->
  f_minus (ECDF_new l) (nth i l 0) = ratio i (length l) /\
  f_plus (ECDF_new l) (nth i l 0) = ratio (S i) (length l).
Proof. apply f_at_sample. Qed.

Lemma ecdf_at_sample_witness :
  StronglySorted Qlt [1; 2; 3] /\ (1 < length [1; 2; 3])%nat /\
  f_minus (ECDF_new [1; 2; 3]) (nth 1 [1; 2; 3] 0) = ratio 1 3 /\
  f_plus (ECDF_new [1; 2; 3]) (nth 1 [1; 2; 3] 0) = ratio 2 3.
Proof.
  assert (Hs : StronglySorted Qlt [1; 2; 3]) by (repeat constructor; unfold Qlt; simpl; lia).
  assert (Hi : (1 < length [1; 2; 3])%nat) by (simpl; lia).
  split; [exact Hs|]. split; [exact Hi|]. exact (ecdf_at_sample [1; 2; 3] 1 Hs Hi).
Defined.

(** C39: The binary search terminates: its loop relation is well founded
    (the interval [hi - lo] shrinks at every round), and any fuel at least
    the interval's width runs the loop to its exit, so that the result
    does not depend on the fuel; this holds for every predicate and every
    list, sorted or not. *)
Theorem binary_search_terminates (p : Q -> bool) (l : list Q) :
  well_founded (bs_iter p l) /\
  (forall fuel lo hi, (hi - lo <= fuel)%nat ->
     partition_point_aux p l fuel lo hi = partition_point_aux p l (hi - lo) lo hi).
Proof.
  split; [apply bs_iter_wf|].
  intros fuel lo hi H. apply partition_point_aux_fuel; lia.
Qed.

Lemma binary_search_terminates_witness :
  (4 - 0 <= 10)%nat /\
  partition_point_aux (fun y => y <? 3) [1; 2; 3; 4] 10 0 4 =
  partition_point_aux (fun y => y <? 3) [1; 2; 3; 4] (4 - 0) 0 4.
Proof.
  assert (H : (4 - 0 <= 10)%nat) by lia.
  split; [exact H|]. exact (proj2 (binary_search_terminates _ _) 10%nat 0%nat 4%nat H).
Defined.

(** C8: Liveness of the binary search: on a sorted sample, every run of
    the loop of [f_minus] (resp. [f_plus]) from the whole range [0, n)
    eventually reaches the loop's exit, and there [lo] is the number of
    values below (resp. at or below) the query. *)
Theorem binary_search_eventually (x : Q) (l : list Q) :
  Sorted Qle l ->
  eventually (bs_step (fun y => y <? x) l) (fun s => bs_exit s /\ fst s = count_lt x l)
    (0, length l)%nat /\
  eventually (bs_step (fun y => y <=? x) l) (fun s => bs_exit s /\ fst s = count_le x l)
    (0, length l)%nat.
Proof.
  intros Hs. pose proof (sorted_strongly l Hs) as Hss.
  split.
  - apply (bs_eventually_spec _ _ _ (count_if_splits _ l Hss (lt_pred_down x)) (length l));
      [lia| |lia]. split; [lia|apply count_if_le].
  - apply (bs_eventually_spec _ _ _ (count_if_splits _ l Hss (le_pred_down x)) (length l));
      [lia| |lia]. split; [lia|apply count_if_le].
Qed.

Lemma binary_search_eventually_witness :
  Sorted Qle [1; 2; 2; 3] /\
  eventually (bs_step (fun y => y <? 2) [1; 2; 2; 3])
    (fun s => bs_exit s /\ fst s = count_lt 2 [1; 2; 2; 3]) (0, length [1; 2; 2; 3])%nat /\
  eventually (bs_step (fun y => y <=? 2) [1; 2; 2; 3])
    (fun s => bs_exit s /\ fst s = count_le 2 [1; 2; 2; 3]) (0, length [1; 2; 2; 3])%nat.
Proof.
  assert (Hs : Sorted Qle [1; 2; 2; 3]) by (repeat constructor; unfold Qle; simpl; lia).
  split; [exact Hs|]. exact (binary_search_eventually 2 [1; 2; 2; 3] Hs).
Defined.

End Ecdf.

#[export] Hint Resolve Ecdf.f_minus_bounds Ecdf.f_plus_bounds Ecdf.favg_bounds
  Ecdf.fupper_bounds Ecdf.favg_mono Ecdf.fupper_mono : dt.
