(* ===== verification/RoleStats.v ===== *)
(** * The role rating engine ([class RoleStats], src/inc/rolestats.h)

    [Module RoleStats] models the engine of spec 4.2: [TRANSFORM_TYPE]
    and [transform_stats] are the header's enum and struct, the record
    [RoleStats] has one field per data member of the class (plus
    [m_unsorted], the sample [init_list] reads), and every member function
    is one definition taking the state and returning the new state (or a
    pair of a result and the state).  The bodies of the member functions
    are in rolestats.cpp, which is not among the sources: they are
    modelled from spec 4.2 and 7, with these choices where the spec leaves
    freedom (each stated again at its definition):
    - the strategy priority: a pinned concrete strategy first, then
      [TT_ECDF_RANK_UPPER], ([TT_MULTI_ALL] for [TT_UNKNOWN] only),
      [TT_ECDF_RANK_ALL]; when every candidate is flat the engine uses
      [TT_MIN_MAX_ALL], whose [range_transform] gives 50 on a flat sample;
    - the "multi" blend is the mean of the rank and the min-max ratings;
    - rank-all rates [100 * favg] and rank-upper [100 * fupper], as the
      header's comments on lines 67 and 70 pair them;
    - [transform_valid] with [mid_is_avg] asks [|median - average|] to be
      within a tenth of the range;
    - [m_upper] is always built, over the values strictly above the
      median, as the header's comments say (spec 4.2 step 3 says "values
      >= raw median", but its scenario [1,1,1,1,100] with an upper
      partition of size 1 needs [>]). *)

From Stdlib Require Import Arith QArith Qabs Lqa List Lia Sorted Permutation Bool Morphisms.
From S2P Require Import Prelude Ecdf.
Import ListNotations.
Open Scope Q_scope.
Open Scope dt_scope.

Module RoleStats.

(** ** Data (rolestats.h lines 36-45, 54-59, 64-89) *)

Inductive TRANSFORM_TYPE :=
| TT_UNKNOWN
| TT_ECDF_RANK_TRY
| TT_ECDF_RANK_UPPER
| TT_ECDF_RANK_ALL
| TT_MULTI_UPPER
| TT_MULTI_ALL
| TT_MIN_MAX_UPPER
| TT_MIN_MAX_ALL.

Definition TRANSFORM_TYPE_eq_dec (t u : TRANSFORM_TYPE) : {t = u} + {t <> u}.
Proof. decide equality. Defined.

Record transform_stats := mk_transform_stats {
  ts_average : Q;
  ts_median : Q;
  ts_min : Q;
  ts_max : Q }.

Record RoleStats := mkRoleStats {
  m_unsorted : list Q;
  m_raws : Ecdf.ECDF;
  m_upper : Ecdf.ECDF;
  m_ecdf_median : Q;
  m_raw_median : Q;
  m_sum_over_median : Q;
  m_sum_upper : Q;
  m_factor : Q;
  m_upper_minmax_diff : Q;
  m_upper_raw_min : Q;
  m_transform_one_percent : Q;
  m_transform_type : TRANSFORM_TYPE;
  m_transformations : list transform_stats }.

(** Strategies that rate the values below the median with [m_factor]. *)
Definition is_upper (t : TRANSFORM_TYPE) : bool :=
  match t with
  | TT_ECDF_RANK_UPPER | TT_MULTI_UPPER | TT_MIN_MAX_UPPER => true
  | _ => false
  end.

Definition is_multi (t : TRANSFORM_TYPE) : bool :=
  match t with
  | TT_MULTI_UPPER | TT_MULTI_ALL => true
  | _ => false
  end.

(** A strategy that can be active: not one of the two "pending" values. *)
Definition is_concrete (t : TRANSFORM_TYPE) : bool :=
  match t with
  | TT_UNKNOWN | TT_ECDF_RANK_TRY => false
  | _ => true
  end.

(** ** Sorting the sample ([qSort] on a copy) *)

Fixpoint insert_sorted (x : Q) (l : list Q) : list Q :=
  match l with
  | [] => [x]
  | y :: l' => if x <=? y then x :: l else y :: insert_sorted x l'
  end.

Fixpoint sort_values (l : list Q) : list Q :=
  match l with
  | [] => []
  | x :: l' => insert_sorted x (sort_values l')
  end.

(** ** Summary statistics *)

(** [find_median] of a sorted vector: the middle element, or the mean of
    the two middle elements when the size is even; 0 for an empty vector. *)
Definition find_median (v : list Q) : Q :=
  let n := length v in
  if Nat.eqb n 0 then 0
  else if Nat.even n then (nth (Nat.div n 2 - 1) v 0 + nth (Nat.div n 2) v 0) * (1#2)
  else nth (Nat.div n 2) v 0.

(** [load_list_stats] over a sorted list: average, median, first and last. *)
Definition load_list_stats (l : list Q) : transform_stats :=
  {| ts_average := qsum l / inject_Z (Z.of_nat (length l));
     ts_median := find_median l;
     ts_min := hd 0 l;
     ts_max := last l 0 |}.

Definition transform_tolerance : Q := 1#10.

(** [transform_valid]: the range is not flat and, when asked, the median
    is close to the average. *)
Definition transform_valid (ts : transform_stats) (mid_is_avg : bool) : bool :=
  (ts_min ts <? ts_max ts) &&
  (if mid_is_avg
   then Qabs (ts_median ts - ts_average ts) <=? transform_tolerance * (ts_max ts - ts_min ts)
   else true).

(** [load_transformations]: compute the statistics of a candidate list,
    keep them in the history [m_transformations], and report validity. *)
Definition load_transformations (l : list Q) (mid_is_avg : bool) (st : RoleStats)
  : bool * RoleStats :=
  let ts := load_list_stats l in
  (transform_valid ts mid_is_avg,
   {| m_unsorted := m_unsorted st; m_raws := m_raws st; m_upper := m_upper st;
      m_ecdf_median := m_ecdf_median st; m_raw_median := m_raw_median st;
      m_sum_over_median := m_sum_over_median st; m_sum_upper := m_sum_upper st;
      m_factor := m_factor st; m_upper_minmax_diff := m_upper_minmax_diff st;
      m_upper_raw_min := m_upper_raw_min st;
      m_transform_one_percent := m_transform_one_percent st;
      m_transform_type := m_transform_type st;
      m_transformations := m_transformations st ++ [ts] |}).

Definition set_transform_type (t : TRANSFORM_TYPE) (st : RoleStats) : RoleStats :=
  {| m_unsorted := m_unsorted st; m_raws := m_raws st; m_upper := m_upper st;
     m_ecdf_median := m_ecdf_median st; m_raw_median := m_raw_median st;
     m_sum_over_median := m_sum_over_median st; m_sum_upper := m_sum_upper st;
     m_factor := m_factor st; m_upper_minmax_diff := m_upper_minmax_diff st;
     m_upper_raw_min := m_upper_raw_min st;
     m_transform_one_percent := m_transform_one_percent st;
     m_transform_type := t; m_transformations := m_transformations st |}.

(** ** Choosing the strategy ([configure_transformations]) *)

(** The list a candidate is validated on. *)
Definition candidate_list (c : TRANSFORM_TYPE) (st : RoleStats) : list Q :=
  if is_upper c then Ecdf.ecdf_data (m_upper st) else Ecdf.ecdf_data (m_raws st).

(** The fixed priority order for a requested strategy. *)
Definition candidates (t : TRANSFORM_TYPE) : list TRANSFORM_TYPE :=
  match t with
  | TT_UNKNOWN => [TT_ECDF_RANK_UPPER; TT_MULTI_ALL; TT_ECDF_RANK_ALL]
  | TT_ECDF_RANK_TRY => [TT_ECDF_RANK_UPPER; TT_ECDF_RANK_ALL]
  | t => [t; TT_ECDF_RANK_UPPER; TT_ECDF_RANK_ALL]
  end.

(** Scan the candidates; the first valid one is adopted.  When none is,
    the sample is flat and [TT_MIN_MAX_ALL] rates every value 50. *)
Fixpoint select_transform (cs : list TRANSFORM_TYPE) (st : RoleStats) : RoleStats :=
  match cs with
  | [] => set_transform_type TT_MIN_MAX_ALL st
  | c :: cs' =>
      let (ok, st') := load_transformations (candidate_list c st) (is_multi c) st in
      if ok then set_transform_type c st' else select_transform cs' st'
  end.

Definition configure_transformations (st : RoleStats) : RoleStats :=
  select_transform (candidates (m_transform_type st)) st.

(** ** Ratings *)

(** [range_transform val min mid max]: [min..mid] onto [0..50] and
    [mid..max] onto [50..100]; a zero-width half maps to 50. *)
Definition range_transform (val min mid max : Q) : Q :=
  if val <=? mid then
    (if mid <=? min then 50 else 50 * (val - min) / (mid - min))
  else
    (if max <=? mid then 50 else 50 + 50 * (val - mid) / (max - mid)).

Definition rank_upper_rating (st : RoleStats) (v : Q) : Q :=
  100 * Ecdf.fupper (m_upper st) v.

(** The rank of the whole sample is [favg], the average of the two ECDF
    limits (the header's [m_ecdf_median] is the "median of favg values",
    line 67, and the glossary's smoothed rank is this average); the
    shifted form [fupper] of spec 4.2 step 5 is what line 70 applies to
    [m_upper]. *)
Definition rank_all_rating (st : RoleStats) (v : Q) : Q :=
  100 * Ecdf.favg (m_raws st) v.

(** Min-max on the upper half: [50 + (v - upper_raw_min) / one_percent]. *)
Definition minmax_upper_rating (st : RoleStats) (v : Q) : Q :=
  if Qeq_bool (m_transform_one_percent st) 0 then 50
  else 50 + (v - m_upper_raw_min st) / m_transform_one_percent st.

Definition minmax_all_rating (st : RoleStats) (v : Q) : Q :=
  let d := Ecdf.ecdf_data (m_raws st) in
  range_transform v (hd 0 d) (m_raw_median st) (last d 0).

Definition strategy_rating (st : RoleStats) (v : Q) : Q :=
  match m_transform_type st with
  | TT_ECDF_RANK_UPPER => rank_upper_rating st v
  | TT_MULTI_UPPER => (rank_upper_rating st v + minmax_upper_rating st v) * (1#2)
  | TT_MIN_MAX_UPPER => minmax_upper_rating st v
  | TT_MULTI_ALL => (rank_all_rating st v + minmax_all_rating st v) * (1#2)
  | TT_MIN_MAX_ALL => minmax_all_rating st v
  | TT_ECDF_RANK_ALL | TT_UNKNOWN | TT_ECDF_RANK_TRY => rank_all_rating st v
  end.

(** [get_transformations_rating]: the active strategy, clamped to [0,100]. *)
Definition get_transformations_rating (st : RoleStats) (v : Q) : Q :=
  clamp 0 100 (strategy_rating st v).

Definition rating_at_median (st : RoleStats) : Q :=
  get_transformations_rating st (m_raw_median st).

(** [get_rating]: below the median an upper strategy scales linearly
    through the origin, capped by the median's rating. *)
Definition get_rating (st : RoleStats) (v : Q) : Q :=
  if is_upper (m_transform_type st) && (v <? m_raw_median st)
  then clamp 0 (rating_at_median st) (v * m_factor st)
  else get_transformations_rating st v.

(** ** Construction *)

(** [calculate_factor_value]: the min-max bounds of the upper half, then
    [factor = rating_at_median / raw_median], 0 when the median is not
    positive. *)
Definition calculate_factor_value (st : RoleStats) : RoleStats :=
  let u := Ecdf.ecdf_data (m_upper st) in
  let umin := hd 0 u in
  let diff := last u 0 - umin in
  let st1 :=
    {| m_unsorted := m_unsorted st; m_raws := m_raws st; m_upper := m_upper st;
       m_ecdf_median := m_ecdf_median st; m_raw_median := m_raw_median st;
       m_sum_over_median := m_sum_over_median st; m_sum_upper := m_sum_upper st;
       m_factor := m_factor st; m_upper_minmax_diff := diff; m_upper_raw_min := umin;
       m_transform_one_percent := diff * (1#50);
       m_transform_type := m_transform_type st;
       m_transformations := m_transformations st |} in
  let factor :=
    if 0 <? m_raw_median st then rating_at_median st1 / m_raw_median st else 0 in
  {| m_unsorted := m_unsorted st1; m_raws := m_raws st1; m_upper := m_upper st1;
     m_ecdf_median := m_ecdf_median st1; m_raw_median := m_raw_median st1;
     m_sum_over_median := m_sum_over_median st1; m_sum_upper := m_sum_upper st1;
     m_factor := factor; m_upper_minmax_diff := m_upper_minmax_diff st1;
     m_upper_raw_min := m_upper_raw_min st1;
     m_transform_one_percent := m_transform_one_percent st1;
     m_transform_type := m_transform_type st1;
     m_transformations := m_transformations st1 |}.

(** The upper partition of a sorted sample: the values over its median
    (rolestats.h line 66: [m_upper] is the "ecdf for values over the
    median", and line 69 uses "over" for [> median]), from
    [upper_start_idx], the index of the first of them. *)
Definition upper_partition (sorted : list Q) : list Q :=
  skipn (Ecdf.count_le (find_median sorted) sorted) sorted.

(** Steps 1-6 of [init_list]: sorted copy, medians, the two ECDFs and the
    sums; the strategy and the factor are reset. *)
Definition init_stats (st : RoleStats) : RoleStats :=
  let sorted := sort_values (m_unsorted st) in
  let raws := Ecdf.ECDF_new sorted in
  let med := find_median sorted in
  let upper_l := upper_partition sorted in
  let upper := Ecdf.ECDF_new upper_l in
  {| m_unsorted := m_unsorted st; m_raws := raws; m_upper := upper;
     m_ecdf_median := Ecdf.favg raws med; m_raw_median := med;
     m_sum_over_median := qsum (filter (fun y => med <? y) sorted);
     m_sum_upper := qsum (map (Ecdf.fupper upper) upper_l);
     m_factor := 0; m_upper_minmax_diff := 0; m_upper_raw_min := 0;
     m_transform_one_percent := 0;
     m_transform_type := m_transform_type st; m_transformations := [] |}.

(** [init_list]: rebuild every derived field from [m_unsorted] and the
    requested [m_transform_type]. *)
Definition init_list (st : RoleStats) : RoleStats :=
  calculate_factor_value (configure_transformations (init_stats st)).

(** The state the constructors start from. *)
Definition empty_state (unsorted : list Q) (t : TRANSFORM_TYPE) : RoleStats :=
  {| m_unsorted := unsorted; m_raws := Ecdf.ECDF_new []; m_upper := Ecdf.ECDF_new [];
     m_ecdf_median := 0; m_raw_median := 0; m_sum_over_median := 0; m_sum_upper := 0;
     m_factor := 0; m_upper_minmax_diff := 0; m_upper_raw_min := 0;
     m_transform_one_percent := 0; m_transform_type := t; m_transformations := [] |}.

(** The constructors [RoleStats(unsorted)] and [RoleStats(unsorted, t)]. *)
Definition RoleStats_new (unsorted : list Q) (t : TRANSFORM_TYPE) : RoleStats :=
  init_list (empty_state unsorted t).

(** [set_list]: replace the sample, forget the chosen strategy, rebuild. *)
Definition set_list (st : RoleStats) (unsorted : list Q) : RoleStats :=
  init_list
    {| m_unsorted := unsorted; m_raws := m_raws st; m_upper := m_upper st;
       m_ecdf_median := m_ecdf_median st; m_raw_median := m_raw_median st;
       m_sum_over_median := m_sum_over_median st; m_sum_upper := m_sum_upper st;
       m_factor := m_factor st; m_upper_minmax_diff := m_upper_minmax_diff st;
       m_upper_raw_min := m_upper_raw_min st;
       m_transform_one_percent := m_transform_one_percent st;
       m_transform_type := TT_UNKNOWN; m_transformations := m_transformations st |}.

(** ** Invariants and specification predicates *)

(** The fields that the strategy selection does not touch. *)
Definition same_data (st st' : RoleStats) : Prop :=
  m_unsorted st' = m_unsorted st /\ m_raws st' = m_raws st /\
  m_upper st' = m_upper st /\ m_raw_median st' = m_raw_median st /\
  m_factor st' = m_factor st /\ m_upper_raw_min st' = m_upper_raw_min st /\
  m_transform_one_percent st' = m_transform_one_percent st.

(** Both ECDF snapshots are sorted, the factor and the one-percent span
    are not negative, and the strategy is a concrete one. *)
Definition engine_wf (st : RoleStats) : Prop :=
  Ecdf.ecdf_wf (m_raws st) /\ Ecdf.ecdf_wf (m_upper st) /\
  0 <= m_factor st /\ 0 <= m_transform_one_percent st /\
  is_concrete (m_transform_type st) = true.

Definition flat (x : Q) (l : list Q) : Prop := Forall (fun y => y == x) l.

(** ** Sorting: [sort_values] returns a sorted permutation *)

Lemma insert_sorted_perm (x : Q) (l : list Q) : Permutation (insert_sorted x l) (x :: l).
Proof.
  induction l as [|y l IH]; simpl; [reflexivity|].
  destruct (x <=? y); [reflexivity|].
  etransitivity; [apply perm_skip, IH|apply perm_swap].
Qed.

Lemma sort_values_perm (l : list Q) : Permutation (sort_values l) l.
Proof.
  induction l as [|x l IH]; simpl; [reflexivity|].
  etransitivity; [apply insert_sorted_perm|apply perm_skip, IH].
Qed.

Lemma insert_sorted_hd (x y : Q) (l : list Q) :
  y <= x -> HdRel Qle y l -> HdRel Qle y (insert_sorted x l).
Proof.
  intros Hyx Hhd. destruct l as [|z l]; simpl; [constructor; exact Hyx|].
  destruct (x <=? z); constructor; [exact Hyx|now inversion Hhd].
Qed.

Lemma insert_sorted_sorted (x : Q) (l : list Q) :
  Sorted Qle l -> Sorted Qle (insert_sorted x l).
Proof.
  induction 1 as [|y l Hs IH Hhd]; simpl; [repeat constructor|].
  destruct (x <=? y) eqn:E; qrefl_in E.
  - repeat constructor; assumption.
  - constructor; [exact IH|apply insert_sorted_hd; [lra|exact Hhd]].
Qed.

Lemma sort_values_sorted (l : list Q) : Sorted Qle (sort_values l).
Proof. induction l; simpl; [constructor|apply insert_sorted_sorted; assumption]. Qed.

Lemma skipn_sorted (n : nat) (l : list Q) : Sorted Qle l -> Sorted Qle (skipn n l).
Proof.
  revert l. induction n as [|n IH]; intros l Hs; [exact Hs|].
  destruct l as [|x l]; simpl; [constructor|]. apply IH. now inversion Hs.
Qed.

Lemma sorted_hd_le_last (l : list Q) : Sorted Qle l -> hd 0 l <= last l 0.
Proof.
  intros Hs. destruct l as [|x l]; simpl; [apply Qle_refl|].
  pose proof (Ecdf.sorted_le_last (x :: l) 0 (Ecdf.sorted_strongly _ Hs)) as Hall.
  now inversion Hall.
Qed.

(** ** What each construction step keeps *)

Lemma select_transform_data (cs : list TRANSFORM_TYPE) (st : RoleStats) :
  same_data st (select_transform cs st) /\
  (In (m_transform_type (select_transform cs st)) cs \/
   m_transform_type (select_transform cs st) = TT_MIN_MAX_ALL).
Proof.
  revert st. induction cs as [|c cs IH]; intros st; simpl.
  - repeat split; right; reflexivity.
  - destruct (transform_valid _ _); simpl.
    + repeat split; left; left; reflexivity.
    + destruct (IH (snd (load_transformations (candidate_list c st) (is_multi c) st)))
        as [Hd Ht].
      unfold same_data in *; simpl in Hd.
      split; [exact Hd|destruct Ht as [Ht|Ht]; [left; right; exact Ht|right; exact Ht]].
Qed.

Lemma candidates_concrete (t : TRANSFORM_TYPE) :
  forall c, In c (candidates t) -> is_concrete c = true.
Proof. destruct t; simpl; intros c Hc; intuition (subst; reflexivity). Qed.

(** ** Monotonicity of each rating *)

Lemma qdiv_le_mono (x y d : Q) : 0 < d -> x <= y -> x / d <= y / d.
Proof.
  intros Hd Hxy. unfold Qdiv. apply Qmult_le_compat_r; [exact Hxy|].
  apply Qinv_le_0_compat. lra.
Qed.

Lemma qdiv_nonneg (x d : Q) : 0 <= x -> 0 <= d -> 0 <= x / d.
Proof.
  intros Hx Hd. unfold Qdiv. apply Qmult_le_0_compat; [exact Hx|].
  apply Qinv_le_0_compat, Hd.
Qed.

Lemma range_piece_mono (x y a b : Q) :
  a < b -> x <= y -> 50 * (x - a) / (b - a) <= 50 * (y - a) / (b - a).
Proof. intros. apply qdiv_le_mono; lra. Qed.

Lemma range_left_le_50 (x lo mid : Q) :
  lo < mid -> x <= mid -> 50 * (x - lo) / (mid - lo) <= 50.
Proof. intros. apply Qle_shift_div_r; lra. Qed.

Lemma range_right_nonneg (x mid hi : Q) :
  mid < hi -> mid < x -> 0 <= 50 * (x - mid) / (hi - mid).
Proof. intros. apply qdiv_nonneg; lra. Qed.

Lemma range_transform_mono (x y lo mid hi : Q) :
  x <= y -> range_transform x lo mid hi <= range_transform y lo mid hi.
Proof.
  intros Hxy. unfold range_transform. qcase; try lra;
  try pose proof (range_right_nonneg y mid hi ltac:(lra) ltac:(lra));
  try pose proof (range_left_le_50 x lo mid ltac:(lra) ltac:(lra));
  try pose proof (range_piece_mono x y lo mid ltac:(lra) ltac:(lra));
  try pose proof (range_piece_mono x y mid hi ltac:(lra) ltac:(lra)); lra.
Qed.

Lemma minmax_upper_mono (st : RoleStats) (x y : Q) :
  0 <= m_transform_one_percent st -> x <= y ->
  minmax_upper_rating st x <= minmax_upper_rating st y.
Proof.
  intros Hp Hxy. unfold minmax_upper_rating.
  destruct (Qeq_bool _ 0) eqn:E; [lra|].
  apply Qeq_bool_neq in E.
  assert ((x - m_upper_raw_min st) / m_transform_one_percent st <=
          (y - m_upper_raw_min st) / m_transform_one_percent st)
    by (apply qdiv_le_mono; [apply Qle_lteq in Hp as [Hp|Hp]; [exact Hp|now symmetry in Hp]|lra]).
  lra.
Qed.

(** ** The engine invariant *)

Lemma strategy_rating_mono (st : RoleStats) (x y : Q) :
  engine_wf st -> x <= y -> strategy_rating st x <= strategy_rating st y.
Proof.
  intros (Hr & Hu & _ & Hp & _) Hxy.
  pose proof (Ecdf.fupper_mono _ x y Hu Hxy).
  pose proof (Ecdf.favg_mono _ x y Hr Hxy).
  pose proof (minmax_upper_mono st x y Hp Hxy).
  pose proof (range_transform_mono x y (hd 0 (Ecdf.ecdf_data (m_raws st)))
                (m_raw_median st) (last (Ecdf.ecdf_data (m_raws st)) 0) Hxy).
  unfold strategy_rating, rank_upper_rating, rank_all_rating, minmax_all_rating.
  destruct (m_transform_type st); lra.
Qed.

Lemma get_transformations_rating_mono (st : RoleStats) (x y : Q) :
  engine_wf st -> x <= y ->
  get_transformations_rating st x <= get_transformations_rating st y.
Proof.
  intros Hwf Hxy. apply clamp_mono; [lra|]. apply strategy_rating_mono; assumption.
Qed.

Lemma get_transformations_rating_bounds (st : RoleStats) (v : Q) :
  0 <= get_transformations_rating st v <= 100.
Proof. apply clamp_bounds. lra. Qed.

Lemma get_rating_mono_wf (st : RoleStats) (x y : Q) :
  engine_wf st -> x <= y -> get_rating st x <= get_rating st y.
Proof.
  intros Hwf Hxy. pose proof Hwf as (_ & _ & Hf & _).
  pose proof (get_transformations_rating_bounds st (m_raw_median st)) as Hr.
  unfold get_rating. fold (rating_at_median st) in Hr.
  destruct (is_upper (m_transform_type st)); simpl;
    [|apply get_transformations_rating_mono; assumption].
  destruct (x <? m_raw_median st) eqn:Ex, (y <? m_raw_median st) eqn:Ey;
    qrefl_in Ex; qrefl_in Ey.
  - apply clamp_mono; [lra|]. apply Qmult_le_compat_r; assumption.
  - pose proof (clamp_bounds 0 (rating_at_median st) (x * m_factor st) ltac:(lra)).
    pose proof (get_transformations_rating_mono st (m_raw_median st) y Hwf Ey).
    unfold rating_at_median in *. lra.
  - lra.
  - apply get_transformations_rating_mono; assumption.
Qed.

(** The median of a non-empty sorted vector lies between two middle
    elements, at indices [i <= j] with [2 j <= n <= 2 (i + 1)]. *)
Lemma find_median_between (l : list Q) :
  Sorted Qle l -> l <> [] ->
  exists i j, (i <= j < length l)%nat /\ (2 * j <= length l <= 2 * S i)%nat /\
    nth i l 0 <= find_median l /\ find_median l <= nth j l 0.
Proof.
  intros Hs Hne. unfold find_median. set (n := length l).
  assert (Hn : (0 < n)%nat) by (apply length_pos_nonempty, Hne).
  pose proof (Nat.div_mod n 2 ltac:(lia)) as Hd. pose proof (Nat.mod_upper_bound n 2 ltac:(lia)).
  destruct (Nat.eqb_spec n 0) as [E|_]; [lia|].
  destruct (Nat.even n) eqn:Ev.
  - apply Nat.even_spec in Ev as [m Hm].
    assert (Hmid : nth (Nat.div n 2 - 1) l 0 <= nth (Nat.div n 2) l 0)
      by (apply Ecdf.sorted_nth_le; [apply Ecdf.sorted_strongly, Hs|lia]).
    exists (Nat.div n 2 - 1)%nat, (Nat.div n 2). repeat split; try lia; lra.
  - assert (Hodd : Nat.odd n = true) by (rewrite <- Nat.negb_even, Ev; reflexivity).
    apply Nat.odd_spec in Hodd as [m Hm].
    exists (Nat.div n 2), (Nat.div n 2). repeat split; try lia; apply Qle_refl.
Qed.

(** Construction establishes the invariant. *)
Lemma calculate_factor_value_type (st : RoleStats) :
  m_transform_type (calculate_factor_value st) = m_transform_type st.
Proof. reflexivity. Qed.

Lemma calculate_factor_value_factor (st : RoleStats) :
  m_factor (calculate_factor_value st) =
  if 0 <? m_raw_median st
  then rating_at_median (calculate_factor_value st) / m_raw_median st else 0.
Proof. reflexivity. Qed.

Lemma init_list_wf (st : RoleStats) : engine_wf (init_list st).
Proof.
  unfold init_list, configure_transformations.
  set (st1 := init_stats st).
  destruct (select_transform_data (candidates (m_transform_type st1)) st1)
    as [(_ & Hraws & Hupper & Hmed & _) Ht].
  set (st2 := select_transform _ st1) in *.
  assert (Hs : Sorted Qle (sort_values (m_unsorted st))) by apply sort_values_sorted.
  assert (Hu : Sorted Qle (Ecdf.ecdf_data (m_upper st2)))
    by (rewrite Hupper; apply skipn_sorted, Hs).
  repeat split.
  - change (Ecdf.ecdf_wf (m_raws st2)). rewrite Hraws. exact Hs.
  - exact Hu.
  - rewrite calculate_factor_value_factor.
    destruct (0 <? m_raw_median st2) eqn:E; qrefl_in E; [|lra].
    apply qdiv_nonneg; [apply get_transformations_rating_bounds|lra].
  - simpl. pose proof (sorted_hd_le_last _ Hu). lra.
  - rewrite calculate_factor_value_type.
    destruct Ht as [Ht|Ht]; [apply (candidates_concrete _ _ Ht)|rewrite Ht; reflexivity].
Qed.

(** ** Strategy selection *)

Lemma select_transform_cons_type (c : TRANSFORM_TYPE) (cs : list TRANSFORM_TYPE) (st : RoleStats) :
  m_transform_type (select_transform (c :: cs) st) =
  if transform_valid (load_list_stats (candidate_list c st)) (is_multi c) then c
  else m_transform_type
         (select_transform cs (snd (load_transformations (candidate_list c st) (is_multi c) st))).
Proof. simpl. destruct (transform_valid _ _); reflexivity. Qed.

(** The chosen strategy depends only on the two ECDF snapshots. *)
Lemma select_transform_type_data (cs : list TRANSFORM_TYPE) (st st' : RoleStats) :
  m_raws st = m_raws st' -> m_upper st = m_upper st' ->
  m_transform_type (select_transform cs st) = m_transform_type (select_transform cs st').
Proof.
  revert st st'. induction cs as [|c cs IH]; intros st st' Hr Hu; [reflexivity|].
  rewrite !select_transform_cons_type.
  assert (Hc : candidate_list c st = candidate_list c st')
    by (unfold candidate_list; now rewrite Hr, Hu).
  rewrite Hc. destruct (transform_valid _ _); [reflexivity|]. apply IH; assumption.
Qed.

Lemma init_list_type (st : RoleStats) :
  m_transform_type (init_list st) =
  m_transform_type (select_transform (candidates (m_transform_type st)) (init_stats st)).
Proof. reflexivity. Qed.

(** ** Strictly increasing samples *)

Lemma insert_sorted_head (x : Q) (l : list Q) :
  Forall (Qle x) l -> insert_sorted x l = x :: l.
Proof.
  intros H. destruct l as [|y l]; [reflexivity|]. simpl.
  inversion H; subst. destruct (x <=? y) eqn:E; qrefl_in E; [reflexivity|lra].
Qed.

Lemma sort_values_id (l : list Q) : StronglySorted Qle l -> sort_values l = l.
Proof.
  induction 1 as [|a l _ IH Hall]; [reflexivity|]. simpl. rewrite IH.
  apply insert_sorted_head, Hall.
Qed.

Lemma RoleStats_new_raws (l : list Q) (t : TRANSFORM_TYPE) :
  m_raws (RoleStats_new l t) = Ecdf.ECDF_new (sort_values l).
Proof.
  destruct (select_transform_data (candidates t) (init_stats (empty_state l t)))
    as [(_ & Hraws & _) _].
  exact Hraws.
Qed.

Lemma RoleStats_new_upper (l : list Q) (t : TRANSFORM_TYPE) :
  m_upper (RoleStats_new l t) = Ecdf.ECDF_new (upper_partition (sort_values l)) /\
  m_raw_median (RoleStats_new l t) = find_median (sort_values l).
Proof.
  destruct (select_transform_data (candidates t) (init_stats (empty_state l t)))
    as [(_ & _ & Hupper & Hmed & _) _].
  split; [exact Hupper|exact Hmed].
Qed.

Lemma strict_hd_lt_last (l : list Q) :
  StronglySorted Qlt l -> (2 <= length l)%nat -> hd 0 l < last l 0.
Proof.
  intros Hs Hn. destruct l as [|a [|b rest]]; simpl in Hn; try lia.
  pose proof (Ecdf.sorted_strongly _ (Ecdf.strict_sorted_le _ Hs)) as Hle.
  inversion Hs as [|? ? Hs' Hall]; subst. inversion Hall as [|? ? Hab _]; subst.
  inversion Hle as [|? ? Hle' _]; subst.
  pose proof (proj1 (Forall_forall _ _) (Ecdf.sorted_le_last (b :: rest) 0 Hle') b (or_introl eq_refl)).
  simpl hd. change (last (a :: b :: rest) 0) with (last (b :: rest) 0). cbv beta in H. lra.
Qed.

Lemma rank_all_type (l : list Q) :
  StronglySorted Qlt l -> (2 <= length l)%nat ->
  m_transform_type (RoleStats_new l TT_ECDF_RANK_ALL) = TT_ECDF_RANK_ALL.
Proof.
  intros Hs Hn. unfold RoleStats_new. rewrite init_list_type.
  cbn [candidates m_transform_type empty_state]. rewrite select_transform_cons_type.
  unfold candidate_list; cbn [is_upper is_multi init_stats Ecdf.ecdf_data Ecdf.ECDF_new m_raws m_unsorted empty_state].
  rewrite (sort_values_id l (Ecdf.sorted_strongly _ (Ecdf.strict_sorted_le _ Hs))).
  unfold transform_valid, load_list_stats; cbn [ts_min ts_max].
  destruct (hd 0 l <? last l 0) eqn:E; qrefl_in E; [reflexivity|].
  pose proof (strict_hd_lt_last l Hs Hn). lra.
Qed.

(** ** Flat samples *)

Lemma flat_skipn (x : Q) (n : nat) (l : list Q) : flat x l -> flat x (skipn n l).
Proof.
  revert l. induction n as [|n IH]; intros l Hl; [exact Hl|].
  destruct l as [|y l]; simpl; [constructor|]. apply IH. now inversion Hl.
Qed.

Lemma flat_nth (x : Q) (l : list Q) (i : nat) :
  flat x l -> (i < length l)%nat -> nth i l 0 == x.
Proof. intros Hl Hi. exact (proj1 (Forall_nth _ l) Hl i 0 Hi). Qed.

Lemma flat_ends (x : Q) (l : list Q) :
  flat x l -> l <> [] -> hd 0 l == x /\ last l 0 == x.
Proof.
  intros Hl Hne. split.
  - destruct l; [contradiction|]. now inversion Hl.
  - induction Hl as [|y l Hy Hl IH]; [contradiction|].
    destruct l as [|z l]; [exact Hy|]. apply IH. discriminate.
Qed.

Lemma flat_find_median (x : Q) (l : list Q) :
  flat x l -> l <> [] -> find_median l == x.
Proof.
  intros Hl Hne. unfold find_median.
  assert (Hn : (0 < length l)%nat) by (destruct l; [contradiction|simpl; lia]).
  pose proof (Nat.div_mod (length l) 2 ltac:(lia)).
  pose proof (Nat.mod_upper_bound (length l) 2 ltac:(lia)).
  destruct (Nat.eqb_spec (length l) 0); [lia|].
  pose proof (flat_nth x l (Nat.div (length l) 2) Hl ltac:(lia)).
  pose proof (flat_nth x l (Nat.div (length l) 2 - 1) Hl ltac:(lia)).
  destruct (Nat.even (length l)); lra.
Qed.

Lemma flat_invalid (x : Q) (l : list Q) (b : bool) :
  flat x l -> transform_valid (load_list_stats l) b = false.
Proof.
  intros Hl. unfold transform_valid, load_list_stats; simpl.
  assert (Hlt : (hd 0 l <? last l 0) = false).
  { apply Qlt_bool_false. destruct l as [|y l]; [apply Qle_refl|].
    destruct (flat_ends x (y :: l) Hl ltac:(discriminate)). lra. }
  now rewrite Hlt.
Qed.

Lemma select_transform_flat (x : Q) (cs : list TRANSFORM_TYPE) (st : RoleStats) :
  flat x (Ecdf.ecdf_data (m_raws st)) -> flat x (Ecdf.ecdf_data (m_upper st)) ->
  m_transform_type (select_transform cs st) = TT_MIN_MAX_ALL.
Proof.
  revert st. induction cs as [|c cs IH]; intros st Hr Hu; [reflexivity|].
  rewrite select_transform_cons_type, (flat_invalid x);
    [apply IH; assumption|unfold candidate_list; destruct (is_upper c); assumption].
Qed.

#[export] Instance range_transform_comp :
  Proper (Qeq ==> Qeq ==> Qeq ==> Qeq ==> Qeq) range_transform.
Proof.
  intros v v' Hv a a' Ha m m' Hm b b' Hb. unfold range_transform.
  rewrite (Qleb_comp v v' Hv m m' Hm), (Qleb_comp m m' Hm a a' Ha),
    (Qleb_comp b b' Hb m m' Hm).
  destruct (v' <=? m'), (m' <=? a'), (b' <=? m'); try reflexivity;
    try rewrite Hv; try rewrite Ha; try rewrite Hm; try rewrite Hb; reflexivity.
Qed.

Lemma range_transform_flat (v x : Q) : range_transform v x x x == 50.
Proof. unfold range_transform. qcase; reflexivity || lra. Qed.

(** ** The engine's contract (spec 4.2, 7 and 8) *)

(** C1: Every rating lies in [0,100], for every engine state and every raw
    value: out-of-range inputs are clamped, never rejected. *)
Theorem get_rating_bounds (st : RoleStats) (v : Q) : 0 <= get_rating st v <= 100.
Proof.
  unfold get_rating. destruct (_ && _); [|apply get_transformations_rating_bounds].
  pose proof (get_transformations_rating_bounds st (m_raw_median st)).
  pose proof (clamp_bounds 0 (rating_at_median st) (v * m_factor st)).
  unfold rating_at_median in *. lra.
Qed.

(** C2: On a constructed engine the rating is monotone: a larger raw value
    never gets a smaller rating, across the median boundary included. *)
Theorem get_rating_monotone (l : list Q) (t : TRANSFORM_TYPE) (v1 v2 : Q) :
  v1 <= v2 -> get_rating (RoleStats_new l t) v1 <= get_rating (RoleStats_new l t) v2.
Proof. intros Hv. apply get_rating_mono_wf; [apply init_list_wf|exact Hv]. Qed.

Lemma get_rating_monotone_witness :
  1 <= 10 /\
  get_rating (RoleStats_new [1; 5; 2; 8] TT_UNKNOWN) 1 <=
  get_rating (RoleStats_new [1; 5; 2; 8] TT_UNKNOWN) 10.
Proof.
  assert (H : 1 <= 10) by (unfold Qle; simpl; lia).
  split; [exact H|]. apply (get_rating_monotone [1; 5; 2; 8] TT_UNKNOWN 1 10 H).
Defined.

(** C3: The constructor and [set_list] establish the engine invariant:
    sorted ECDF snapshots, a non-negative factor and one-percent span, and
    a concrete (no longer pending) strategy; and [set_list] discards every
    derived scalar and the chosen strategy, so that its result is the
    engine freshly built from the new sample. *)
Theorem engine_wf_established (l : list Q) (t : TRANSFORM_TYPE) (st : RoleStats) :
  engine_wf (RoleStats_new l t) /\ engine_wf (set_list st l) /\
  set_list st l = RoleStats_new l TT_UNKNOWN.
Proof. split; [|split]; [apply init_list_wf|apply init_list_wf|reflexivity]. Qed.

(** C4: [TT_ECDF_RANK_TRY] adopts rank-upper when the upper partition is
    not flat, falls back to rank-all when only the whole sample is not
    flat, and ends in the flat-sample strategy otherwise. *)
Theorem rank_try_selection (l : list Q) :
  m_transform_type (RoleStats_new l TT_ECDF_RANK_TRY) =
  if transform_valid (load_list_stats (upper_partition (sort_values l))) false
  then TT_ECDF_RANK_UPPER
  else if transform_valid (load_list_stats (sort_values l)) false
  then TT_ECDF_RANK_ALL
  else TT_MIN_MAX_ALL.
Proof.
  unfold RoleStats_new. rewrite init_list_type.
  cbn [candidates m_transform_type empty_state]. rewrite !select_transform_cons_type.
  reflexivity.
Qed.

(** C5: A pinned strategy is kept when its candidate list validates, and
    is otherwise downgraded exactly as [TT_ECDF_RANK_TRY] would choose. *)
Theorem pinned_strategy (l : list Q) (t : TRANSFORM_TYPE) :
  is_concrete t = true ->
  m_transform_type (RoleStats_new l t) =
  if transform_valid
       (load_list_stats (if is_upper t then upper_partition (sort_values l) else sort_values l))
       (is_multi t)
  then t else m_transform_type (RoleStats_new l TT_ECDF_RANK_TRY).
Proof.
  intros Ht. unfold RoleStats_new. rewrite !init_list_type.
  cbn [m_transform_type empty_state].
  assert (Hc : candidates t = t :: candidates TT_ECDF_RANK_TRY) by (destruct t; easy).
  rewrite Hc, select_transform_cons_type.
  assert (Hl : candidate_list t (init_stats (empty_state l t)) =
               if is_upper t then upper_partition (sort_values l) else sort_values l)
    by (unfold candidate_list; destruct (is_upper t); reflexivity).
  rewrite Hl. destruct (transform_valid _ _); [reflexivity|].
  apply select_transform_type_data; reflexivity.
Qed.

Lemma pinned_strategy_witness :
  is_concrete TT_MIN_MAX_UPPER = true /\
  m_transform_type (RoleStats_new [5; 5; 1] TT_MIN_MAX_UPPER) =
  if transform_valid
       (load_list_stats (if is_upper TT_MIN_MAX_UPPER then upper_partition (sort_values [5; 5; 1])
                         else sort_values [5; 5; 1]))
       (is_multi TT_MIN_MAX_UPPER)
  then TT_MIN_MAX_UPPER else m_transform_type (RoleStats_new [5; 5; 1] TT_ECDF_RANK_TRY).
Proof. split; [reflexivity|]. apply pinned_strategy. reflexivity. Defined.

(** C6: A sample whose values are all equal gets the constant rating 50
    for every query, whatever strategy was requested. *)
Theorem flat_sample_rating (l : list Q) (x : Q) (t : TRANSFORM_TYPE) (v : Q) :
  l <> [] -> Forall (fun y => y == x) l -> get_rating (RoleStats_new l t) v == 50.
Proof.
  intros Hne Hl. set (st := RoleStats_new l t).
  set (sorted := sort_values l).
  assert (Hs : flat x sorted) by (eapply Permutation_Forall; [symmetry; apply sort_values_perm|exact Hl]).
  assert (Hsne : sorted <> []).
  { intros E. apply Hne, Permutation_nil. rewrite <- E. apply sort_values_perm. }
  assert (Htype : m_transform_type st = TT_MIN_MAX_ALL).
  { unfold st, RoleStats_new. rewrite init_list_type.
    apply (select_transform_flat x); [exact Hs|apply flat_skipn, Hs]. }
  destruct (select_transform_data (candidates t) (init_stats (empty_state l t)))
    as [(_ & Hraws & _ & Hmed & _) _].
  unfold get_rating, get_transformations_rating, strategy_rating, minmax_all_rating.
  rewrite Htype; simpl andb.
  assert (Hd : Ecdf.ecdf_data (m_raws st) = sorted) by (exact (f_equal Ecdf.ecdf_data Hraws)).
  assert (Hm : m_raw_median st = find_median sorted) by exact Hmed.
  rewrite Hd, Hm. destruct (flat_ends x sorted Hs Hsne) as [Hhd Hlast].
  rewrite Hhd, Hlast, (flat_find_median x sorted Hs Hsne), range_transform_flat.
  apply clamp_id; lra.
Qed.

Lemma flat_sample_rating_witness :
  [5; 5; 5; 5; 5] <> [] /\ Forall (fun y => y == 5) [5; 5; 5; 5; 5] /\
  get_rating (RoleStats_new [5; 5; 5; 5; 5] TT_UNKNOWN) 0 == 50.
Proof.
  assert (Hne : [5; 5; 5; 5; 5] <> []) by discriminate.
  assert (Hl : Forall (fun y => y == 5) [5; 5; 5; 5; 5]) by (repeat constructor).
  split; [exact Hne|]. split; [exact Hl|].
  apply (flat_sample_rating _ 5 TT_UNKNOWN 0 Hne Hl).
Defined.

(** C7: For an upper strategy with a positive median, [calculate_factor_value]
    anchors the linear lower segment at the median's rating
    ([factor * median = rating(median)]), and every value in
    [0, median) is rated exactly [value * factor]. *)
Theorem median_anchor (st0 : RoleStats) :
  is_upper (m_transform_type st0) = true -> 0 < m_raw_median st0 ->
  m_factor (calculate_factor_value st0) * m_raw_median (calculate_factor_value st0) ==
    get_rating (calculate_factor_value st0) (m_raw_median (calculate_factor_value st0)) /\
  (forall v, 0 <= v -> v < m_raw_median (calculate_factor_value st0) ->
     get_rating (calculate_factor_value st0) v == v * m_factor (calculate_factor_value st0)).
Proof.
  intros Hup Hmed. set (st := calculate_factor_value st0).
  assert (Hm : m_raw_median st = m_raw_median st0) by reflexivity.
  assert (Ht : m_transform_type st = m_transform_type st0) by reflexivity.
  pose proof (calculate_factor_value_factor st0) as Hf. fold st in Hf.
  rewrite Hm in *.
  destruct (0 <? m_raw_median st0) eqn:E; qrefl_in E; [|lra].
  assert (Hr : 0 <= rating_at_median st <= 100) by apply get_transformations_rating_bounds.
  set (r := rating_at_median st) in *.
  unfold get_rating. rewrite Ht, Hup, Hm. simpl andb. split.
  - rewrite Hf. destruct (m_raw_median st0 <? m_raw_median st0) eqn:E'; qrefl_in E'; [lra|].
    change (get_transformations_rating st (m_raw_median st0)) with r. field. lra.
  - intros v Hv0 Hv. change (m_raw_median st) with (m_raw_median st0) in Hv.
    destruct (v <? m_raw_median st0) eqn:E'; qrefl_in E'; [|lra].
    change (rating_at_median st) with r. apply clamp_id; rewrite Hf.
    + apply Qmult_le_0_compat; [exact Hv0|apply qdiv_nonneg; lra].
    + assert (v * r <= r * m_raw_median st0) by nra.
      setoid_replace (v * (r / m_raw_median st0)) with (v * r / m_raw_median st0)
        by (field; lra).
      apply Qle_shift_div_r; lra.
Qed.

Lemma median_anchor_witness :
  is_upper (m_transform_type (init_stats (empty_state [1; 2; 3] TT_ECDF_RANK_UPPER))) = true /\
  0 < m_raw_median (init_stats (empty_state [1; 2; 3] TT_ECDF_RANK_UPPER)) /\
  m_factor (calculate_factor_value (init_stats (empty_state [1; 2; 3] TT_ECDF_RANK_UPPER))) *
    m_raw_median (calculate_factor_value (init_stats (empty_state [1; 2; 3] TT_ECDF_RANK_UPPER))) ==
  get_rating (calculate_factor_value (init_stats (empty_state [1; 2; 3] TT_ECDF_RANK_UPPER)))
    (m_raw_median (calculate_factor_value (init_stats (empty_state [1; 2; 3] TT_ECDF_RANK_UPPER)))).
Proof.
  assert (Hu : is_upper (m_transform_type (init_stats (empty_state [1; 2; 3] TT_ECDF_RANK_UPPER))) = true)
    by reflexivity.
  assert (Hm : 0 < m_raw_median (init_stats (empty_state [1; 2; 3] TT_ECDF_RANK_UPPER)))
    by (vm_compute; reflexivity).
  split; [exact Hu|]. split; [exact Hm|]. exact (proj1 (median_anchor _ Hu Hm)).
Defined.

(** The scenario of spec 8 on [1..10]: the median is 5.5, it is rated
    50, and [rating(1) < rating(5.5) < rating(10) <= 100]. *)
Example scenario_one_to_ten :
  let st := RoleStats_new [1; 2; 3; 4; 5; 6; 7; 8; 9; 10] TT_UNKNOWN in
  m_raw_median st == 11#2 /\ get_rating st (11#2) == 50 /\
  get_rating st 1 < get_rating st (11#2) /\ get_rating st (11#2) < get_rating st 10 /\
  get_rating st 10 <= 100.
Proof. vm_compute. repeat split; discriminate || reflexivity. Qed.

(** ** A degenerate upper partition *)

(** On a sorted sample the upper partition, taken from the index
    [upper_start_idx], is the sample's values over the median, in order. *)
Lemma upper_partition_filter (l : list Q) :
  Sorted Qle l -> upper_partition l = filter (fun y => find_median l <? y) l.
Proof.
  intros Hs. unfold upper_partition, Ecdf.count_le.
  rewrite Ecdf.skipn_count_if; [reflexivity|apply Ecdf.sorted_strongly, Hs|apply Ecdf.le_pred_down].
Qed.

(** Every value of the upper partition of a sample's sorted copy is a
    value of the sample that lies over the median. *)
Lemma upper_partition_in (l : list Q) (y : Q) :
  In y (upper_partition (sort_values l)) ->
  In y l /\ find_median (sort_values l) < y.
Proof.
  rewrite upper_partition_filter by apply sort_values_sorted.
  intros Hy. apply filter_In in Hy as [Hy Hlt]. split.
  - exact (Permutation_in _ (sort_values_perm l) Hy).
  - now apply Qlt_bool_iff.
Qed.

(** With a flat upper snapshot no upper strategy is ever adopted. *)
Lemma select_transform_flat_upper (x : Q) (cs : list TRANSFORM_TYPE) (st : RoleStats) :
  flat x (Ecdf.ecdf_data (m_upper st)) ->
  is_upper (m_transform_type (select_transform cs st)) = false.
Proof.
  revert st. induction cs as [|c cs IH]; intros st Hu; [reflexivity|].
  rewrite select_transform_cons_type. unfold candidate_list at 1.
  destruct (is_upper c) eqn:Hc.
  - rewrite (flat_invalid x _ _ Hu). apply IH. exact Hu.
  - destruct (transform_valid _ _); [exact Hc|]. apply IH. exact Hu.
Qed.

(** C14: The median anchors the rank-upper scale at 50: when the engine
    adopts [TT_ECDF_RANK_UPPER], no value of the upper ECDF lies at or
    below the raw median, so the median's smoothed upper rank is exactly
    1/2 and [get_rating] rates the median 50 (spec 7, "median behaviour",
    and the scenario [1..10] with [rating(5.5) = 50]). *)
Theorem rank_upper_median_50 (l : list Q) (t : TRANSFORM_TYPE) :
  m_transform_type (RoleStats_new l t) = TT_ECDF_RANK_UPPER ->
  get_rating (RoleStats_new l t) (m_raw_median (RoleStats_new l t)) == 50.
Proof.
  intros Ht. destruct (init_list_wf (empty_state l t)) as (_ & Hwf & _).
  fold (RoleStats_new l t) in Hwf. destruct (RoleStats_new_upper l t) as [Hu Hm].
  unfold get_rating, get_transformations_rating, strategy_rating, rank_upper_rating, Ecdf.fupper.
  rewrite Ht, (Ecdf.f_plus_count _ _ Hwf), (Ecdf.f_minus_count _ _ Hwf), Hu, Hm.
  cbn [is_upper andb Ecdf.ecdf_data Ecdf.ECDF_new].
  assert (Hall : forall p : Q -> bool, (forall y, find_median (sort_values l) < y -> p y = false) ->
            count_if p (upper_partition (sort_values l)) = 0%nat).
  { intros p Hp. apply count_if_none, Forall_forall. intros y Hy.
    apply Hp, (proj2 (upper_partition_in l y Hy)). }
  unfold Ecdf.count_le, Ecdf.count_lt.
  rewrite !Hall by (intros y Hy; apply Qle_bool_false || apply Qlt_bool_false; lra).
  rewrite (proj2 (Qlt_bool_false _ _) (Qle_refl _)).
  assert (R0 : forall n, ratio 0 n == 0) by reflexivity.
  rewrite !R0. reflexivity.
Qed.

Lemma rank_upper_median_50_witness :
  m_transform_type (RoleStats_new [1; 2; 3; 4; 5; 6; 7; 8; 9; 10] TT_UNKNOWN) = TT_ECDF_RANK_UPPER /\
  get_rating (RoleStats_new [1; 2; 3; 4; 5; 6; 7; 8; 9; 10] TT_UNKNOWN)
    (m_raw_median (RoleStats_new [1; 2; 3; 4; 5; 6; 7; 8; 9; 10] TT_UNKNOWN)) == 50.
Proof.
  assert (Ht : m_transform_type (RoleStats_new [1; 2; 3; 4; 5; 6; 7; 8; 9; 10] TT_UNKNOWN)
               = TT_ECDF_RANK_UPPER) by (vm_compute; reflexivity).
  split; [exact Ht|]. exact (rank_upper_median_50 _ _ Ht).
Defined.

(** C36: When every value over the median is the same (in particular when
    a single value lies over it, as in the spec's sample [1,1,1,1,100]),
    the upper partition is degenerate and the engine never adopts an
    upper strategy, whatever strategy was requested: it falls back to a
    strategy over the whole sample. *)
Theorem degenerate_upper_fallback (l : list Q) (t : TRANSFORM_TYPE) (x : Q) :
  (forall y, In y l -> find_median (sort_values l) < y -> y == x) ->
  is_upper (m_transform_type (RoleStats_new l t)) = false.
Proof.
  intros Hx. unfold RoleStats_new. rewrite init_list_type.
  apply (select_transform_flat_upper x). cbn [init_stats m_upper Ecdf.ecdf_data Ecdf.ECDF_new].
  apply Forall_forall. intros y Hy. apply upper_partition_in in Hy as [Hy Hlt].
  exact (Hx y Hy Hlt).
Qed.

Lemma degenerate_upper_fallback_witness :
  (forall y, In y [1; 1; 1; 1; 100] -> find_median (sort_values [1; 1; 1; 1; 100]) < y -> y == 100) /\
  is_upper (m_transform_type (RoleStats_new [1; 1; 1; 1; 100] TT_ECDF_RANK_TRY)) = false.
Proof.
  split; [|apply (degenerate_upper_fallback _ TT_ECDF_RANK_TRY 100)];
    intros y Hy Hlt; simpl in Hy;
    repeat destruct Hy as [<-|Hy]; try contradiction; vm_compute in Hlt |- *;
    reflexivity || discriminate.
Defined.

(** C37: The median splits a sorted sample in halves: at most half of
    the values lie strictly below it and at least half at or below it. *)
Theorem median_halves (l : list Q) :
  Sorted Qle l ->
  (2 * Ecdf.count_lt (find_median l) l <= length l <= 2 * Ecdf.count_le (find_median l) l)%nat.
Proof.
  intros Hs. destruct l as [|a l']; [simpl; lia|].
  destruct (find_median_between (a :: l') Hs ltac:(discriminate))
    as (i & j & Hij & Hn & Hi & Hj).
  pose proof (Ecdf.count_lt_index _ _ j Hs ltac:(lia) Hj).
  pose proof (Ecdf.count_le_index _ _ i Hs ltac:(lia) Hi). lia.
Qed.

Lemma median_halves_witness :
  let l := [1; 3; 3; 8; 9] in
  Sorted Qle l /\
  (2 * Ecdf.count_lt (find_median l) l <= length l <= 2 * Ecdf.count_le (find_median l) l)%nat.
Proof.
  intros l.
  assert (Hs : Sorted Qle l) by (repeat constructor; unfold Qle; simpl; lia).
  split; [exact Hs|]. exact (median_halves l Hs).
Defined.

(** C23: Composition of the engine with the ECDF: on a strictly
    increasing sample of at least two values, an engine asked for
    [TT_ECDF_RANK_ALL] keeps that strategy and rates the [i]-th value of
    the sample [100 (2 i + 1) / (2 n)], the midpoint of its ECDF step. *)
Theorem rank_all_at_sample (l : list Q) (i : nat) :
  StronglySorted Qlt l -> (2 <= length l)%nat -> (i < length l)%nat ->
  get_rating (RoleStats_new l TT_ECDF_RANK_ALL) (nth i l 0) == ratio (2 * i + 1) (2 * length l) * 100.
Proof.
  intros Hs Hn Hi.
  unfold get_rating, get_transformations_rating, strategy_rating, rank_all_rating.
  rewrite rank_all_type by assumption. simpl andb. rewrite RoleStats_new_raws.
  rewrite (sort_values_id l (Ecdf.sorted_strongly _ (Ecdf.strict_sorted_le _ Hs))).
  pose proof (Ecdf.favg_bounds (Ecdf.ECDF_new l) (nth i l 0)).
  rewrite clamp_id by lra. unfold Ecdf.favg.
  destruct (Ecdf.f_at_sample l i Hs Hi) as [-> ->].
  rewrite <- (ratio_mid i (length l)) by lia. ring.
Qed.

Lemma rank_all_at_sample_witness :
  StronglySorted Qlt [1; 2; 4] /\ (2 <= length [1; 2; 4])%nat /\ (1 < length [1; 2; 4])%nat /\
  get_rating (RoleStats_new [1; 2; 4] TT_ECDF_RANK_ALL) (nth 1 [1; 2; 4] 0) == 50.
Proof.
  assert (Hs : StronglySorted Qlt [1; 2; 4]) by (repeat constructor; unfold Qlt; simpl; lia).
  assert (Hn : (2 <= length [1; 2; 4])%nat) by (simpl; lia).
  assert (Hi : (1 < length [1; 2; 4])%nat) by (simpl; lia).
  split; [exact Hs|]. split; [exact Hn|]. split; [exact Hi|].
  rewrite (rank_all_at_sample [1; 2; 4] 1 Hs Hn Hi). reflexivity.
Defined.

(** The empty sample, which the spec does not cover: the engine falls
    back to [TT_MIN_MAX_ALL] with minimum, median and maximum all 0 (the
    defaults of [hd], [last] and [find_median] here; [first()] and
    [last()] of an empty [QVector] are undefined in C++), and then rates
    every value 50. *)
Example empty_sample_rating (v : Q) : get_rating (RoleStats_new [] TT_UNKNOWN) v = 50.
Proof.
  set (st := RoleStats_new [] TT_UNKNOWN).
  assert (Ht : m_transform_type st = TT_MIN_MAX_ALL) by reflexivity.
  assert (Hd : Ecdf.ecdf_data (m_raws st) = []) by reflexivity.
  assert (Hm : m_raw_median st = 0) by reflexivity.
  unfold get_rating, get_transformations_rating, strategy_rating, minmax_all_rating.
  rewrite Ht, Hd, Hm. unfold range_transform. cbn [hd last is_upper andb].
  destruct (v <=? 0); reflexivity.
Qed.

End RoleStats.
