(* ===== verification/Preference.v ===== *)
(** * Preferences and their matching (src/src/preference.cpp)

    [Module Preference] models [class Preference]: its state is the record
    [Preference] (the fields assigned by the constructors, lines 33-77;
    [pref_aspect] is the pointer to the [RoleAspect] a constructor
    allocates, which the copy constructor shares).  The constructors, the
    copy constructor, [add_flag] (82-85), [matches] (87-146) and the three
    [set_pref_flags] overloads (148-213) are one definition each.

    The enumerations the file uses ([PREF_TYPES], [ITEM_TYPE] and the flag
    numbers such as [HATEABLE] or [ITEMS_WEAPON]) are declared in headers
    outside the sources.  They are the fields of the class [DTEnums]; the
    theorems hold for every choice of values (a section [Context]), and the
    instance [dt_enums] gives the values the witnesses compute with.
    The game objects the code only queries are records of their queries:
    [Race] (flags, caste flags), [Plant] (flags), [ItemWeaponSubtype]
    ([is_ranged], [multi_grasp]) and [Dwarf] ([body_size(true)] and the
    weapon lookup [find_weapon_def] of its game instance).  A C++ pointer
    that may be null is an [option].  [QString::compare(..,
    Qt::CaseInsensitive) == 0] is [eq_ci], which folds ASCII letters;
    Unicode case folding beyond ASCII is not modelled. *)

From Stdlib Require Import ZArith List Bool Ascii String Lia.
From S2P Require Import Prelude.
Import ListNotations.
Open Scope Z_scope.

Module Preference.

(** ** The enumeration values the file uses *)

Class DTEnums := {
  LIKES_NONE : Z;
  NONE : Z;
  WEAPON : Z;
  ITEMS_WEAPON : Z;
  ITEMS_WEAPON_RANGED : Z;
  HATEABLE : Z;
  TRAINABLE : Z;
  SHEARABLE : Z;
  FISHABLE : Z;
  BUTCHERABLE : Z;
  MILKABLE : Z;
  HAS_EXTRACTS : Z;
  VERMIN_FISH : Z;
  P_SAPLING : Z;
  P_TREE : Z;
  P_DRINK : Z;
  P_CROP : Z;
  P_MILL : Z;
  P_HAS_EXTRACTS : Z }.

(** ** Case-insensitive comparison of names *)

Definition ascii_lower (c : ascii) : ascii :=
  let n := nat_of_ascii c in
  if (65 <=? n)%nat && (n <=? 90)%nat then ascii_of_nat (n + 32) else c.

Fixpoint str_lower (s : string) : string :=
  match s with
  | EmptyString => EmptyString
  | String c s' => String (ascii_lower c) (str_lower s')
  end.

Definition eq_ci (a b : string) : bool := String.eqb (str_lower a) (str_lower b).

(** ** The material flag array ([FlagArray]) *)

(** A bit array: [has_flag f] reads bit [f], [no_flags] holds when no bit
    is set. *)
Record FlagArray := mkFlagArray { flag_bits : Z }.

Definition has_flag (fa : FlagArray) (f : Z) : bool := (0 <=? f) && Z.testbit (flag_bits fa) f.

Definition no_flags (fa : FlagArray) : bool := Z.eqb (flag_bits fa) 0.

(** ** The game objects the code queries *)

Record Race := mkRace {
  race_has_flag : Z -> bool;  (* r->flags().has_flag(f) *)
  caste_flag : Z -> bool }.   (* r->caste_flag(f) *)

Record Plant := mkPlant { plant_has_flag : Z -> bool }.

Record ItemWeaponSubtype := mkWeapon { is_ranged : bool; multi_grasp : Z }.

Record Dwarf := mkDwarf {
  body_size : Z;                                      (* d->body_size(true) *)
  find_weapon_def : string -> option ItemWeaponSubtype }.

(** ** The preference *)

Record Preference := mkPreference {
  pref_aspect : Z;       (* the RoleAspect pointer, shared by copies *)
  m_name : string;
  m_pType : Z;
  m_iType : Z;
  m_material_flags : FlagArray;
  m_special_flags : list Z;
  m_exact_match : bool }.

Section WithEnums.
Context `{DTEnums}.

(** [Preference(QObject *parent)], [Preference(category, iType)] and
    [Preference(category, name)]; [aspect] is the [RoleAspect] each of them
    allocates ([new RoleAspect(parent)]). *)
Definition Preference_default (aspect : Z) : Preference :=
  {| pref_aspect := aspect; m_name := EmptyString; m_pType := LIKES_NONE; m_iType := NONE;
     m_material_flags := mkFlagArray 0; m_special_flags := []; m_exact_match := false |}.

Definition Preference_item (aspect category iType : Z) : Preference :=
  {| pref_aspect := aspect; m_name := EmptyString; m_pType := category; m_iType := iType;
     m_material_flags := mkFlagArray 0; m_special_flags := []; m_exact_match := false |}.

Definition Preference_named (aspect category : Z) (name : string) : Preference :=
  {| pref_aspect := aspect; m_name := name; m_pType := category; m_iType := NONE;
     m_material_flags := mkFlagArray 0; m_special_flags := []; m_exact_match := false |}.

(** The copy constructor [Preference(const Preference &p)]: every field is
    copied, and the copy shares its source's [RoleAspect]. *)
Definition Preference_copy (p : Preference) : Preference :=
  {| pref_aspect := pref_aspect p; m_name := m_name p; m_pType := m_pType p;
     m_iType := m_iType p; m_material_flags := m_material_flags p;
     m_special_flags := m_special_flags p; m_exact_match := m_exact_match p |}.

Definition with_special_flags (p : Preference) (fl : list Z) : Preference :=
  {| pref_aspect := pref_aspect p; m_name := m_name p; m_pType := m_pType p; m_iType := m_iType p;
     m_material_flags := m_material_flags p; m_special_flags := fl;
     m_exact_match := m_exact_match p |}.

Definition with_exact_match (p : Preference) (b : bool) : Preference :=
  {| pref_aspect := pref_aspect p; m_name := m_name p; m_pType := m_pType p; m_iType := m_iType p;
     m_material_flags := m_material_flags p; m_special_flags := m_special_flags p;
     m_exact_match := b |}.

Definition contains (l : list Z) (f : Z) : bool := existsb (Z.eqb f) l.

(** [add_flag]: append the flag unless the list already contains it. *)
Definition add_flag (p : Preference) (flag : Z) : Preference :=
  if contains (m_special_flags p) flag then p
  else with_special_flags p (m_special_flags p ++ [flag]).

(** Lines 107-111: every role flag that this preference also has sets the
    result to 1; the loop does not stop early. *)
Definition special_flags_loop (mine roles : list Z) (result : Z) : Z :=
  fold_left (fun r f => if contains mine f then 1 else r) roles result.

(** Lines 119-124: the first role flag missing from the material flags
    sets the result to 0 and leaves the loop. *)
Fixpoint material_flags_loop (fa : FlagArray) (roles : list Z) (result : Z) : Z :=
  match roles with
  | [] => result
  | f :: fs => if negb (has_flag fa f) then 0 else material_flags_loop fa fs result
  end.

(** Lines 134-135: the weapon check applies to a weapon role preference,
    or to a role preference with special flags when this preference is a
    (ranged) weapon. *)
Definition needs_weapon_check (self role_pref : Preference) : bool :=
  Z.eqb (m_iType role_pref) WEAPON ||
  (0 <? Z.of_nat (List.length (m_special_flags role_pref))) &&
  (contains (m_special_flags self) ITEMS_WEAPON ||
   contains (m_special_flags self) ITEMS_WEAPON_RANGED).

(** Lines 103-113: role special flags replace the result so far by
    whether this preference shares one of them. *)
Definition special_block (self role_pref : Preference) (result : Z) : Z :=
  if 0 <? Z.of_nat (List.length (m_special_flags role_pref)) then
    let result := if Z.eqb result 1 then 0 else result in
    if 0 <? Z.of_nat (List.length (m_special_flags self)) then
      special_flags_loop (m_special_flags self) (m_special_flags role_pref) result
    else result
  else result.

(** Lines 116-125: material flags turn a non-match into a match unless a
    role flag is missing from them. *)
Definition material_block (self role_pref : Preference) (result : Z) : Z :=
  if negb (no_flags (m_material_flags self)) then
    let result := if Z.eqb result 0 then 1 else result in
    material_flags_loop (m_material_flags self) (m_special_flags role_pref) result
  else result.

(** Lines 127-129: without a match so far, compare the names. *)
Definition name_fallback (self role_pref : Preference) (result : Z) : Z :=
  if result <=? 0 then (if eq_ci (m_name role_pref) (m_name self) then 1 else 0)
  else result.

(** Lines 102-129, the branch of a role preference without exact match. *)
Definition flags_result (self role_pref : Preference) (result : Z) : Z :=
  name_fallback self role_pref (material_block self role_pref (special_block self role_pref result)).

(** Lines 91-131: the result for two preferences of the same category,
    before the unit is considered. *)
Definition category_result (self role_pref : Preference) : Z :=
  let result := 1 in
  let result := if negb (Z.eqb (m_iType self) (m_iType role_pref)) then 0 else result in
  if m_exact_match role_pref then
    (if eq_ci (m_name role_pref) (m_name self) then 1 else 0)
  else flags_result self role_pref result.

(** Lines 132-141: a matching weapon must be wieldable by the unit. *)
Definition wield_check (self role_pref : Preference) (d : option Dwarf) (result : Z) : Z :=
  match d with
  | Some dw =>
      if (0 <? result) && needs_weapon_check self role_pref then
        match find_weapon_def dw (m_name self) with
        | None => 0
        | Some w => if body_size dw <? multi_grasp w then 0 else result
        end
      else result
  | None => result
  end.

(** [matches(role_pref, d)]. *)
Definition matches (self role_pref : Preference) (d : option Dwarf) : Z :=
  if Z.eqb (m_pType self) (m_pType role_pref) then
    wield_check self role_pref d (category_result self role_pref)
  else 0.

(** [set_pref_flags(Race *r)]. *)
Definition set_pref_flags_race (p : Preference) (r : option Race) : Preference :=
  let p :=
    match r with
    | None => p
    | Some r =>
        let p := if race_has_flag r HATEABLE then add_flag p HATEABLE else p in
        let p := if caste_flag r TRAINABLE then add_flag p TRAINABLE else p in
        let p := if caste_flag r SHEARABLE then add_flag p SHEARABLE else p in
        let p := if caste_flag r FISHABLE then add_flag p FISHABLE else p in
        let p := if caste_flag r BUTCHERABLE then add_flag p BUTCHERABLE else p in
        let p := if caste_flag r MILKABLE then add_flag p MILKABLE else p in
        if caste_flag r HAS_EXTRACTS then
          (if caste_flag r FISHABLE then add_flag p VERMIN_FISH else add_flag p HAS_EXTRACTS)
        else p
    end in
  with_exact_match p true.

(** [set_pref_flags(Plant *p)]: saplings and trees add no flag. *)
Definition set_pref_flags_plant (p : Preference) (pl : option Plant) : Preference :=
  let p :=
    match pl with
    | None => p
    | Some pl =>
        if negb (plant_has_flag pl P_SAPLING) && negb (plant_has_flag pl P_TREE) then
          let p := if plant_has_flag pl P_DRINK then add_flag p P_DRINK else p in
          let p := if plant_has_flag pl P_CROP then add_flag p P_CROP else p in
          let p := if plant_has_flag pl P_MILL then add_flag p P_MILL else p in
          if plant_has_flag pl P_HAS_EXTRACTS then add_flag p P_HAS_EXTRACTS else p
        else p
    end in
  with_exact_match p true.

(** [set_pref_flags(ItemWeaponSubtype *w)]. *)
Definition set_pref_flags_weapon (p : Preference) (w : option ItemWeaponSubtype) : Preference :=
  let p :=
    match w with
    | None => p
    | Some w => if is_ranged w then add_flag p ITEMS_WEAPON_RANGED else add_flag p ITEMS_WEAPON
    end in
  with_exact_match p true.

(** ** Abstract specifications of the flag setters

    The flags each [set_pref_flags] overload promises to add, as a list of
    conditional entries; the theorems below show that the sequences of
    [add_flag] calls add exactly these. *)

Definition when (b : bool) (f : Z) : list Z := if b then [f] else [].

Definition race_flag_spec (r : Race) : list Z :=
  when (race_has_flag r HATEABLE) HATEABLE ++
  when (caste_flag r TRAINABLE) TRAINABLE ++
  when (caste_flag r SHEARABLE) SHEARABLE ++
  when (caste_flag r FISHABLE) FISHABLE ++
  when (caste_flag r BUTCHERABLE) BUTCHERABLE ++
  when (caste_flag r MILKABLE) MILKABLE ++
  when (caste_flag r HAS_EXTRACTS && caste_flag r FISHABLE) VERMIN_FISH ++
  when (caste_flag r HAS_EXTRACTS && negb (caste_flag r FISHABLE)) HAS_EXTRACTS.

Definition plant_flag_spec (pl : Plant) : list Z :=
  if plant_has_flag pl P_SAPLING || plant_has_flag pl P_TREE then []
  else when (plant_has_flag pl P_DRINK) P_DRINK ++
       when (plant_has_flag pl P_CROP) P_CROP ++
       when (plant_has_flag pl P_MILL) P_MILL ++
       when (plant_has_flag pl P_HAS_EXTRACTS) P_HAS_EXTRACTS.

(** A match result is 0 or 1. *)
Definition bit (z : Z) : Prop := z = 0 \/ z = 1.

(** Two preferences that differ at most in their item type [m_iType]. *)
Definition same_but_item_type (p p' : Preference) : Prop :=
  pref_aspect p' = pref_aspect p /\ m_name p' = m_name p /\ m_pType p' = m_pType p /\
  m_material_flags p' = m_material_flags p /\ m_special_flags p' = m_special_flags p /\
  m_exact_match p' = m_exact_match p.

End WithEnums.

(** Example enumeration values, used by the witnesses. *)
#[export] Instance dt_enums : DTEnums := {|
  LIKES_NONE := -1; NONE := -1; WEAPON := 24;
  ITEMS_WEAPON := 100; ITEMS_WEAPON_RANGED := 101;
  HATEABLE := 1; TRAINABLE := 2; SHEARABLE := 3; FISHABLE := 4;
  BUTCHERABLE := 5; MILKABLE := 6; HAS_EXTRACTS := 7; VERMIN_FISH := 8;
  P_SAPLING := 20; P_TREE := 21; P_DRINK := 22; P_CROP := 23; P_MILL := 24;
  P_HAS_EXTRACTS := 25 |}.

Section Proofs.
Context `{DTEnums}.

(** ** [add_flag] *)

Lemma contains_In (l : list Z) (f : Z) : contains l f = true <-> In f l.
Proof.
  unfold contains. rewrite existsb_exists. split.
  - intros [x [Hx E]]. apply Z.eqb_eq in E. now subst.
  - intros Hf. exists f. split; [exact Hf|apply Z.eqb_refl].
Qed.

Lemma add_flag_In (p : Preference) (f g : Z) :
  In g (m_special_flags (add_flag p f)) <-> g = f \/ In g (m_special_flags p).
Proof.
  unfold add_flag. destruct (contains _ f) eqn:E; simpl.
  - apply contains_In in E. split; [now right|intros [->|Hg]; assumption].
  - rewrite in_app_iff. simpl. intuition congruence.
Qed.

Lemma add_flag_NoDup (p : Preference) (f : Z) :
  NoDup (m_special_flags p) -> NoDup (m_special_flags (add_flag p f)).
Proof.
  unfold add_flag. destruct (contains _ f) eqn:E; simpl; [auto|].
  intros Hnd. apply NoDup_app; [exact Hnd|repeat constructor; simpl; tauto|].
  intros x Hx [<-|[]]. apply Bool.not_true_iff_false in E. apply E, contains_In, Hx.
Qed.

Lemma add_flag_when_In (p : Preference) (b : bool) (f g : Z) :
  In g (m_special_flags (if b then add_flag p f else p)) <->
  In g (when b f) \/ In g (m_special_flags p).
Proof. destruct b; simpl; [rewrite add_flag_In|]; intuition congruence. Qed.

Lemma add_flag_when_NoDup (p : Preference) (b : bool) (f : Z) :
  NoDup (m_special_flags p) -> NoDup (m_special_flags (if b then add_flag p f else p)).
Proof. destruct b; [apply add_flag_NoDup|auto]. Qed.

(** ** Match results are bits *)

Lemma special_flags_loop_bit (mine roles : list Z) (r : Z) :
  bit r -> bit (special_flags_loop mine roles r).
Proof.
  unfold special_flags_loop. revert r.
  induction roles as [|f roles IH]; intros r Hr; simpl; [exact Hr|].
  apply IH. destruct (contains mine f); [right; reflexivity|exact Hr].
Qed.

Lemma material_flags_loop_bit (fa : FlagArray) (roles : list Z) (r : Z) :
  bit r -> bit (material_flags_loop fa roles r).
Proof.
  induction roles as [|f roles IH]; intros Hr; simpl; [exact Hr|].
  destruct (negb _); [left; reflexivity|exact (IH Hr)].
Qed.

Lemma bit_reset (r a b : Z) : bit r -> bit a -> bit (if Z.eqb r b then a else r).
Proof. intros Hr Ha. destruct (Z.eqb r b); assumption. Qed.

Lemma bit_name (b : bool) : bit (if b then 1 else 0).
Proof. destruct b; [right|left]; reflexivity. Qed.

Lemma flags_result_bit (self role_pref : Preference) (r : Z) :
  bit r -> bit (flags_result self role_pref r).
Proof.
  intros Hr. unfold flags_result, name_fallback, material_block, special_block.
  assert (H1 : bit (if Z.eqb r 1 then 0 else r)) by (apply bit_reset; [exact Hr|left; reflexivity]).
  destruct (0 <? Z.of_nat (List.length (m_special_flags role_pref)));
    [destruct (0 <? Z.of_nat (List.length (m_special_flags self)));
       [apply (special_flags_loop_bit (m_special_flags self) (m_special_flags role_pref)) in H1|]|];
  match goal with Hb : bit ?r1 |- context [Z.eqb ?r1 0] =>
    assert (H2 : bit (if negb (no_flags (m_material_flags self))
                      then material_flags_loop (m_material_flags self) (m_special_flags role_pref)
                             (if Z.eqb r1 0 then 1 else r1) else r1))
      by (destruct (negb _); [apply material_flags_loop_bit, bit_reset; [exact Hb|right; reflexivity]|exact Hb]);
    destruct (negb _), (_ <=? 0); try apply bit_name; exact H2
  end.
Qed.

Lemma category_result_bit (self role_pref : Preference) : bit (category_result self role_pref).
Proof.
  unfold category_result. destruct (m_exact_match role_pref); [apply bit_name|].
  apply flags_result_bit. destruct (negb _); [left|right]; reflexivity.
Qed.

(** C15: [matches] always returns 0 or 1: the integer result is a boolean. *)
Theorem matches_is_bit (self role_pref : Preference) (d : option Dwarf) :
  matches self role_pref d = 0 \/ matches self role_pref d = 1.
Proof.
  unfold matches. destruct (Z.eqb _ _); [|left; reflexivity].
  pose proof (category_result_bit self role_pref) as Hb.
  unfold wield_check. destruct d as [dw|]; [|exact Hb].
  destruct (_ && _); [|exact Hb].
  destruct (find_weapon_def dw (m_name self)) as [w|]; [|left; reflexivity].
  destruct (body_size dw <? multi_grasp w); [left; reflexivity|exact Hb].
Qed.

(** C16: When the role preference demands an exact match, two preferences
    of the same category match exactly when their names are equal up to
    case (without a unit to check): the item types are not compared. *)
Theorem matches_exact_name (self role_pref : Preference) :
  m_exact_match role_pref = true -> m_pType self = m_pType role_pref ->
  matches self role_pref None = if eq_ci (m_name role_pref) (m_name self) then 1 else 0.
Proof.
  intros He Hp. unfold matches, wield_check, category_result.
  rewrite Hp, Z.eqb_refl, He. reflexivity.
Qed.

(** C17: A matching weapon preference is dropped when the unit cannot
    wield the weapon: no weapon definition has the name, or the unit's
    body size is below the weapon's multi-grasp size. *)
Theorem matches_unwieldable (self role_pref : Preference) (dw : Dwarf) :
  needs_weapon_check self role_pref = true ->
  (find_weapon_def dw (m_name self) = None \/
   exists w, find_weapon_def dw (m_name self) = Some w /\ body_size dw < multi_grasp w) ->
  matches self role_pref (Some dw) = 0.
Proof.
  intros Hn Hw. unfold matches. destruct (Z.eqb _ _); [|reflexivity].
  unfold wield_check. rewrite Hn, andb_true_r.
  destruct (category_result_bit self role_pref) as [E|E]; rewrite E; [reflexivity|simpl].
  destruct Hw as [-> | [w [-> Hlt]]]; [reflexivity|].
  apply Z.ltb_lt in Hlt. now rewrite Hlt.
Qed.

(** C18: A preference with material flags matches every role preference of
    its category that has no special flags and no exact-match demand,
    whatever the item types and names: the material check of lines 116-125
    iterates over the role's (empty) special flags and so never fails. *)
Theorem matches_material_vacuous (self role_pref : Preference) :
  m_pType self = m_pType role_pref -> m_exact_match role_pref = false ->
  m_special_flags role_pref = [] -> no_flags (m_material_flags self) = false ->
  matches self role_pref None = 1.
Proof.
  intros Hp He Hs Hm.
  unfold matches, wield_check, category_result, flags_result, name_fallback,
    material_block, special_block.
  rewrite Hp, Z.eqb_refl, He, Hs, Hm. simpl.
  destruct (Z.eqb (m_iType self) (m_iType role_pref)); reflexivity.
Qed.

(** C19: [add_flag f] makes [f] a special flag and adds nothing else, and
    adding the same flag twice is the same as adding it once. *)
Theorem add_flag_spec (p : Preference) (f : Z) :
  (forall g, In g (m_special_flags (add_flag p f)) <-> g = f \/ In g (m_special_flags p)) /\
  add_flag (add_flag p f) f = add_flag p f.
Proof.
  split; [apply add_flag_In|].
  unfold add_flag at 1.
  assert (Hc : contains (m_special_flags (add_flag p f)) f = true)
    by (apply contains_In, add_flag_In; left; reflexivity).
  now rewrite Hc.
Qed.

Ltac nodup_steps :=
  repeat match goal with
  | |- NoDup (m_special_flags (with_exact_match _ _)) => simpl m_special_flags
  | |- NoDup (m_special_flags (if _ then add_flag ?q _ else ?q)) => apply add_flag_when_NoDup
  | |- NoDup (m_special_flags (add_flag _ _)) => apply add_flag_NoDup
  | |- NoDup (m_special_flags (if ?b then _ else _)) => destruct b
  end.

(** C20: The special flags never hold a duplicate: [add_flag] and the three
    [set_pref_flags] overloads preserve [NoDup]. *)
Theorem special_flags_nodup (p : Preference) :
  NoDup (m_special_flags p) ->
  (forall f, NoDup (m_special_flags (add_flag p f))) /\
  (forall r, NoDup (m_special_flags (set_pref_flags_race p r))) /\
  (forall pl, NoDup (m_special_flags (set_pref_flags_plant p pl))) /\
  (forall w, NoDup (m_special_flags (set_pref_flags_weapon p w))).
Proof.
  intros Hnd. split; [intros f; apply add_flag_NoDup, Hnd|].
  split; [intros [r|]|split; [intros [pl|]|intros [w|]]];
    unfold set_pref_flags_race, set_pref_flags_plant, set_pref_flags_weapon; cbv zeta;
    nodup_steps; assumption.
Qed.

Ltac in_steps :=
  repeat match goal with
  | |- context [In _ (m_special_flags (with_exact_match _ _))] => simpl m_special_flags
  | |- context [In _ (m_special_flags (if _ then add_flag ?q _ else ?q))] => rewrite add_flag_when_In
  | |- context [In _ (m_special_flags (add_flag _ _))] => rewrite add_flag_In
  end.

(** [set_pref_flags] on a race adds exactly the flags of
    [race_flag_spec] (hateable, the caste flags, and [VERMIN_FISH] instead
    of [HAS_EXTRACTS] for a fishable race) and demands an exact match. *)
Lemma set_pref_flags_race_spec (p : Preference) (r : Race) :
  (forall g, In g (m_special_flags (set_pref_flags_race p (Some r))) <->
             In g (race_flag_spec r) \/ In g (m_special_flags p)) /\
  m_exact_match (set_pref_flags_race p (Some r)) = true.
Proof.
  split; [|reflexivity]. intros g. unfold set_pref_flags_race, race_flag_spec; cbv zeta.
  destruct (caste_flag r HAS_EXTRACTS), (caste_flag r FISHABLE); simpl andb; in_steps;
    rewrite ?in_app_iff; unfold when at 7 8; simpl; intuition congruence.
Qed.

(** [set_pref_flags] on a plant adds exactly the flags of
    [plant_flag_spec]: none for a sapling or a tree. *)
Lemma set_pref_flags_plant_spec (p : Preference) (pl : Plant) :
  (forall g, In g (m_special_flags (set_pref_flags_plant p (Some pl))) <->
             In g (plant_flag_spec pl) \/ In g (m_special_flags p)) /\
  m_exact_match (set_pref_flags_plant p (Some pl)) = true.
Proof.
  split; [|reflexivity]. intros g. unfold set_pref_flags_plant, plant_flag_spec; cbv zeta.
  destruct (plant_has_flag pl P_SAPLING), (plant_has_flag pl P_TREE); simpl;
    in_steps; rewrite ?in_app_iff; intuition congruence.
Qed.

(** [set_pref_flags] on a weapon adds the ranged flag for a ranged
    weapon and the melee flag otherwise, and nothing else. *)
Lemma set_pref_flags_weapon_spec (p : Preference) (w : ItemWeaponSubtype) :
  (forall g, In g (m_special_flags (set_pref_flags_weapon p (Some w))) <->
             g = (if is_ranged w then ITEMS_WEAPON_RANGED else ITEMS_WEAPON) \/
             In g (m_special_flags p)) /\
  m_exact_match (set_pref_flags_weapon p (Some w)) = true.
Proof.
  split; [|reflexivity]. intros g. unfold set_pref_flags_weapon.
  destruct (is_ranged w); simpl m_special_flags; apply add_flag_In.
Qed.

(** C21: The three [set_pref_flags] overloads refine their list
    specifications: on a race, a plant or a weapon each adds exactly the
    flags of [race_flag_spec], [plant_flag_spec] or the weapon's class
    flag, on a null pointer it adds none, and each demands an exact
    match. *)
Theorem set_pref_flags_spec (p : Preference) :
  (forall r g, In g (m_special_flags (set_pref_flags_race p r)) <->
     In g (match r with Some r => race_flag_spec r | None => [] end) \/ In g (m_special_flags p)) /\
  (forall pl g, In g (m_special_flags (set_pref_flags_plant p pl)) <->
     In g (match pl with Some pl => plant_flag_spec pl | None => [] end) \/
     In g (m_special_flags p)) /\
  (forall w g, In g (m_special_flags (set_pref_flags_weapon p w)) <->
     In g (match w with
           | Some w => [if is_ranged w then ITEMS_WEAPON_RANGED else ITEMS_WEAPON]
           | None => [] end) \/ In g (m_special_flags p)) /\
  (forall r pl w, m_exact_match (set_pref_flags_race p r) = true /\
     m_exact_match (set_pref_flags_plant p pl) = true /\
     m_exact_match (set_pref_flags_weapon p w) = true).
Proof.
  split; [|split; [|split]].
  - intros [r|] g; [apply set_pref_flags_race_spec|simpl; tauto].
  - intros [pl|] g; [apply set_pref_flags_plant_spec|simpl; tauto].
  - intros [w|] g; [|simpl; tauto]. rewrite (proj1 (set_pref_flags_weapon_spec p w) g).
    simpl. intuition.
  - intros r pl w. split; [|split]; reflexivity.
Qed.

(** ** Composition: a weapon preference matched against a role *)

Lemma special_flags_loop_one (mine roles : list Z) : special_flags_loop mine roles 1 = 1.
Proof.
  unfold special_flags_loop. induction roles as [|f fs IH]; simpl; [reflexivity|].
  destruct (contains mine f); exact IH.
Qed.

Lemma special_flags_loop_hit (mine roles : list Z) (f r : Z) :
  In f roles -> contains mine f = true -> special_flags_loop mine roles r = 1.
Proof.
  intros Hin Hc. revert r. induction roles as [|g gs IH]; intros r; [destruct Hin|].
  unfold special_flags_loop in *. simpl fold_left. destruct Hin as [->|Hin].
  - rewrite Hc. apply special_flags_loop_one.
  - apply IH, Hin.
Qed.

Lemma weapon_flags_fresh (p : Preference) (w : ItemWeaponSubtype) :
  m_special_flags p = [] ->
  m_special_flags (set_pref_flags_weapon p (Some w)) =
    [if is_ranged w then ITEMS_WEAPON_RANGED else ITEMS_WEAPON].
Proof.
  intros Hp. unfold set_pref_flags_weapon, add_flag. rewrite Hp.
  destruct (is_ranged w); reflexivity.
Qed.

(** C22: A unit's weapon preference, configured by [set_pref_flags] from
    its weapon (and with no flags of its own before), matches a role
    preference of its category that asks for the weapon's class flag
    without an exact match exactly when the unit can wield the weapon its
    name denotes: the game instance knows the weapon and the unit's body
    size reaches the weapon's multi-grasp size. *)
Theorem weapon_preference_match (p role : Preference) (w : ItemWeaponSubtype) (dw : Dwarf) :
  m_special_flags p = [] -> no_flags (m_material_flags p) = true ->
  m_pType p = m_pType role -> m_exact_match role = false ->
  In (if is_ranged w then ITEMS_WEAPON_RANGED else ITEMS_WEAPON) (m_special_flags role) ->
  matches (set_pref_flags_weapon p (Some w)) role (Some dw) =
    match find_weapon_def dw (m_name p) with
    | Some w' => if body_size dw <? multi_grasp w' then 0 else 1
    | None => 0
    end.
Proof.
  intros Hp Hm Ht He Hin. set (cf := if is_ranged w then ITEMS_WEAPON_RANGED else ITEMS_WEAPON) in *.
  set (self := set_pref_flags_weapon p (Some w)).
  assert (Hf : m_special_flags self = [cf]) by apply weapon_flags_fresh, Hp.
  assert (Hfields : m_pType self = m_pType p /\ m_material_flags self = m_material_flags p)
    by (unfold self, set_pref_flags_weapon, add_flag; destruct (is_ranged w), (contains _ _); easy).
  destruct Hfields as (HpT & Hmf).
  assert (Hlen : (0 <? Z.of_nat (List.length (m_special_flags role))) = true).
  { apply Z.ltb_lt. destruct (m_special_flags role); [destruct Hin|simpl; lia]. }
  assert (Hloop : forall r, special_flags_loop [cf] (m_special_flags role) r = 1).
  { intros r. apply (special_flags_loop_hit _ _ cf); [exact Hin|simpl; rewrite Z.eqb_refl; reflexivity]. }
  assert (Hweapon : needs_weapon_check self role = true).
  { unfold needs_weapon_check. rewrite Hlen, Hf. unfold cf. simpl.
    destruct (is_ranged w); rewrite Z.eqb_refl, ?orb_true_r; reflexivity. }
  unfold matches. rewrite HpT, Ht, Z.eqb_refl.
  unfold wield_check, category_result, flags_result, special_block, material_block, name_fallback.
  rewrite He, Hlen, Hf, Hmf, Hm. simpl negb. cbv zeta.
  replace (if Z.eqb (if negb (m_iType self =? m_iType role) then 0 else 1) 1 then 0
           else if negb (m_iType self =? m_iType role) then 0 else 1) with 0
    by (destruct (m_iType self =? m_iType role); reflexivity).
  rewrite Hloop. simpl. rewrite Hweapon.
  destruct (is_ranged w); unfold add_flag; destruct (contains _ _); reflexivity.
Qed.
(** ** The item-type comparison *)

Lemma flags_result_same (p p' r : Preference) (x : Z) :
  same_but_item_type p p' -> flags_result p' r x = flags_result p r x.
Proof.
  intros (_ & Hn & _ & Hm & Hs & _).
  unfold flags_result, name_fallback, material_block, special_block. now rewrite Hn, Hm, Hs.
Qed.

Lemma wield_check_same (p p' r : Preference) (d : option Dwarf) (x : Z) :
  same_but_item_type p p' -> wield_check p' r d x = wield_check p r d x.
Proof.
  intros (_ & Hn & _ & _ & Hs & _).
  unfold wield_check, needs_weapon_check. now rewrite Hn, Hs.
Qed.

(** The flag blocks and the name fallback forget whether the item types
    agreed, unless the role has no special flags, this preference no
    material flags, and the names differ. *)
Lemma flags_result_01 (p r : Preference) :
  flags_result p r 0 <> flags_result p r 1 ->
  m_special_flags r = [] /\ no_flags (m_material_flags p) = true /\
  eq_ci (m_name r) (m_name p) = false.
Proof.
  unfold flags_result, special_block, material_block, name_fallback.
  destruct (0 <? Z.of_nat (List.length (m_special_flags r))) eqn:Hs;
    [cbn [Z.eqb Pos.eqb]; intros []; reflexivity|].
  destruct (negb (no_flags (m_material_flags p))) eqn:Hm;
    [cbn [Z.eqb Pos.eqb]; intros []; reflexivity|].
  destruct (eq_ci (m_name r) (m_name p)); [cbn; intros []; reflexivity|].
  intros _. apply Z.ltb_ge in Hs. apply negb_false_iff in Hm.
  destruct (m_special_flags r); [|simpl in Hs; lia]. now split; [|split].
Qed.

Lemma category_result_item_type (p p' r : Preference) :
  same_but_item_type p p' -> category_result p r <> category_result p' r ->
  m_exact_match r = false /\ m_special_flags r = [] /\
  no_flags (m_material_flags p) = true /\ eq_ci (m_name r) (m_name p) = false.
Proof.
  intros Hp. pose proof Hp as (_ & Hn & _). unfold category_result.
  rewrite Hn, (flags_result_same p p' r _ Hp).
  destruct (m_exact_match r); [intros []; reflexivity|].
  intros Hne. split; [reflexivity|]. apply flags_result_01.
  destruct (negb (m_iType p =? m_iType r)), (negb (m_iType p' =? m_iType r));
    congruence.
Qed.

(** C24: The item-type comparison of lines 93-95 almost never decides the
    match: two preferences that differ only in their item type get
    different results against a role preference only when the role asks
    for no exact match and has no special flags, the preference has no
    material flags, and the names differ ignoring case; and in that case
    (without a unit) the one whose item type agrees gets 1 and the other
    0.  Every other branch overwrites the reset of line 94. *)
Theorem item_type_mismatch_matches (p p' r : Preference) (d : option Dwarf) :
  same_but_item_type p p' ->
  (matches p r d <> matches p' r d ->
   m_exact_match r = false /\ m_special_flags r = [] /\
   no_flags (m_material_flags p) = true /\ eq_ci (m_name r) (m_name p) = false) /\
  (m_pType p = m_pType r -> m_iType p = m_iType r -> m_iType p' <> m_iType r ->
   m_exact_match r = false -> m_special_flags r = [] ->
   no_flags (m_material_flags p) = true -> eq_ci (m_name r) (m_name p) = false ->
   matches p r None = 1 /\ matches p' r None = 0).
Proof.
  intros Hp. pose proof Hp as (_ & Hn & Ht & _). split.
  - intros Hne. apply (category_result_item_type p p' r Hp).
    intros Hc. apply Hne. unfold matches. rewrite Ht, <- Hc, (wield_check_same p p' r d _ Hp).
    reflexivity.
  - intros Hpt Hi Hi' He Hs Hm Hnm. unfold matches, category_result.
    rewrite Ht, Hpt, Z.eqb_refl, Hi, Z.eqb_refl, He, (flags_result_same p p' r _ Hp).
    apply Z.eqb_neq in Hi'. rewrite Hi'. cbn [negb wield_check].
    unfold flags_result, special_block, material_block, name_fallback.
    rewrite Hs, Hm, Hnm. split; reflexivity.
Qed.

End Proofs.

Open Scope string_scope.

Lemma weapon_preference_match_witness :
  let p := Preference_named 0 0 "pike" in
  let role := {| pref_aspect := 0; m_name := "spear"; m_pType := 0; m_iType := 24;
                 m_material_flags := mkFlagArray 0; m_special_flags := [100];
                 m_exact_match := false |} in
  let dw := {| body_size := 4; find_weapon_def := fun _ => Some (mkWeapon false 6) |} in
  m_special_flags p = [] /\ no_flags (m_material_flags p) = true /\
  m_pType p = m_pType role /\ m_exact_match role = false /\
  In (if is_ranged (mkWeapon false 6) then ITEMS_WEAPON_RANGED else ITEMS_WEAPON)
     (m_special_flags role) /\
  matches (set_pref_flags_weapon p (Some (mkWeapon false 6))) role (Some dw) = 0.
Proof.
  intros p role dw.
  assert (H1 : m_special_flags p = []) by reflexivity.
  assert (H2 : no_flags (m_material_flags p) = true) by reflexivity.
  assert (H3 : m_pType p = m_pType role) by reflexivity.
  assert (H4 : m_exact_match role = false) by reflexivity.
  assert (H5 : In (if is_ranged (mkWeapon false 6) then ITEMS_WEAPON_RANGED else ITEMS_WEAPON)
                  (m_special_flags role)) by (simpl; left; reflexivity).
  split; [exact H1|]. split; [exact H2|]. split; [exact H3|]. split; [exact H4|].
  split; [exact H5|].
  rewrite (weapon_preference_match p role (mkWeapon false 6) dw H1 H2 H3 H4 H5). reflexivity.
Defined.

Lemma matches_material_vacuous_witness :
  let self := {| pref_aspect := 0; m_name := "granite"; m_pType := 0; m_iType := 5;
                 m_material_flags := mkFlagArray 2; m_special_flags := [];
                 m_exact_match := false |} in
  let role := {| pref_aspect := 0; m_name := "steel"; m_pType := 0; m_iType := 24;
                 m_material_flags := mkFlagArray 0; m_special_flags := [];
                 m_exact_match := false |} in
  m_pType self = m_pType role /\ m_exact_match role = false /\
  m_special_flags role = [] /\ no_flags (m_material_flags self) = false /\
  matches self role None = 1.
Proof.
  intros self role.
  split; [reflexivity|]. split; [reflexivity|]. split; [reflexivity|]. split; [reflexivity|].
  apply matches_material_vacuous; reflexivity.
Defined.

Lemma matches_exact_name_witness :
  let self := {| pref_aspect := 0; m_name := "Iron"; m_pType := 0; m_iType := 5;
                 m_material_flags := mkFlagArray 0; m_special_flags := [];
                 m_exact_match := false |} in
  let role := {| pref_aspect := 0; m_name := "iron"; m_pType := 0; m_iType := 24;
                 m_material_flags := mkFlagArray 0; m_special_flags := [];
                 m_exact_match := true |} in
  m_exact_match role = true /\ m_pType self = m_pType role /\
  matches self role None = if eq_ci (m_name role) (m_name self) then 1 else 0.
Proof.
  intros self role. split; [reflexivity|]. split; [reflexivity|].
  apply matches_exact_name; reflexivity.
Defined.

Lemma matches_unwieldable_witness :
  let self := {| pref_aspect := 0; m_name := "pike"; m_pType := 0; m_iType := 24;
                 m_material_flags := mkFlagArray 0; m_special_flags := [];
                 m_exact_match := false |} in
  let role := {| pref_aspect := 0; m_name := "pike"; m_pType := 0; m_iType := 24;
                 m_material_flags := mkFlagArray 0; m_special_flags := [];
                 m_exact_match := true |} in
  let dw := {| body_size := 3; find_weapon_def := fun _ => Some (mkWeapon false 5) |} in
  needs_weapon_check self role = true /\
  (find_weapon_def dw (m_name self) = None \/
   exists w, find_weapon_def dw (m_name self) = Some w /\ body_size dw < multi_grasp w) /\
  matches self role (Some dw) = 0.
Proof.
  intros self role dw.
  assert (Hn : needs_weapon_check self role = true) by reflexivity.
  assert (Hw : find_weapon_def dw (m_name self) = None \/
               exists w, find_weapon_def dw (m_name self) = Some w /\ body_size dw < multi_grasp w).
  { right. exists (mkWeapon false 5). split; [reflexivity|simpl; lia]. }
  split; [exact Hn|]. split; [exact Hw|]. apply (matches_unwieldable self role dw Hn Hw).
Defined.

Lemma special_flags_nodup_witness :
  NoDup (m_special_flags (Preference_default 0)) /\
  NoDup (m_special_flags (set_pref_flags_weapon (Preference_default 0) (Some (mkWeapon true 1)))).
Proof.
  assert (Hnd : NoDup (m_special_flags (Preference_default 0))) by constructor.
  split; [exact Hnd|]. apply (special_flags_nodup (Preference_default 0) Hnd).
Defined.

Lemma item_type_mismatch_matches_witness :
  let p := {| pref_aspect := 0; m_name := "Iron"; m_pType := 0; m_iType := 0;
              m_material_flags := mkFlagArray 0; m_special_flags := [];
              m_exact_match := false |} in
  let p' := {| pref_aspect := 0; m_name := "Iron"; m_pType := 0; m_iType := 24;
               m_material_flags := mkFlagArray 0; m_special_flags := [];
               m_exact_match := false |} in
  let r := {| pref_aspect := 0; m_name := "copper"; m_pType := 0; m_iType := 0;
              m_material_flags := mkFlagArray 0; m_special_flags := [];
              m_exact_match := false |} in
  same_but_item_type p p' /\ matches p r None = 1 /\ matches p' r None = 0.
Proof.
  intros p p' r.
  assert (Hp : same_but_item_type p p') by (repeat split).
  split; [exact Hp|].
  apply (proj2 (item_type_mismatch_matches p p' r None Hp));
    reflexivity || discriminate.
Defined.

End Preference.
