(* ===== verification/Int32.v ===== *)
(** * 32-bit machine integers of histfigure.cpp

    [Module Int32] holds the arithmetic the class does on [VIRTADDR]
    (quint32) and [int]: [vadd] is the unsigned 32-bit sum of an address
    and an offset, [to_int32] the conversion of any value to [int]
    (two's complement) and [eqm32] their common equality modulo 2^32.
    Its lemmas are the arithmetic laws the kill tally of [HistFigure.v]
    uses: [eqm32] is an equivalence that [+] and [-] respect, [to_int32]
    keeps the residue, lands in the [int] range and is the identity
    there. *)

From Stdlib Require Import ZArith Lia Morphisms.
From S2P Require Import Prelude.
Open Scope Z_scope.

Module Int32.

(** [VIRTADDR + int]: unsigned 32-bit addition. *)
Definition vadd (a o : Z) : Z := wrap32 (a + o).

(** Conversion to [int] (32-bit two's complement). *)
Definition to_int32 (z : Z) : Z :=
  let m := z mod 2 ^ 32 in if m <? 2 ^ 31 then m else m - 2 ^ 32.

(** Congruence modulo 2^32: the equality of 32-bit machine integers. *)
Definition eqm32 (a b : Z) : Prop := a mod 2 ^ 32 = b mod 2 ^ 32.

(** ** Lemmas *)

#[export] Instance eqm32_equiv : Equivalence eqm32.
Proof. unfold eqm32. split; [intros ?|intros ??|intros ???]; congruence. Qed.

#[export] Instance eqm32_add : Proper (eqm32 ==> eqm32 ==> eqm32) Z.add.
Proof.
  intros a a' Ha b b' Hb. unfold eqm32 in *.
  rewrite Z.add_mod, Ha, Hb, <- Z.add_mod by lia. reflexivity.
Qed.

Lemma to_int32_eqm (z : Z) : eqm32 (to_int32 z) z.
Proof.
  unfold eqm32, to_int32.
  pose proof (Z.mod_pos_bound z (2 ^ 32) ltac:(lia)).
  destruct (_ <? _).
  - apply Z.mod_small. lia.
  - replace (z mod 2 ^ 32 - 2 ^ 32) with (z mod 2 ^ 32 + (-1) * 2 ^ 32) by lia.
    rewrite Z_mod_plus_full. apply Z.mod_small. lia.
Qed.

Lemma to_int32_small (z : Z) : - 2 ^ 31 <= z < 2 ^ 31 -> to_int32 z = z.
Proof.
  intros Hz. unfold to_int32.
  destruct (Z.leb_spec 0 z).
  - rewrite Z.mod_small by lia. destruct (Z.ltb_spec z (2 ^ 31)); lia.
  - replace (z mod 2 ^ 32) with (z + 2 ^ 32).
    + destruct (Z.ltb_spec (z + 2 ^ 32) (2 ^ 31)); lia.
    + symmetry. rewrite <- (Z_mod_plus_full z 1). apply Z.mod_small. lia.
Qed.

Lemma to_int32_range (z : Z) : - 2 ^ 31 <= to_int32 z < 2 ^ 31.
Proof.
  unfold to_int32. pose proof (Z.mod_pos_bound z (2 ^ 32) ltac:(lia)).
  destruct (Z.ltb_spec (z mod 2 ^ 32) (2 ^ 31)); lia.
Qed.

(** Two congruent values in the [int] range are equal. *)
Lemma eqm32_int_eq (a b : Z) :
  eqm32 a b -> - 2 ^ 31 <= a < 2 ^ 31 -> - 2 ^ 31 <= b < 2 ^ 31 -> a = b.
Proof.
  intros E Ha Hb. rewrite <- (to_int32_small a Ha), <- (to_int32_small b Hb).
  unfold to_int32. rewrite E. reflexivity.
Qed.

Lemma eqm32_of_eq (a b : Z) : a = b -> eqm32 a b.
Proof. intros ->. reflexivity. Qed.

#[export] Instance eqm32_sub : Proper (eqm32 ==> eqm32 ==> eqm32) Z.sub.
Proof.
  intros a a' Ha b b' Hb. unfold eqm32 in *.
  rewrite Zminus_mod, Ha, Hb, <- Zminus_mod. reflexivity.
Qed.

End Int32.
