(* ===== verification/QString.v ===== *)
(** * [QString::arg] as histfigure.cpp uses it

    [Module QString] models [QString::arg(a)] on the format strings of
    [notable_kills] and [other_kills] (lines 146 and 154): [qarg] finds the
    lowest place marker [%1]..[%9] of the string built so far
    ([lowest_marker]) and replaces each of its occurrences by [a]
    ([replace_marker]), without rescanning [a].  [pct_free] holds of a
    string with no [%]; the lemmas say that such a prefix is skipped by
    both scans, which the kill-line theorems of [HistFigure.v] use. *)

From stdpp Require Import base strings.
From Stdlib Require Import Ascii.
From S2P Require Import Prelude.

Module QString.

(** ** The place markers and [arg] *)

(** The digit of a place marker: [%1] .. [%9]. *)
Definition marker_digit (c : ascii) : option nat :=
  let d := (nat_of_ascii c - 48)%nat in
  if (49 <=? nat_of_ascii c)%nat && (nat_of_ascii c <=? 57)%nat then Some d else None.

Definition omin (a b : option nat) : option nat :=
  match a, b with
  | Some x, Some y => Some (Nat.min x y)
  | Some x, None => Some x
  | None, o => o
  end.

(** The lowest place marker of a format string. *)
Fixpoint lowest_marker (s : string) : option nat :=
  match s with
  | EmptyString => None
  | String a rest =>
      let here :=
        if Ascii.eqb a "%" then
          match rest with String c _ => marker_digit c | EmptyString => None end
        else None in
      omin here (lowest_marker rest)
  end.

(** Replace every [%d] of [s] by [a], without rescanning [a]. *)
Fixpoint replace_marker (s : string) (d : nat) (a : string) : string :=
  match s with
  | EmptyString => EmptyString
  | String x rest =>
      if Ascii.eqb x "%" then
        match rest with
        | String c rest' =>
            if bool_decide (marker_digit c = Some d) then a ++ replace_marker rest' d a
            else String x (replace_marker rest d a)
        | EmptyString => String x EmptyString
        end
      else String x (replace_marker rest d a)
  end.

(** [QString::arg(a)]. *)
Definition qarg (s a : string) : string :=
  match lowest_marker s with
  | Some d => replace_marker s d a
  | None => s
  end.

(** A string with no [%] character: [QString::arg] finds no place marker
    in it. *)
Fixpoint pct_free (s : string) : bool :=
  match s with
  | EmptyString => true
  | String c rest => negb (Ascii.eqb c "%") && pct_free rest
  end.

(** ** Lemmas on [QString::arg] *)

Lemma string_app_cons (c : ascii) (s t : string) : (String c s ++ t)%string = String c (s ++ t).
Proof. reflexivity. Qed.

Lemma string_app_nil_r (s : string) : (s ++ EmptyString)%string = s.
Proof. induction s as [|c s IH]; [reflexivity|]. rewrite string_app_cons, IH. reflexivity. Qed.

Lemma lowest_marker_free (a s : string) :
  pct_free a = true -> lowest_marker (a ++ s) = lowest_marker s.
Proof.
  induction a as [|c a IH]; [reflexivity|]. rewrite string_app_cons. simpl.
  intros [Hc Ha]%andb_true_iff. apply negb_true_iff in Hc. rewrite Hc, IH by exact Ha.
  reflexivity.
Qed.

Lemma replace_marker_free (a s b : string) (d : nat) :
  pct_free a = true -> replace_marker (a ++ s) d b = (a ++ replace_marker s d b)%string.
Proof.
  induction a as [|c a IH]; [reflexivity|]. rewrite !string_app_cons. simpl.
  intros [Hc Ha]%andb_true_iff. apply negb_true_iff in Hc. rewrite Hc, IH by exact Ha.
  reflexivity.
Qed.

End QString.
