(* ===== verification/HistFigure.v ===== *)
(** * Historical figures and their kills (src/src/histfigure.cpp)

    [Module HistFigure] models [class HistFigure].  The game's memory is
    read through [DFInstance], an external collaborator: it is the record
    [DFInstance] of the reads the file makes ([read_addr], [read_int],
    [read_short], [enumerate_vector], [find_event], ...) and of the string
    store [df_strings] that [read_string] reads and [write_string]
    updates.  The memory layout's offsets are the record [MemoryLayout].
    Many figures share one game instance, so the instance is not a field
    of a figure: every member function takes it as an argument and the one
    that writes ([write_nick_name]) returns the updated instance.

    Integers are kept at their width: addresses ([VIRTADDR], quint32) are
    added modulo 2^32 ([vadd]); [int] values read from a [quint32]
    vector and the [int] sums of read_kills wrap to 32-bit two's
    complement ([to_int32]); both are in [Int32.v].  [QVector::at] out of range (a failed
    assertion in Qt) is the error [None].

    Helpers outside the sources ([capitalize], [capitalizeEach],
    [QString::toLower], the comparators [sort_kill_count] and
    [sort_kill_date] of histfigure.h, the decimal rendering of an [int])
    are the fields of the class [HistHelpers]: the theorems hold for every
    choice.  [qSort] is stdpp's [merge_sort] by the comparator: the
    theorems use only that it permutes its input, which [qSort] does.
    [QString::arg] is [QString.qarg] ([QString.v]): it replaces every
    occurrence of the lowest place marker %1..%9. *)

From stdpp Require Import base gmap sorting list strings pretty.
From Stdlib Require Import Ascii.
From Stdlib Require Import ZArith Lia.
From S2P Require Import Prelude Int32 QString.
Import Int32 QString.
Open Scope Z_scope.

Module HistFigure.

(** ** Machine integers (see [Int32.v]) *)

Abbreviation VIRTADDR := Z (only parsing).

(** ** The game objects and the memory layout *)

Record RaceName := mkRaceName { race_name : Z -> string }.   (* r->name(count) *)

Record DFInstance := mkDFInstance {
  find_historical_figure : Z -> VIRTADDR;
  read_addr : VIRTADDR -> VIRTADDR;
  read_int : VIRTADDR -> Z;
  read_short : VIRTADDR -> Z;
  enumerate_vector : VIRTADDR -> list VIRTADDR;
  enumerate_vector_short : VIRTADDR -> list Z;
  find_event : Z -> VIRTADDR;
  get_race : Z -> option RaceName;
  get_translated_word : VIRTADDR -> string;
  find_identity : Z -> VIRTADDR;
  df_strings : gmap Z string }.

Definition read_string (df : DFInstance) (a : VIRTADDR) : string :=
  default EmptyString (df_strings df !! a).

Definition write_string (df : DFInstance) (a : VIRTADDR) (s : string) : DFInstance :=
  {| find_historical_figure := find_historical_figure df; read_addr := read_addr df;
     read_int := read_int df; read_short := read_short df;
     enumerate_vector := enumerate_vector df;
     enumerate_vector_short := enumerate_vector_short df;
     find_event := find_event df; get_race := get_race df;
     get_translated_word := get_translated_word df; find_identity := find_identity df;
     df_strings := <[a := s]> (df_strings df) |}.

Record MemoryLayout := mkMemoryLayout {
  hist_figure_offset : string -> Z;
  dwarf_offset : string -> Z }.

(** ** The figure *)

Record kill_info := mk_kill_info {
  ki_name : string;
  ki_creature : string;
  ki_year : Z;
  ki_count : Z }.

Record HistFigure := mkHistFigure {
  m_id : Z;
  m_address : VIRTADDR;
  m_fig_info_addr : VIRTADDR;
  m_fake_ident_addr : VIRTADDR;
  m_fake_name_addr : VIRTADDR;
  m_fake_name : string;
  m_fake_nick : string;
  m_fake_birth_year : Z;
  m_fake_birth_time : Z;
  m_total_kills_other : Z;
  m_nick_addrs : list VIRTADDR;
  m_other_kills : list kill_info;
  m_notable_kills : list kill_info;
  m_notable_kill_list : list string;
  m_other_kill_list : list string }.

Class HistHelpers := {
  capitalize : string -> string;
  capitalizeEach : string -> string;
  toLower : string -> string;
  int_to_string : Z -> string;
  sort_kill_count : relation kill_info;
  sort_kill_count_dec :: RelDecision sort_kill_count;
  sort_kill_date : relation kill_info;
  sort_kill_date_dec :: RelDecision sort_kill_date }.

(** ** Field updates *)

Definition set_kills (hf : HistFigure) (other : list kill_info) (total : Z)
    (notable : list kill_info) : HistFigure :=
  {| m_id := m_id hf; m_address := m_address hf; m_fig_info_addr := m_fig_info_addr hf;
     m_fake_ident_addr := m_fake_ident_addr hf; m_fake_name_addr := m_fake_name_addr hf;
     m_fake_name := m_fake_name hf; m_fake_nick := m_fake_nick hf;
     m_fake_birth_year := m_fake_birth_year hf; m_fake_birth_time := m_fake_birth_time hf;
     m_total_kills_other := total; m_nick_addrs := m_nick_addrs hf;
     m_other_kills := other; m_notable_kills := notable;
     m_notable_kill_list := m_notable_kill_list hf; m_other_kill_list := m_other_kill_list hf |}.

Definition set_kill_lists (hf : HistFigure) (notable other : list string) : HistFigure :=
  {| m_id := m_id hf; m_address := m_address hf; m_fig_info_addr := m_fig_info_addr hf;
     m_fake_ident_addr := m_fake_ident_addr hf; m_fake_name_addr := m_fake_name_addr hf;
     m_fake_name := m_fake_name hf; m_fake_nick := m_fake_nick hf;
     m_fake_birth_year := m_fake_birth_year hf; m_fake_birth_time := m_fake_birth_time hf;
     m_total_kills_other := m_total_kills_other hf; m_nick_addrs := m_nick_addrs hf;
     m_other_kills := m_other_kills hf; m_notable_kills := m_notable_kills hf;
     m_notable_kill_list := notable; m_other_kill_list := other |}.

Section WithHelpers.
Context `{HistHelpers}.

(** ** [read_kills] (lines 58-121) *)

(** Lines 68-76: group the kills at the current site by race, an undead
    race under its negated id; [at(idx)] past the end is an error. *)
Fixpoint group_kills_from (ids : list Z) (idx : nat) (undead cur : list Z)
    (kills : gmap Z Z) : option (gmap Z Z) :=
  match ids with
  | [] => Some kills
  | rid :: ids' =>
      match undead !! idx, cur !! idx with
      | Some u, Some c =>
          let id := if bool_decide (u <> 0) then - rid else rid in
          let count := to_int32 c in
          let curr_count := default 0 (kills !! id) in
          group_kills_from ids' (S idx) undead cur (<[id := to_int32 (count + curr_count)]> kills)
      | _, _ => None
      end
  end.

Definition group_kills (race_ids undead cur : list Z) : option (gmap Z Z) :=
  group_kills_from race_ids 0 undead cur empty.

(** Lines 82-88: the creature name of a race id. *)
Definition race_creature (df : DFInstance) (race_id count : Z) : string :=
  match get_race df (Z.abs race_id) with
  | Some r =>
      let c := toLower (race_name r count) in
      if race_id <? 0 then "undead " ++ c else c
  | None => EmptyString
  end.

(** Lines 77-91: one [kill_info] per race, appended, and the running total. *)
Definition tally_other_kills (df : DFInstance) (kills : gmap Z Z)
    (other : list kill_info) (total : Z) : list kill_info * Z :=
  foldl (fun acc kv =>
           let ki := {| ki_count := kv.2; ki_name := EmptyString; ki_year := -1;
                        ki_creature := race_creature df kv.1 kv.2 |} in
           (acc.1 ++ [ki], to_int32 (acc.2 + ki_count ki)))
        (other, total) (map_to_list kills).

(** Lines 96-116: the notable kill recorded by one event, if any. *)
Definition notable_kill (df : DFInstance) (mem : MemoryLayout) (evt_id : Z) : option kill_info :=
  let evt_addr := find_event df evt_id in
  if evt_addr =? 0 then None else
  let vtable_addr := read_addr df evt_addr in
  let evt_type := read_int df (vadd (read_addr df vtable_addr) 1) in
  if negb (evt_type =? 3) then None else
  let id := read_int df (vadd evt_addr 24) in
  let h_fig_addr := find_historical_figure df id in
  if h_fig_addr =? 0 then None else
  let name_addr := vadd h_fig_addr (hist_figure_offset mem "hist_name") in
  Some {| ki_name := capitalizeEach (read_string df name_addr ++ " " ++
                                     get_translated_word df name_addr);
          ki_count := 1;
          ki_creature :=
            match get_race df (read_short df (vadd h_fig_addr (hist_figure_offset mem "hist_race"))) with
            | Some r => toLower (race_name r 1)
            | None => EmptyString
            end;
          ki_year := read_int df (vadd evt_addr 4) |}.

(** Line 59: the address of the figure's kill vectors. *)
Definition kills_vector_addr (df : DFInstance) (hf : HistFigure) : VIRTADDR :=
  read_addr df (vadd (m_fig_info_addr hf) 24).

Definition read_kills (df : DFInstance) (mem : MemoryLayout) (hf : HistFigure) : option HistFigure :=
  let kills_addr := kills_vector_addr df hf in
  if kills_addr =? 0 then Some hf else
  let kill_events := enumerate_vector df kills_addr in
  let race_ids := enumerate_vector_short df (vadd kills_addr 16) in
  let undead_kills := enumerate_vector_short df (vadd kills_addr 96) in
  let cur_site_kills := enumerate_vector df (vadd kills_addr 112) in
  let other :=
    if bool_decide (0 < length cur_site_kills)%nat then
      match group_kills race_ids undead_kills cur_site_kills with
      | Some kills =>
          let r := tally_other_kills df kills (m_other_kills hf) (m_total_kills_other hf) in
          Some (merge_sort sort_kill_count r.1, r.2)
      | None => None
      end
    else Some (m_other_kills hf, m_total_kills_other hf) in
  match other with
  | None => None
  | Some (o, total) =>
      let notable :=
        if bool_decide (0 < length kill_events)%nat then
          merge_sort sort_kill_date (m_notable_kills hf ++ omap (notable_kill df mem) kill_events)
        else m_notable_kills hf in
      Some (set_kills hf o total notable)
  end.

(** ** The constructor (lines 29-51) *)

Definition HistFigure_new (id : Z) (df : DFInstance) (mem : MemoryLayout) : option HistFigure :=
  let address := find_historical_figure df id in
  let hf0 := {| m_id := id; m_address := address; m_fig_info_addr := 0;
                m_fake_ident_addr := 0; m_fake_name_addr := 0;
                m_fake_name := EmptyString; m_fake_nick := EmptyString;
                m_fake_birth_year := 0; m_fake_birth_time := 0; m_total_kills_other := 0;
                m_nick_addrs := []; m_other_kills := []; m_notable_kills := [];
                m_notable_kill_list := []; m_other_kill_list := [] |} in
  if address =? 0 then Some hf0 else
  let nick := vadd (vadd address (hist_figure_offset mem "hist_name")) (dwarf_offset mem "nick_name") in
  let fig_info := read_addr df (vadd address (hist_figure_offset mem "hist_fig_info")) in
  read_kills df mem
    {| m_id := id; m_address := address; m_fig_info_addr := fig_info;
       m_fake_ident_addr := 0; m_fake_name_addr := 0;
       m_fake_name := EmptyString; m_fake_nick := EmptyString;
       m_fake_birth_year := 0; m_fake_birth_time := 0; m_total_kills_other := 0;
       m_nick_addrs := [nick]; m_other_kills := []; m_notable_kills := [];
       m_notable_kill_list := []; m_other_kill_list := [] |}.

(** ** Queries and cached lists (lines 123-158) *)

(** [write_nick_name]: the new nickname at every non-null address. *)
Definition write_nick_name (df : DFInstance) (hf : HistFigure) (new_nick : string) : DFInstance :=
  foldl (fun df addr => if addr =? 0 then df else write_string df addr new_nick)
        df (m_nick_addrs hf).

Definition total_kills (hf : HistFigure) : Z :=
  to_int32 (Z.of_nat (length (m_notable_kills hf)) + m_total_kills_other hf).

Definition kill_count (hf : HistFigure) (notable : bool) : Z :=
  if negb notable then m_total_kills_other hf else Z.of_nat (length (m_notable_kills hf)).

Definition format_notable (ki : kill_info) : string :=
  qarg (qarg (qarg "%2 the %1, d.%3" (ki_creature ki)) (ki_name ki)) (int_to_string (ki_year ki)).

Definition format_other (ki : kill_info) : string :=
  qarg (qarg "%1 %2" (int_to_string (ki_count ki))) (ki_creature ki).

(** [notable_kills]: built on the first call with kills, then cached. *)
Definition notable_kills (hf : HistFigure) : list string * HistFigure :=
  if bool_decide (length (m_notable_kill_list hf) = 0%nat) && (0 <? kill_count hf true) then
    let l := m_notable_kill_list hf ++ map format_notable (m_notable_kills hf) in
    (l, set_kill_lists hf l (m_other_kill_list hf))
  else (m_notable_kill_list hf, hf).

Definition other_kills (hf : HistFigure) : list string * HistFigure :=
  if bool_decide (length (m_other_kill_list hf) = 0%nat) && (0 <? kill_count hf false) then
    let l := m_other_kill_list hf ++ map format_other (m_other_kills hf) in
    (l, set_kill_lists hf (m_notable_kill_list hf) l)
  else (m_other_kill_list hf, hf).

(** ** [has_fake_identity] (lines 160-174) *)

(** Line 161: the figure's reputation record. *)
Definition reputation_addr (df : DFInstance) (mem : MemoryLayout) (hf : HistFigure) : VIRTADDR :=
  read_addr df (vadd (m_fig_info_addr hf) (hist_figure_offset mem "reputation")).

(** Lines 163-164: the identity the reputation record points to. *)
Definition current_identity (df : DFInstance) (mem : MemoryLayout) (rep_info : VIRTADDR) : VIRTADDR :=
  find_identity df (read_int df (vadd rep_info (hist_figure_offset mem "current_ident"))).

(** Line 167: the nickname address of an identity. *)
Definition identity_nick_addr (mem : MemoryLayout) (fake_ident : VIRTADDR) : VIRTADDR :=
  vadd (vadd fake_ident (hist_figure_offset mem "fake_name")) (dwarf_offset mem "nick_name").

Definition has_fake_identity (df : DFInstance) (mem : MemoryLayout) (hf : HistFigure)
  : bool * HistFigure :=
  let rep_info := reputation_addr df mem hf in
  let hf' :=
    if rep_info =? 0 then hf else
    let fake_ident := current_identity df mem rep_info in
    let fake_name_addr := vadd fake_ident (hist_figure_offset mem "fake_name") in
    let fake_name := capitalize (read_string df (vadd fake_name_addr (dwarf_offset mem "first_name"))) in
    let nick_addrs := m_nick_addrs hf ++ [identity_nick_addr mem fake_ident] in
    let fake_nick := read_string df (default 0 (last nick_addrs)) in
    {| m_id := m_id hf; m_address := m_address hf; m_fig_info_addr := m_fig_info_addr hf;
       m_fake_ident_addr := fake_ident; m_fake_name_addr := fake_name_addr;
       m_fake_name := fake_name; m_fake_nick := fake_nick;
       m_fake_birth_year := to_int32 (vadd fake_ident (hist_figure_offset mem "fake_birth_year"));
       m_fake_birth_time := to_int32 (vadd fake_ident (hist_figure_offset mem "fake_birth_time"));
       m_total_kills_other := m_total_kills_other hf; m_nick_addrs := nick_addrs;
       m_other_kills := m_other_kills hf; m_notable_kills := m_notable_kills hf;
       m_notable_kill_list := m_notable_kill_list hf; m_other_kill_list := m_other_kill_list hf |} in
  (negb (m_fake_ident_addr hf' =? 0), hf').

End WithHelpers.

(** ** Specification helpers *)

Definition zsum (l : list Z) : Z := foldr Z.add 0 l.

Definition map_sum (m : gmap Z Z) : Z := map_fold (fun _ v acc => v + acc) 0 m.

(** The kills at the current site that [read_kills] should tally: the
    counts at the indices of the race-id vector. *)
Definition site_kills (df : DFInstance) (hf : HistFigure) : Z :=
  let kills_addr := kills_vector_addr df hf in
  if kills_addr =? 0 then 0 else
  let race_ids := enumerate_vector_short df (vadd kills_addr 16) in
  let cur_site_kills := enumerate_vector df (vadd kills_addr 112) in
  if bool_decide (0 < length cur_site_kills)%nat
  then zsum (take (length race_ids) cur_site_kills) else 0.

(** ** A small game memory, used by the witnesses *)

#[export] Instance example_helpers : HistHelpers := {|
  capitalize := fun s => s; capitalizeEach := fun s => s; toLower := fun s => s;
  int_to_string := fun z => pretty z;
  sort_kill_count := fun a b => ki_count b <= ki_count a;
  sort_kill_count_dec := fun a b => Z.le_dec (ki_count b) (ki_count a);
  sort_kill_date := fun a b => ki_year a <= ki_year b;
  sort_kill_date_dec := fun a b => Z.le_dec (ki_year a) (ki_year b) |}.

Definition example_layout : MemoryLayout := {|
  hist_figure_offset := fun key =>
    if String.eqb key "hist_name" then 8 else if String.eqb key "hist_fig_info" then 16
    else if String.eqb key "reputation" then 32 else if String.eqb key "current_ident" then 4
    else if String.eqb key "fake_name" then 40 else if String.eqb key "fake_birth_year" then 48
    else 0;
  dwarf_offset := fun key => if String.eqb key "nick_name" then 4 else 0 |}.

(** Figure 7 lives at 4000, its info at 1000, its kill vectors at 5000:
    races [3; 7; 3], undead flags [0; 0; 1], site counts [2; 5; 1]; its
    reputation at 6000 names identity [ident], whose birth year 250 is
    stored at [ident + 48]. *)
Definition example_df (ident : Z) : DFInstance := {|
  find_historical_figure := fun id => if id =? 7 then 4000 else 0;
  read_addr := fun a =>
    if a =? 4016 then 1000 else if a =? 1024 then 5000 else if a =? 1032 then 6000 else 0;
  read_int := fun a => if a =? ident + 48 then 250 else 0;
  read_short := fun _ => 0;
  enumerate_vector := fun a => if a =? 5112 then [2; 5; 1] else [];
  enumerate_vector_short := fun a =>
    if a =? 5016 then [3; 7; 3] else if a =? 5096 then [0; 0; 1] else [];
  find_event := fun _ => 0;
  get_race := fun _ => None;
  get_translated_word := fun _ => EmptyString;
  find_identity := fun _ => ident;
  df_strings := empty |}.

(** The instance [df] with the [int] at address [a] replaced by [v]. *)
Definition update_read_int (df : DFInstance) (a v : Z) : DFInstance := {|
  find_historical_figure := find_historical_figure df; read_addr := read_addr df;
  read_int := fun a' => if a' =? a then v else read_int df a';
  read_short := read_short df; enumerate_vector := enumerate_vector df;
  enumerate_vector_short := enumerate_vector_short df; find_event := find_event df;
  get_race := get_race df; get_translated_word := get_translated_word df;
  find_identity := find_identity df; df_strings := df_strings df |}.

Definition example_figure : HistFigure :=
  default {| m_id := 0; m_address := 0; m_fig_info_addr := 0; m_fake_ident_addr := 0;
             m_fake_name_addr := 0; m_fake_name := EmptyString; m_fake_nick := EmptyString;
             m_fake_birth_year := 0; m_fake_birth_time := 0; m_total_kills_other := 0;
             m_nick_addrs := []; m_other_kills := []; m_notable_kills := [];
             m_notable_kill_list := []; m_other_kill_list := [] |}
    (HistFigure_new 7 (example_df 0) example_layout).

Definition example_before : HistFigure :=
  set_kills example_figure [] 0 [].

Definition example_after : HistFigure :=
  default example_before (read_kills (example_df 0) example_layout example_before).

(** ** Sums over the kill map *)

Lemma map_sum_insert_None (m : gmap Z Z) (i x : Z) :
  m !! i = None -> map_sum (<[i := x]> m) = x + map_sum m.
Proof.
  intros Hi. unfold map_sum. apply map_fold_insert_L; [|exact Hi]. intros. lia.
Qed.

Lemma map_sum_insert (m : gmap Z Z) (i x : Z) :
  map_sum (<[i := x]> m) = x + map_sum m - default 0 (m !! i).
Proof.
  destruct (m !! i) as [v|] eqn:Hi; simpl.
  - rewrite <- (insert_delete_eq m i x).
    rewrite map_sum_insert_None by apply lookup_delete_eq.
    rewrite <- (insert_id m i v Hi) at 2. rewrite <- (insert_delete_eq m i v).
    rewrite map_sum_insert_None by apply lookup_delete_eq. lia.
  - rewrite map_sum_insert_None by exact Hi. lia.
Qed.

Lemma map_sum_to_list (m : gmap Z Z) : map_sum m = zsum (map snd (map_to_list m)).
Proof.
  unfold map_sum. rewrite map_fold_foldr. unfold zsum.
  induction (map_to_list m) as [|[k v] l IH]; simpl; [reflexivity|]. now rewrite IH.
Qed.

Section KillLemmas.
Context `{HistHelpers}.

(** Grouping by race keeps the sum of the counts, modulo 2^32. *)
Lemma group_kills_from_sum (ids : list Z) (idx : nat) (undead cur : list Z)
    (k k' : gmap Z Z) :
  group_kills_from ids idx undead cur k = Some k' ->
  eqm32 (map_sum k') (map_sum k + zsum (take (length ids) (drop idx cur))).
Proof.
  revert idx k. induction ids as [|rid ids IH]; intros idx k Hg; simpl in Hg.
  - injection Hg as <-. apply eqm32_of_eq. simpl. lia.
  - destruct (undead !! idx) as [u|] eqn:Hu; [|discriminate].
    destruct (cur !! idx) as [c|] eqn:Hc; [|discriminate].
    etransitivity; [exact (IH _ _ Hg)|].
    rewrite map_sum_insert, (drop_S cur c idx Hc). simpl take. cbn [zsum foldr].
    rewrite (to_int32_eqm (to_int32 c + _)), (to_int32_eqm c).
    apply eqm32_of_eq. unfold zsum. lia.
Qed.

(** The grouping fails exactly when one of the two vectors it indexes is
    shorter than the race-id vector. *)
Lemma group_kills_from_None (ids : list Z) (idx : nat) (undead cur : list Z) (k : gmap Z Z) :
  group_kills_from ids idx undead cur k = None <->
  (0 < length ids /\ (length undead < idx + length ids \/ length cur < idx + length ids))%nat.
Proof.
  revert idx k. induction ids as [|rid ids IH]; intros idx k; simpl.
  - split; [discriminate|lia].
  - destruct (undead !! idx) as [u|] eqn:Hu; destruct (cur !! idx) as [c|] eqn:Hc.
    + rewrite IH. apply lookup_lt_Some in Hu, Hc. lia.
    + split; [intros _|reflexivity]. apply lookup_ge_None in Hc. lia.
    + split; [intros _|reflexivity]. apply lookup_ge_None in Hu. lia.
    + split; [intros _|reflexivity]. apply lookup_ge_None in Hu. lia.
Qed.

(** The running total of [tally_other_kills], modulo 2^32. *)
Lemma tally_total (df : DFInstance) (kills : gmap Z Z) (o : list kill_info) (t : Z) :
  eqm32 (tally_other_kills df kills o t).2 (t + map_sum kills).
Proof.
  unfold tally_other_kills. rewrite map_sum_to_list.
  generalize (map_to_list kills) as l. intros l. revert o t.
  induction l as [|[rid c] l IH]; intros o t; simpl.
  - apply eqm32_of_eq. unfold zsum. simpl. lia.
  - etransitivity; [apply IH|]. simpl. rewrite (to_int32_eqm (t + c)).
    apply eqm32_of_eq. unfold zsum. simpl. lia.
Qed.

(** The running total stays an [int] when it starts as one. *)
Lemma tally_total_range (df : DFInstance) (kills : gmap Z Z) (o : list kill_info) (t : Z) :
  - 2 ^ 31 <= t < 2 ^ 31 -> - 2 ^ 31 <= (tally_other_kills df kills o t).2 < 2 ^ 31.
Proof.
  unfold tally_other_kills. generalize (map_to_list kills) as l. intros l. revert o t.
  induction l as [|[rid c] l IH]; intros o t Ht; simpl; [exact Ht|].
  apply IH, to_int32_range.
Qed.

(** ** The contract of [read_kills] *)

(** C25: [read_kills] fails (a [QVector::at] past the end) exactly when the
    figure has kill vectors, some kill at the current site, and the undead
    flags or the site counts are shorter than the race ids: the loop of
    lines 68-76 indexes them with the race ids' indices unchecked. *)
Theorem read_kills_error (df : DFInstance) (mem : MemoryLayout) (hf : HistFigure) :
  read_kills df mem hf = None <->
  kills_vector_addr df hf <> 0 /\
  (0 < length (enumerate_vector df (vadd (kills_vector_addr df hf) 112)) /\
   (length (enumerate_vector_short df (vadd (kills_vector_addr df hf) 96)) <
      length (enumerate_vector_short df (vadd (kills_vector_addr df hf) 16)) \/
    length (enumerate_vector df (vadd (kills_vector_addr df hf) 112)) <
      length (enumerate_vector_short df (vadd (kills_vector_addr df hf) 16))))%nat.
Proof.
  unfold read_kills. set (ka := kills_vector_addr df hf).
  destruct (Z.eqb_spec ka 0) as [E|E]; [split; [discriminate|intros [? _]; contradiction]|].
  case_bool_decide as Hc.
  - destruct (group_kills _ _ _) as [k|] eqn:G; simpl.
    + split; [discriminate|]. intros (_ & _ & Hlen).
      unfold group_kills in G.
      rewrite (proj2 (group_kills_from_None _ 0 _ _ empty)) in G; [discriminate|].
      destruct Hlen; split; lia.
    + split; [intros _|reflexivity]. unfold group_kills in G.
      apply group_kills_from_None in G. split; [exact E|]. split; [exact Hc|lia].
  - split; [discriminate|]. intros (_ & Hc' & _). contradiction.
Qed.

Lemma read_kills_Some_total (df : DFInstance) (mem : MemoryLayout) (hf hf' : HistFigure) :
  read_kills df mem hf = Some hf' ->
  (site_kills df hf = 0 /\ m_total_kills_other hf' = m_total_kills_other hf) \/
  (exists kills o,
     group_kills (enumerate_vector_short df (vadd (kills_vector_addr df hf) 16))
       (enumerate_vector_short df (vadd (kills_vector_addr df hf) 96))
       (enumerate_vector df (vadd (kills_vector_addr df hf) 112)) = Some kills /\
     site_kills df hf =
       zsum (take (length (enumerate_vector_short df (vadd (kills_vector_addr df hf) 16)))
               (enumerate_vector df (vadd (kills_vector_addr df hf) 112))) /\
     m_total_kills_other hf' = (tally_other_kills df kills o (m_total_kills_other hf)).2).
Proof.
  unfold read_kills, site_kills. set (ka := kills_vector_addr df hf).
  destruct (Z.eqb ka 0); [intros [= <-]; left; split; reflexivity|].
  case_bool_decide as Hc.
  - destruct (group_kills _ _ _) as [k|] eqn:G; [|discriminate].
    intros [= <-]. right. exists k, (m_other_kills hf). split; [reflexivity|]. split; reflexivity.
  - intros [= <-]. left. split; reflexivity.
Qed.

Lemma read_kills_total_eqm (df : DFInstance) (mem : MemoryLayout) (hf hf' : HistFigure) :
  read_kills df mem hf = Some hf' ->
  eqm32 (m_total_kills_other hf') (m_total_kills_other hf + site_kills df hf).
Proof.
  intros Hr. destruct (read_kills_Some_total df mem hf hf' Hr)
    as [[-> ->]|(k & o & G & -> & ->)].
  - apply eqm32_of_eq. lia.
  - etransitivity; [apply tally_total|]. unfold group_kills in G.
    rewrite (group_kills_from_sum _ _ _ _ _ _ G). apply eqm32_of_eq.
    unfold map_sum. rewrite map_fold_empty, drop_0. lia.
Qed.

(** C26: The other-kills total grows by the kills at the current site,
    modulo 2^32: grouping by race and summing the groups loses no kill. *)
Theorem read_kills_total (df : DFInstance) (mem : MemoryLayout) (hf hf' : HistFigure) :
  read_kills df mem hf = Some hf' ->
  eqm32 (m_total_kills_other hf') (m_total_kills_other hf + site_kills df hf).
Proof. apply read_kills_total_eqm. Qed.

(** C27: When the total is an [int] and the exact new total fits in an
    [int], the other-kills total is exactly the old total plus the kills
    at the current site, and it stays an [int]. *)
Theorem read_kills_total_exact (df : DFInstance) (mem : MemoryLayout) (hf hf' : HistFigure) :
  read_kills df mem hf = Some hf' ->
  - 2 ^ 31 <= m_total_kills_other hf < 2 ^ 31 ->
  - 2 ^ 31 <= m_total_kills_other hf + site_kills df hf < 2 ^ 31 ->
  m_total_kills_other hf' = m_total_kills_other hf + site_kills df hf.
Proof.
  intros Hr Ht Hs. apply eqm32_int_eq; [apply (read_kills_total_eqm df mem hf hf' Hr)| |exact Hs].
  destruct (read_kills_Some_total df mem hf hf' Hr) as [[_ ->]|(k & o & _ & _ & ->)];
    [exact Ht|apply tally_total_range, Ht].
Qed.

(** ** Cached kill lists, nicknames and the fake identity *)

(** C28: [notable_kills] and [other_kills] build their list once and then
    serve the cache: a second call returns the same list and changes
    nothing; built from an empty cache with a positive count, the list has
    one line per kill record. *)
Theorem kill_lists_cached (hf : HistFigure) :
  notable_kills (notable_kills hf).2 = notable_kills hf /\
  other_kills (other_kills hf).2 = other_kills hf /\
  (m_notable_kill_list hf = [] ->
   length (notable_kills hf).1 = length (m_notable_kills hf)) /\
  (m_other_kill_list hf = [] -> 0 < m_total_kills_other hf ->
   length (other_kills hf).1 = length (m_other_kills hf)).
Proof.
  unfold notable_kills, other_kills, kill_count; simpl negb.
  repeat split.
  - destruct (bool_decide (length (m_notable_kill_list hf) = 0%nat) &&
              (0 <? Z.of_nat (length (m_notable_kills hf)))) eqn:E; simpl; [|rewrite E; reflexivity].
    apply andb_true_iff in E as [E1 E2]. apply bool_decide_eq_true in E1.
    rewrite bool_decide_eq_false_2; [reflexivity|].
    rewrite length_app, length_map. apply Z.ltb_lt in E2. lia.
  - destruct (bool_decide (length (m_other_kill_list hf) = 0%nat) &&
              (0 <? m_total_kills_other hf)) eqn:E; simpl; [|rewrite E; reflexivity].
    apply andb_true_iff in E as [E1 E2]. apply bool_decide_eq_true in E1.
    destruct (m_other_kills hf) as [|ki ks] eqn:Ho.
    + apply nil_length_inv in E1. rewrite E1. simpl. rewrite E2. reflexivity.
    + rewrite bool_decide_eq_false_2; [reflexivity|]. rewrite length_app. simpl. lia.
  - intros Hl. rewrite Hl. simpl.
    destruct (0 <? _) eqn:E; simpl; [rewrite length_map; reflexivity|].
    apply Z.ltb_ge in E. destruct (m_notable_kills hf); simpl in *; lia.
  - intros Hl Ht. rewrite Hl. simpl. apply Z.ltb_lt in Ht. rewrite Ht. simpl.
    apply length_map.
Qed.

Lemma read_string_write (df : DFInstance) (b a : Z) (s : string) :
  read_string (write_string df b s) a = if bool_decide (a = b) then s else read_string df a.
Proof.
  unfold read_string, write_string; simpl. case_bool_decide as E.
  - subst. rewrite lookup_insert_eq. reflexivity.
  - rewrite lookup_insert_ne by congruence. reflexivity.
Qed.

Lemma write_nick_name_read (df : DFInstance) (hf : HistFigure) (s : string) (a : Z) :
  read_string (write_nick_name df hf s) a =
  if bool_decide (a <> 0 /\ a ∈ m_nick_addrs hf) then s else read_string df a.
Proof.
  unfold write_nick_name. generalize (m_nick_addrs hf) as l. intros l. revert df.
  induction l as [|b l IH]; intros df; simpl.
  - rewrite bool_decide_eq_false_2; [reflexivity|]. intros [_ Hin]. set_solver.
  - rewrite IH. destruct (Z.eqb_spec b 0) as [Hb|Hb]; [|rewrite read_string_write];
      repeat case_bool_decide; set_solver.
Qed.

(** C29: After [write_nick_name], reading a string at an address gives the
    new nickname when the address is one of the figure's non-null
    nickname addresses, and the old contents everywhere else. *)
Theorem write_nick_name_spec (df : DFInstance) (hf : HistFigure) (s : string) (a : Z) :
  read_string (write_nick_name df hf s) a =
  if bool_decide (a <> 0 /\ a ∈ m_nick_addrs hf) then s else read_string df a.
Proof. apply write_nick_name_read. Qed.

Lemma has_fake_identity_fig_info (df : DFInstance) (mem : MemoryLayout) (hf : HistFigure) :
  m_fig_info_addr (has_fake_identity df mem hf).2 = m_fig_info_addr hf.
Proof. unfold has_fake_identity. destruct (reputation_addr df mem hf =? 0); reflexivity. Qed.

Lemma has_fake_identity_nicks (df : DFInstance) (mem : MemoryLayout) (hf : HistFigure) :
  reputation_addr df mem hf <> 0 ->
  m_nick_addrs (has_fake_identity df mem hf).2 =
  m_nick_addrs hf ++ [identity_nick_addr mem (current_identity df mem (reputation_addr df mem hf))].
Proof.
  intros Hr. unfold has_fake_identity. apply Z.eqb_neq in Hr. rewrite Hr. reflexivity.
Qed.

(** C30: Each call of [has_fake_identity] on a figure with a reputation
    appends the identity's nickname address again: two calls leave it
    twice in [m_nick_addrs], and [write_nick_name] then writes it twice. *)
Theorem has_fake_identity_twice (df : DFInstance) (mem : MemoryLayout) (hf : HistFigure) :
  reputation_addr df mem hf <> 0 ->
  m_nick_addrs (has_fake_identity df mem (has_fake_identity df mem hf).2).2 =
  m_nick_addrs hf ++
    [identity_nick_addr mem (current_identity df mem (reputation_addr df mem hf));
     identity_nick_addr mem (current_identity df mem (reputation_addr df mem hf))].
Proof.
  intros Hr.
  assert (Hr' : reputation_addr df mem (has_fake_identity df mem hf).2 = reputation_addr df mem hf)
    by (unfold reputation_addr; now rewrite has_fake_identity_fig_info).
  rewrite has_fake_identity_nicks by (rewrite Hr'; exact Hr).
  rewrite has_fake_identity_nicks by exact Hr. rewrite Hr', <- app_assoc. reflexivity.
Qed.

(** C31: When the reputation points to no identity ([find_identity]
    returns 0), [has_fake_identity] answers false but still records the
    nickname address computed from the null identity, so a later
    [write_nick_name] writes the nickname at that address, which is the
    sum of two layout offsets. *)
Theorem null_identity_nick_write (df : DFInstance) (mem : MemoryLayout) (hf : HistFigure)
    (s : string) :
  reputation_addr df mem hf <> 0 ->
  current_identity df mem (reputation_addr df mem hf) = 0 ->
  identity_nick_addr mem 0 <> 0 ->
  (has_fake_identity df mem hf).1 = false /\
  read_string (write_nick_name df (has_fake_identity df mem hf).2 s) (identity_nick_addr mem 0) = s.
Proof.
  intros Hr Hi Hn. split.
  - unfold has_fake_identity. apply Z.eqb_neq in Hr. rewrite Hr. simpl. rewrite Hi. reflexivity.
  - rewrite write_nick_name_read, bool_decide_eq_true_2; [reflexivity|].
    split; [exact Hn|]. rewrite has_fake_identity_nicks by exact Hr. rewrite Hi. set_solver.
Qed.

Lemma read_kills_keeps (df : DFInstance) (mem : MemoryLayout) (hf hf' : HistFigure) :
  read_kills df mem hf = Some hf' ->
  m_id hf' = m_id hf /\ m_address hf' = m_address hf /\ m_nick_addrs hf' = m_nick_addrs hf.
Proof.
  unfold read_kills. destruct (_ =? 0); [intros [= <-]; auto|].
  destruct (if bool_decide _ then _ else _) as [[o t]|]; [|discriminate].
  intros [= <-]. repeat split.
Qed.

(** C33: The constructor records the id and the figure's address; a figure
    that is not found gets no nickname address and no kills, and a found
    one gets exactly the nickname address of its name. *)
Theorem HistFigure_new_spec (id : Z) (df : DFInstance) (mem : MemoryLayout) (hf : HistFigure) :
  HistFigure_new id df mem = Some hf ->
  m_id hf = id /\ m_address hf = find_historical_figure df id /\
  m_nick_addrs hf =
    (if find_historical_figure df id =? 0 then []
     else [vadd (vadd (find_historical_figure df id) (hist_figure_offset mem "hist_name"))
             (dwarf_offset mem "nick_name")]) /\
  (find_historical_figure df id = 0 ->
   m_other_kills hf = [] /\ m_notable_kills hf = [] /\ m_total_kills_other hf = 0).
Proof.
  unfold HistFigure_new. destruct (Z.eqb_spec (find_historical_figure df id) 0) as [E|E].
  - intros [= <-]. simpl.
    split; [reflexivity|]. split; [reflexivity|]. split; [reflexivity|].
    intros _. repeat split.
  - intros Hr. apply read_kills_keeps in Hr as (-> & -> & ->). simpl.
    split; [reflexivity|]. split; [reflexivity|]. split; [reflexivity|].
    intros; contradiction.
Qed.

(** C34: [read_kills] sorts what it reads: the notable kills become a
    permutation of the old ones and the kills the events record, sorted by
    [sort_kill_date] when there were events; the other kills become a
    permutation of the old ones and one record per race, sorted by
    [sort_kill_count] when there were kills at the site (the comparators
    being total, as [qSort] needs). *)
Theorem read_kills_sorted (df : DFInstance) (mem : MemoryLayout) (hf hf' : HistFigure)
    (Hdate : Total sort_kill_date) (Hcount : Total sort_kill_count) :
  read_kills df mem hf = Some hf' ->
  m_notable_kills hf' ≡ₚ m_notable_kills hf ++
    (if kills_vector_addr df hf =? 0 then []
     else omap (notable_kill df mem) (enumerate_vector df (kills_vector_addr df hf))) /\
  (kills_vector_addr df hf <> 0 -> enumerate_vector df (kills_vector_addr df hf) <> [] ->
   Sorted sort_kill_date (m_notable_kills hf')) /\
  (kills_vector_addr df hf <> 0 ->
   enumerate_vector df (vadd (kills_vector_addr df hf) 112) <> [] ->
   Sorted sort_kill_count (m_other_kills hf')).
Proof.
  unfold read_kills. set (ka := kills_vector_addr df hf).
  destruct (Z.eqb_spec ka 0) as [E|E].
  { intros [= <-]. split; [rewrite app_nil_r; reflexivity|]. split; intros; contradiction. }
  destruct (if bool_decide _ then _ else _) as [[o t]|] eqn:Ho; [|discriminate].
  intros [= <-]. cbn [m_notable_kills m_other_kills set_kills].
  split; [|split].
  - destruct (decide (0 < length (enumerate_vector df ka))%nat) as [Hl|Hl].
    + rewrite bool_decide_eq_true_2 by exact Hl. apply merge_sort_Permutation.
    + rewrite bool_decide_eq_false_2 by exact Hl.
      destruct (enumerate_vector df ka); [rewrite app_nil_r; reflexivity|simpl in Hl; lia].
  - intros _ Hne. rewrite bool_decide_eq_true_2 by (apply length_pos_nonempty, Hne).
    apply Sorted_merge_sort; exact Hdate.
  - intros _ Hne. rewrite bool_decide_eq_true_2 in Ho by (apply length_pos_nonempty, Hne).
    destruct (group_kills _ _ _); [|discriminate].
    injection Ho as <- _. apply Sorted_merge_sort; exact Hcount.
Qed.

Lemma format_other_text (ki : kill_info) :
  pct_free (int_to_string (ki_count ki)) = true ->
  format_other ki = (int_to_string (ki_count ki) ++ " " ++ ki_creature ki)%string.
Proof.
  intros Hx. unfold format_other, qarg.
  set (x := int_to_string (ki_count ki)) in *. set (y := ki_creature ki).
  assert (L1 : lowest_marker "%1 %2" = Some 1%nat) by reflexivity. rewrite L1.
  assert (R1 : replace_marker "%1 %2" 1 x = (x ++ " %2")%string) by reflexivity. rewrite R1.
  rewrite lowest_marker_free by exact Hx.
  assert (L2 : lowest_marker " %2" = Some 2%nat) by reflexivity. rewrite L2. cbv beta iota.
  rewrite replace_marker_free by exact Hx.
  assert (R2 : replace_marker " %2" 2 y = (" " ++ y ++ EmptyString)%string) by reflexivity.
  rewrite R2, string_app_nil_r. reflexivity.
Qed.

Lemma format_notable_text (ki : kill_info) :
  pct_free (ki_creature ki) = true -> pct_free (ki_name ki) = true ->
  format_notable ki =
    (ki_name ki ++ " the " ++ ki_creature ki ++ ", d." ++ int_to_string (ki_year ki))%string.
Proof.
  intros Hc Hn. unfold format_notable, qarg.
  set (c := ki_creature ki) in *. set (n := ki_name ki) in *. set (y := int_to_string (ki_year ki)).
  assert (L1 : lowest_marker "%2 the %1, d.%3" = Some 1%nat) by reflexivity. rewrite L1.
  cbv beta iota.
  assert (R1 : replace_marker "%2 the %1, d.%3" 1 c = ("%2 the " ++ c ++ ", d.%3")%string)
    by reflexivity. rewrite R1.
  assert (L2 : forall t, lowest_marker ("%2 the " ++ t)%string = omin (Some 2%nat) (lowest_marker t))
    by reflexivity.
  rewrite L2, lowest_marker_free by exact Hc.
  assert (L2' : lowest_marker ", d.%3" = Some 3%nat) by reflexivity. rewrite L2'. cbn [omin Nat.min]. cbv beta iota.
  assert (R2 : forall t, replace_marker ("%2 the " ++ t)%string 2 n = (n ++ " the " ++ replace_marker t 2 n)%string)
    by reflexivity.
  assert (R2' : replace_marker ", d.%3" 2 n = ", d.%3") by reflexivity.
  rewrite R2, (replace_marker_free c) , R2' by exact Hc.
  assert (L3 : forall t, lowest_marker (" the " ++ t)%string = lowest_marker t) by reflexivity.
  rewrite lowest_marker_free, L3, lowest_marker_free, L2' by assumption. cbv beta iota.
  assert (R3 : forall t, replace_marker (" the " ++ t)%string 3 y = (" the " ++ replace_marker t 3 y)%string)
    by reflexivity.
  assert (R4 : replace_marker ", d.%3" 3 y = (", d." ++ y ++ EmptyString)%string) by reflexivity.
  rewrite replace_marker_free, R3, replace_marker_free, R4, string_app_nil_r by assumption.
  reflexivity.
Qed.

(** C38: The kill lines read as intended: a notable kill is
    ["<name> the <creature>, d.<year>"] when the creature and the name
    hold no [%] (each [arg] rescans the text built so far), and another
    kill is ["<count> <creature>"] when the rendered count holds none. *)
Theorem kill_lines_format (ki : kill_info) :
  pct_free (ki_creature ki) = true -> pct_free (ki_name ki) = true ->
  pct_free (int_to_string (ki_count ki)) = true ->
  format_notable ki =
    (ki_name ki ++ " the " ++ ki_creature ki ++ ", d." ++ int_to_string (ki_year ki))%string /\
  format_other ki = (int_to_string (ki_count ki) ++ " " ++ ki_creature ki)%string.
Proof.
  intros Hc Hn Hx. split; [apply format_notable_text; assumption|apply format_other_text, Hx].
Qed.

(** C32: [has_fake_identity] stores in [m_fake_birth_year] and
    [m_fake_birth_time] the addresses of the identity's birth fields, not
    the values stored there (lines 170-171): two game instances that agree
    on the reputation pointer and on the identity it leads to give the same
    two fields, whatever [int]s they hold at those addresses, and the year
    field is the identity's address plus the [fake_birth_year] offset. *)
Theorem fake_birth_year_is_address (df1 df2 : DFInstance) (mem : MemoryLayout) (hf : HistFigure) :
  reputation_addr df1 mem hf = reputation_addr df2 mem hf ->
  current_identity df1 mem (reputation_addr df1 mem hf) =
  current_identity df2 mem (reputation_addr df2 mem hf) ->
  m_fake_birth_year (has_fake_identity df1 mem hf).2 =
  m_fake_birth_year (has_fake_identity df2 mem hf).2 /\
  m_fake_birth_time (has_fake_identity df1 mem hf).2 =
  m_fake_birth_time (has_fake_identity df2 mem hf).2 /\
  (reputation_addr df1 mem hf <> 0 ->
   m_fake_birth_year (has_fake_identity df1 mem hf).2 =
   to_int32 (vadd (m_fake_ident_addr (has_fake_identity df1 mem hf).2)
                  (hist_figure_offset mem "fake_birth_year"))).
Proof.
  intros Hr Hc. rewrite <- Hr in Hc. unfold has_fake_identity. cbn [snd]. rewrite <- Hr, <- Hc.
  destruct (reputation_addr df1 mem hf =? 0) eqn:E; cbn [m_fake_birth_year m_fake_birth_time];
    (split; [reflexivity|split; [reflexivity|]]).
  - intros Hne. apply Z.eqb_eq in E. contradiction.
  - intros _. reflexivity.
Qed.

End KillLemmas.

(** ** Witnesses *)

Lemma read_kills_total_witness :
  read_kills (example_df 0) example_layout example_before = Some example_after /\
  eqm32 (m_total_kills_other example_after)
        (m_total_kills_other example_before + site_kills (example_df 0) example_before).
Proof.
  assert (Hr : read_kills (example_df 0) example_layout example_before = Some example_after)
    by (vm_compute; reflexivity).
  split; [exact Hr|]. exact (read_kills_total _ _ _ _ Hr).
Defined.

Lemma read_kills_total_exact_witness :
  read_kills (example_df 0) example_layout example_before = Some example_after /\
  - 2 ^ 31 <= m_total_kills_other example_before < 2 ^ 31 /\
  - 2 ^ 31 <= m_total_kills_other example_before + site_kills (example_df 0) example_before < 2 ^ 31 /\
  m_total_kills_other example_after =
    m_total_kills_other example_before + site_kills (example_df 0) example_before.
Proof.
  assert (Hr : read_kills (example_df 0) example_layout example_before = Some example_after)
    by (vm_compute; reflexivity).
  assert (H1 : - 2 ^ 31 <= m_total_kills_other example_before < 2 ^ 31)
    by (vm_compute; split; congruence).
  assert (H2 : - 2 ^ 31 <= m_total_kills_other example_before +
                 site_kills (example_df 0) example_before < 2 ^ 31)
    by (vm_compute; split; congruence).
  split; [exact Hr|]. split; [exact H1|]. split; [exact H2|].
  exact (read_kills_total_exact _ _ _ _ Hr H1 H2).
Defined.

Lemma kill_lists_cached_witness :
  m_other_kill_list example_after = [] /\ 0 < m_total_kills_other example_after /\
  length (other_kills example_after).1 = length (m_other_kills example_after).
Proof.
  assert (Hl : m_other_kill_list example_after = []) by (vm_compute; reflexivity).
  assert (Ht : 0 < m_total_kills_other example_after) by (vm_compute; reflexivity).
  split; [exact Hl|]. split; [exact Ht|].
  exact (proj2 (proj2 (proj2 (kill_lists_cached example_after))) Hl Ht).
Defined.

Lemma has_fake_identity_twice_witness :
  reputation_addr (example_df 9000) example_layout example_figure <> 0 /\
  m_nick_addrs (has_fake_identity (example_df 9000) example_layout
                  (has_fake_identity (example_df 9000) example_layout example_figure).2).2 =
  m_nick_addrs example_figure ++
    [identity_nick_addr example_layout
       (current_identity (example_df 9000) example_layout
          (reputation_addr (example_df 9000) example_layout example_figure));
     identity_nick_addr example_layout
       (current_identity (example_df 9000) example_layout
          (reputation_addr (example_df 9000) example_layout example_figure))].
Proof.
  assert (Hr : reputation_addr (example_df 9000) example_layout example_figure <> 0)
    by (vm_compute; discriminate).
  split; [exact Hr|]. exact (has_fake_identity_twice _ _ _ Hr).
Defined.

Lemma null_identity_nick_write_witness :
  reputation_addr (example_df 0) example_layout example_figure <> 0 /\
  current_identity (example_df 0) example_layout
    (reputation_addr (example_df 0) example_layout example_figure) = 0 /\
  identity_nick_addr example_layout 0 <> 0 /\
  (has_fake_identity (example_df 0) example_layout example_figure).1 = false /\
  read_string (write_nick_name (example_df 0)
                 (has_fake_identity (example_df 0) example_layout example_figure).2 "Urist")
              (identity_nick_addr example_layout 0) = "Urist".
Proof.
  assert (Hr : reputation_addr (example_df 0) example_layout example_figure <> 0)
    by (vm_compute; discriminate).
  assert (Hi : current_identity (example_df 0) example_layout
                 (reputation_addr (example_df 0) example_layout example_figure) = 0)
    by (vm_compute; reflexivity).
  assert (Hn : identity_nick_addr example_layout 0 <> 0) by (vm_compute; discriminate).
  split; [exact Hr|]. split; [exact Hi|]. split; [exact Hn|].
  exact (null_identity_nick_write _ _ _ "Urist" Hr Hi Hn).
Defined.

Lemma read_kills_sorted_witness :
  Total (@sort_kill_date example_helpers) /\ Total (@sort_kill_count example_helpers) /\
  Sorted sort_kill_count (m_other_kills example_after).
Proof.
  assert (Hd : Total (@sort_kill_date example_helpers)) by (intros a b; simpl; lia).
  assert (Hc : Total (@sort_kill_count example_helpers)) by (intros a b; simpl; lia).
  assert (Hr : read_kills (example_df 0) example_layout example_before = Some example_after)
    by (vm_compute; reflexivity).
  split; [exact Hd|]. split; [exact Hc|].
  apply (proj2 (proj2 (read_kills_sorted _ _ _ _ Hd Hc Hr))); vm_compute; discriminate.
Defined.

Lemma kill_lines_format_witness :
  let ki := {| ki_name := "Urist"; ki_creature := "goblin"; ki_year := 250; ki_count := 3 |} in
  pct_free (ki_creature ki) = true /\ pct_free (ki_name ki) = true /\
  pct_free (int_to_string (ki_count ki)) = true /\
  format_notable ki = "Urist the goblin, d.250"%string /\ format_other ki = "3 goblin"%string.
Proof.
  intros ki.
  assert (Hc : pct_free (ki_creature ki) = true) by reflexivity.
  assert (Hn : pct_free (ki_name ki) = true) by reflexivity.
  assert (Hx : pct_free (int_to_string (ki_count ki)) = true) by (vm_compute; reflexivity).
  split; [exact Hc|]. split; [exact Hn|]. split; [exact Hx|].
  destruct (kill_lines_format ki Hc Hn Hx) as [-> ->]. split; vm_compute; reflexivity.
Defined.

Lemma HistFigure_new_spec_witness :
  HistFigure_new 7 (example_df 0) example_layout = Some example_figure /\
  m_id example_figure = 7 /\
  m_address example_figure = find_historical_figure (example_df 0) 7 /\
  m_nick_addrs example_figure =
    (if find_historical_figure (example_df 0) 7 =? 0 then []
     else [vadd (vadd (find_historical_figure (example_df 0) 7)
                   (hist_figure_offset example_layout "hist_name"))
             (dwarf_offset example_layout "nick_name")]) /\
  (find_historical_figure (example_df 0) 7 = 0 ->
   m_other_kills example_figure = [] /\ m_notable_kills example_figure = [] /\
   m_total_kills_other example_figure = 0).
Proof.
  assert (Hn : HistFigure_new 7 (example_df 0) example_layout = Some example_figure)
    by (vm_compute; reflexivity).
  split; [exact Hn|]. exact (HistFigure_new_spec _ _ _ _ Hn).
Defined.

Lemma fake_birth_year_is_address_witness :
  let df1 := example_df 9000 in
  let df2 := update_read_int (example_df 9000) 9048 1234 in
  reputation_addr df1 example_layout example_figure =
  reputation_addr df2 example_layout example_figure /\
  current_identity df1 example_layout (reputation_addr df1 example_layout example_figure) =
  current_identity df2 example_layout (reputation_addr df2 example_layout example_figure) /\
  read_int df1 9048 = 250 /\ read_int df2 9048 = 1234 /\
  m_fake_birth_year (has_fake_identity df1 example_layout example_figure).2 =
  m_fake_birth_year (has_fake_identity df2 example_layout example_figure).2 /\
  m_fake_birth_year (has_fake_identity df1 example_layout example_figure).2 = 9048.
Proof.
  intros df1 df2.
  assert (Hr : reputation_addr df1 example_layout example_figure =
               reputation_addr df2 example_layout example_figure) by reflexivity.
  assert (Hc : current_identity df1 example_layout (reputation_addr df1 example_layout example_figure) =
               current_identity df2 example_layout (reputation_addr df2 example_layout example_figure))
    by reflexivity.
  destruct (fake_birth_year_is_address df1 df2 example_layout example_figure Hr Hc) as (Hy & _ & Ha).
  split; [exact Hr|]. split; [exact Hc|]. split; [reflexivity|]. split; [reflexivity|].
  split; [exact Hy|]. rewrite Ha by (vm_compute; discriminate). vm_compute. reflexivity.
Defined.

End HistFigure.
